(** * mWHO pregnancy-risk calculator: the classification engine of App.tsx

    The source file holds three drafts of the same React component.  Each
    draft is embedded in a module of its own ([Draft1], [Draft2], [Draft3]),
    in the order in which they appear in the file.  The types shared by the
    three drafts come first. *)

From Stdlib Require Import ZArith.
From stdpp Require Import gmap strings list fin_maps.

Open Scope string_scope.
Open Scope Z_scope.

(** ** Types and helpers *)

(** [type MWHO = "I" | "II" | "II–III" | "III" | "IV"] *)
Inductive MWHO : Type := I | II | II_III | III | IV.

#[global] Instance MWHO_eq_dec : EqDecision MWHO.
Proof. solve_decision. Defined.

(** A value of type [MWHO | null]: [None] is [null]. *)
Abbreviation MWHO_or_null := (option MWHO).

(** [type Answers = Record<string, string>]; an absent key reads as
    [undefined], which is [None] here. *)
Abbreviation Answers := (gmap string string).

(** The object [{ mwho, notes }] every rule function returns. *)
Record Result : Type := mkResult { mwho : MWHO_or_null; notes : list string }.

#[global] Instance Result_eq_dec : EqDecision Result.
Proof. solve_decision. Defined.

(** [a.K === "v"]: strict equality of a property read with a string
    literal; false when the key is absent. *)
Definition answer_is (a : Answers) (k v : string) : bool :=
  bool_decide (a !! k = Some v).

(** [!a.K]: the property is absent or the empty string. *)
Definition falsy (a : Answers) (k : string) : bool :=
  bool_decide (a !! k = None) || bool_decide (a !! k = Some "").

(** [Array.prototype.indexOf]: the first index of [x], or [-1]. *)
Fixpoint indexOf_from (i : Z) (l : list MWHO) (x : MWHO) : Z :=
  match l with
  | [] => -1
  | y :: l' => if bool_decide (y = x) then i else indexOf_from (i + 1) l' x
  end.

Definition indexOf (l : list MWHO) (x : MWHO) : Z := indexOf_from 0 l x.

(** [arr[i]] for a number [i]: [undefined] ([None]) out of range. *)
Definition at_index (l : list MWHO) (i : Z) : MWHO_or_null :=
  if i <? 0 then None else l !! Z.to_nat i.

(** [x ?? d] and [x || d] on a value that is a class, [undefined] or
    [null]: classes are non-empty strings, so both pick [d] exactly when
    [x] is absent. *)
Definition or_else (x : MWHO_or_null) (d : MWHO) : MWHO_or_null :=
  match x with Some c => Some c | None => Some d end.

(** [Array.prototype.reduce] with an initial value. *)
Definition reduce {A B} (f : B -> A -> B) (l : list A) (init : B) : B :=
  fold_left f l init.

(** [arr.push(x)] on a local array. *)
Definition push {A} (l : list A) (x : A) : list A := l ++ [x].

(** Some condition of a list of conditions holds. *)
Definition any_true (conds : list bool) : bool := existsb id conds.

(** The seven entries of [GROUPS] / the [Group] union type:
    "Ventricular/PH/PPCM", "Cardiomyopathy", "Valvular", "Congenital",
    "Aortopathy", "Arrhythmia", "Coronary/Other". *)
Inductive Group : Type :=
  | VentricularPH | Cardiomyopathy | Valvular | Congenital
  | Aortopathy | Arrhythmia | CoronaryOther.

#[global] Instance Group_eq_dec : EqDecision Group.
Proof. solve_decision. Defined.

(** The two [useState] cells of [App]. *)
Record AppState : Type := mkApp { group : option Group; answers : Answers }.

(** [useState(null)], [useState({})] *)
Definition initialState : AppState := mkApp None ∅.

(** What a [useState] setter is called with: the new value, or a function
    of the previous value. *)
Inductive SetStateAction (A : Type) : Type :=
  | Value (v : A)
  | Updater (f : A -> A).

Arguments Value {A} v.
Arguments Updater {A} f.

Definition next_state {A} (action : SetStateAction A) (prev : A) : A :=
  match action with
  | Value v => v
  | Updater f => f prev
  end.

Definition setGroup (action : SetStateAction (option Group)) (s : AppState) : AppState :=
  mkApp (next_state action (group s)) (answers s).

Definition setAnswers (action : SetStateAction Answers) (s : AppState) : AppState :=
  mkApp (group s) (next_state action (answers s)).

(** [const set = (k, v) => setAnswers(a => ({ ...a, [k]: v }))], the same
    in the three drafts. *)
Definition set (k v : string) (s : AppState) : AppState :=
  setAnswers (Updater (fun a => <[k := v]> a)) s.

(** What the user can do: press a group button, pick the option [v] of
    the question [k], press Reset. *)
Inductive Event : Type :=
  | ClickGroup (g : Group)
  | PickOption (k v : string)
  | ClickReset.

(** The state of a session after a sequence of events, for the handlers
    [step] of a draft. *)
Definition run (step : AppState -> Event -> AppState) (events : list Event) : AppState :=
  fold_left step events initialState.

(** ** First draft (the TypeScript component at the top of the file) *)

Module Draft1.

(** [const ORDER: MWHO[] = ["I", "II", "II–III", "III", "IV"]] *)
Definition ORDER : list MWHO := [I; II; II_III; III; IV].

Definition highestClass (a b : MWHO_or_null) : MWHO_or_null :=
  match a, b with
  | None, _ => b
  | _, None => a
  | Some x, Some y =>
      or_else (at_index ORDER (Z.max (indexOf ORDER x) (indexOf ORDER y))) x
  end.

Definition computeVentricularPH (a : Answers) : Result :=
  let notes : list string := [] in
  if answer_is a "PAH" "yes" then
    let notes := push notes "Pulmonary arterial hypertension" in
    mkResult (Some IV) notes
  else if answer_is a "LVEF" "<30%" || answer_is a "NYHA" "III/IV" then
    mkResult (Some IV) notes
  else if answer_is a "LVEF" "30–45%" then
    mkResult (Some III) notes
  else if answer_is a "LVEF" ">45%" then
    if answer_is a "RVfunction" "significant" then
      mkResult (Some II_III) notes
    else if answer_is a "PPCM" "> mild residual" then
      let notes := push notes "PPCM with > mild residual LV impairment" in
      mkResult (Some IV) notes
    else if answer_is a "PPCM" "≤ mild residual" then
      let notes := push notes "PPCM with ≤ mild residual LV impairment" in
      mkResult (Some III) notes
    else mkResult (Some II_III) notes
  else mkResult None notes.

(** The array [picks] of [computeCardiomyopathy] once the eight [if]s
    have run. *)
Definition picksCardiomyopathy (a : Answers) : list MWHO_or_null :=
  let picks : list MWHO_or_null := [] in
  let picks := if answer_is a "HCMgenoPheno" "+/−" then push picks (Some I) else picks in
  let picks := if answer_is a "HCMcomp" "arrhythmic/moderate-hemodynamic" then push picks (Some III) else picks in
  let picks := if answer_is a "HCMcomp" "severe-LVOT>=50-or-EF<50%" then push picks (Some IV) else picks in
  let picks := if answer_is a "DCM_EF" ">45%" then push picks (Some II_III) else picks in
  let picks := if answer_is a "DCM_EF" "30–45%" then push picks (Some III) else picks in
  let picks := if answer_is a "DCM_EF" "<30%/NYHAIII-IV" then push picks (Some IV) else picks in
  let picks := if answer_is a "ARVC" "low-risk" then push picks (Some II_III) else picks in
  let picks := if answer_is a "ARVC" "moderate/severe" then push picks (Some III) else picks in
  picks.

Definition computeCardiomyopathy (a : Answers) : Result :=
  let picks := picksCardiomyopathy a in
  let mwho := reduce (fun acc cur => highestClass acc cur) picks None in
  mkResult mwho [].

Definition computeValvular (a : Answers) : Result :=
  let m : MWHO_or_null := None in
  let notes : list string := [] in
  (* Pulmonary stenosis *)
  let m := if answer_is a "PS_sev" "mild" then highestClass m (Some I) else m in
  let c := answer_is a "PS_sev" "moderate/severe" in
  let m := if c then highestClass m (Some II_III) else m in
  let notes := if c then push notes "Moderate/severe PS — confirm gradients and RV pressure" else notes in
  (* Mitral stenosis *)
  let m := if answer_is a "MS" "moderate" then highestClass m (Some III) else m in
  let m := if answer_is a "MS" "severe" then highestClass m (Some IV) else m in
  (* Aortic stenosis *)
  let m := if answer_is a "AS" "severe-asymptomatic" then highestClass m (Some III) else m in
  let m := if answer_is a "AS" "severe-symptomatic" then highestClass m (Some IV) else m in
  (* Regurgitation *)
  let m := if answer_is a "MR_sev" "severe" || answer_is a "AR_sev" "severe"
           then highestClass m (Some III) else m in
  let m := if answer_is a "MR_sev" "moderate" || answer_is a "AR_sev" "moderate"
           then highestClass m (Some II_III) else m in
  (* MVP presence with no significant MR *)
  let m := if answer_is a "MVP_present" "yes" then
             if answer_is a "MR_sev" "none/trace" || answer_is a "MR_sev" "mild"
             then highestClass m (Some I) else m
           else m in
  (* Mechanical valve *)
  let c := answer_is a "MechanicalValve" "well-controlled" in
  let notes := if c then push notes "Mechanical valve on stable anticoagulation" else notes in
  let m := if c then highestClass m (Some III) else m in
  let c := answer_is a "MechanicalValve" "unstable/complicated" in
  let notes := if c then push notes "Mechanical valve with complications/unstable anticoagulation" else notes in
  let m := if c then highestClass m (Some III) else m in
  mkResult m notes.

Definition computeCongenital (a : Answers) : Result :=
  let m : MWHO_or_null := None in
  let m := if answer_is a "SimpleRepaired" "yes" then highestClass m (Some I) else m in
  let m := if answer_is a "ASDVSDunoperated" "yes" then highestClass m (Some II) else m in
  let m := if answer_is a "ToFgood" "yes" then highestClass m (Some II) else m in
  let m := if answer_is a "TGAarterialSwitchGood" "yes" then highestClass m (Some II) else m in
  let m := if answer_is a "AVSDrepairedGood" "yes" then highestClass m (Some II_III) else m in
  let m := if answer_is a "Ebstein" "uncomplicated" then highestClass m (Some II_III) else m in
  let m := if answer_is a "Ebstein" "complicated" then highestClass m (Some III) else m in
  let m := if answer_is a "SystemicRV" "good/mildly-decreased" then highestClass m (Some III) else m in
  let m := if answer_is a "SystemicRV" "moderate/severely-decreased" then highestClass m (Some IV) else m in
  let m := if answer_is a "Fontan" "uncomplicated" then highestClass m (Some III) else m in
  let m := if answer_is a "Fontan" "complicated" then highestClass m (Some IV) else m in
  let m := if answer_is a "Cyanotic" "unrepaired-non-eisenmenger" then highestClass m (Some III) else m in
  let m := if answer_is a "Cyanotic" "eisenmenger" then highestClass m (Some IV) else m in
  mkResult m [].

Definition computeAortopathy (a : Answers) : Result :=
  let m : MWHO_or_null := None in
  let notes : list string := [] in
  let m := if answer_is a "NonHTADlt40" "yes" then highestClass m (Some I) else m in
  let m := if answer_is a "TurnerNoCVfeatures" "yes" then highestClass m (Some II) else m in
  let m := if answer_is a "HTADnoDilation_or_BAVlt45_or_repairedCoA" "yes" then highestClass m (Some II_III) else m in
  let m := if answer_is a "Marfan40to45" "yes" then highestClass m (Some III) else m in
  let m := if answer_is a "BAV45to50" "yes" then highestClass m (Some III) else m in
  let m := if answer_is a "TurnerASI20to25" "yes" then highestClass m (Some III) else m in
  let m := if answer_is a "OtherAortaLt50" "yes" then highestClass m (Some III) else m in
  let c := answer_is a "MarfanGt45" "yes" in
  let m := if c then highestClass m (Some IV) else m in
  let notes := if c then push notes "Marfan/HTAD aortic diameter >45 mm" else notes in
  let c := answer_is a "BAVGt50" "yes" in
  let m := if c then highestClass m (Some IV) else m in
  let notes := if c then push notes "BAV aortic diameter >50 mm" else notes in
  let c := answer_is a "TurnerASIgt25" "yes" in
  let m := if c then highestClass m (Some IV) else m in
  let notes := if c then push notes "Turner ASI >25 mm^2/m" else notes in
  let c := answer_is a "SevereRecoA_or_vEDS_or_PriorDissectionGrowing" "yes" in
  let m := if c then highestClass m (Some IV) else m in
  let notes := if c then push notes "Severe (re)CoA / vEDS / prior dissection with growth" else notes in
  let m := if answer_is a "PriorDissectionStable" "yes" then highestClass m (Some III) else m in
  mkResult m notes.

Definition computeArrhythmia (a : Answers) : Result :=
  let m : MWHO_or_null := None in
  let m := if answer_is a "IsolatedEctopy" "yes" then highestClass m (Some I) else m in
  let m := if answer_is a "SVTorPacemaker" "yes" then highestClass m (Some II) else m in
  let m := if answer_is a "InheritedLowRisk" "yes" then highestClass m (Some II_III) else m in
  let m := if answer_is a "InheritedHighRisk" "yes" then highestClass m (Some III) else m in
  let m := if answer_is a "SustainedVT" "yes" then highestClass m (Some III) else m in
  mkResult m [].

Definition computeCoronaryOther (a : Answers) : Result :=
  let m : MWHO_or_null := None in
  let m := if answer_is a "SCAD" "yes" then highestClass m (Some III) else m in
  let m := if answer_is a "PriorIschaemia" "yes" then highestClass m (Some III) else m in
  let m := if answer_is a "PriorAPOhosp" "yes" then highestClass m (Some III) else m in
  let m := if answer_is a "CancerTherapyCVtox" "yes" then highestClass m (Some III) else m in
  mkResult m [].

(** The guards of each rule function, in source order: the conditions of
    its [if] statements under which the statement does something (a
    nested [if] contributes the conjunction with the condition around
    it).  For [computeVentricularPH] these are the conditions of the four
    outer branches; the inner tests on [RVfunction] and [PPCM] only choose
    between results inside the [LVEF === ">45%"] branch. *)
Definition guards (g : Group) (a : Answers) : list bool :=
  match g with
  | VentricularPH =>
      [ answer_is a "PAH" "yes";
        answer_is a "LVEF" "<30%" || answer_is a "NYHA" "III/IV";
        answer_is a "LVEF" "30–45%";
        answer_is a "LVEF" ">45%" ]
  | Cardiomyopathy =>
      [ answer_is a "HCMgenoPheno" "+/−";
        answer_is a "HCMcomp" "arrhythmic/moderate-hemodynamic";
        answer_is a "HCMcomp" "severe-LVOT>=50-or-EF<50%";
        answer_is a "DCM_EF" ">45%";
        answer_is a "DCM_EF" "30–45%";
        answer_is a "DCM_EF" "<30%/NYHAIII-IV";
        answer_is a "ARVC" "low-risk";
        answer_is a "ARVC" "moderate/severe" ]
  | Valvular =>
      [ answer_is a "PS_sev" "mild";
        answer_is a "PS_sev" "moderate/severe";
        answer_is a "MS" "moderate";
        answer_is a "MS" "severe";
        answer_is a "AS" "severe-asymptomatic";
        answer_is a "AS" "severe-symptomatic";
        answer_is a "MR_sev" "severe" || answer_is a "AR_sev" "severe";
        answer_is a "MR_sev" "moderate" || answer_is a "AR_sev" "moderate";
        answer_is a "MVP_present" "yes"
          && (answer_is a "MR_sev" "none/trace" || answer_is a "MR_sev" "mild");
        answer_is a "MechanicalValve" "well-controlled";
        answer_is a "MechanicalValve" "unstable/complicated" ]
  | Congenital =>
      [ answer_is a "SimpleRepaired" "yes";
        answer_is a "ASDVSDunoperated" "yes";
        answer_is a "ToFgood" "yes";
        answer_is a "TGAarterialSwitchGood" "yes";
        answer_is a "AVSDrepairedGood" "yes";
        answer_is a "Ebstein" "uncomplicated";
        answer_is a "Ebstein" "complicated";
        answer_is a "SystemicRV" "good/mildly-decreased";
        answer_is a "SystemicRV" "moderate/severely-decreased";
        answer_is a "Fontan" "uncomplicated";
        answer_is a "Fontan" "complicated";
        answer_is a "Cyanotic" "unrepaired-non-eisenmenger";
        answer_is a "Cyanotic" "eisenmenger" ]
  | Aortopathy =>
      [ answer_is a "NonHTADlt40" "yes";
        answer_is a "TurnerNoCVfeatures" "yes";
        answer_is a "HTADnoDilation_or_BAVlt45_or_repairedCoA" "yes";
        answer_is a "Marfan40to45" "yes";
        answer_is a "BAV45to50" "yes";
        answer_is a "TurnerASI20to25" "yes";
        answer_is a "OtherAortaLt50" "yes";
        answer_is a "MarfanGt45" "yes";
        answer_is a "BAVGt50" "yes";
        answer_is a "TurnerASIgt25" "yes";
        answer_is a "SevereRecoA_or_vEDS_or_PriorDissectionGrowing" "yes";
        answer_is a "PriorDissectionStable" "yes" ]
  | Arrhythmia =>
      [ answer_is a "IsolatedEctopy" "yes";
        answer_is a "SVTorPacemaker" "yes";
        answer_is a "InheritedLowRisk" "yes";
        answer_is a "InheritedHighRisk" "yes";
        answer_is a "SustainedVT" "yes" ]
  | CoronaryOther =>
      [ answer_is a "SCAD" "yes";
        answer_is a "PriorIschaemia" "yes";
        answer_is a "PriorAPOhosp" "yes";
        answer_is a "CancerTherapyCVtox" "yes" ]
  end.

(** The [useMemo] that computes [computed] from [group] and [answers]. *)
Definition computed (s : AppState) : Result :=
  match group s with
  | None => mkResult None []
  | Some VentricularPH => computeVentricularPH (answers s)
  | Some Cardiomyopathy => computeCardiomyopathy (answers s)
  | Some Valvular => computeValvular (answers s)
  | Some Congenital => computeCongenital (answers s)
  | Some Aortopathy => computeAortopathy (answers s)
  | Some Arrhythmia => computeArrhythmia (answers s)
  | Some CoronaryOther => computeCoronaryOther (answers s)
  end.

(** Group button: [onClick={() => { setGroup(g); setAnswers({}); }}] *)
Definition onClickGroup (g : Group) (s : AppState) : AppState :=
  setAnswers (Value ∅) (setGroup (Value (Some g)) s).

(** Reset button: [onClick={() => { setGroup(null); setAnswers({}); }}] *)
Definition onReset (s : AppState) : AppState :=
  setAnswers (Value ∅) (setGroup (Value None) s).

Definition step (s : AppState) (e : Event) : AppState :=
  match e with
  | ClickGroup g => onClickGroup g s
  | PickOption k v => set k v s
  | ClickReset => onReset s
  end.

End Draft1.

(** ** Second draft (the untyped zero-dependency component) *)

Module Draft2.

Definition highestClass (a b : MWHO_or_null) : MWHO_or_null :=
  match a, b with
  | None, _ => b
  | _, None => a
  | Some x, Some y =>
      let order := [I; II; II_III; III; IV] in
      or_else (at_index order (Z.max (indexOf order x) (indexOf order y))) x
  end.

Definition computeVentricularPH (a : Answers) : Result :=
  let notes : list string := [] in
  if answer_is a "PAH" "yes" then
    let notes := push notes "Pulmonary arterial hypertension" in
    mkResult (Some IV) notes
  else if answer_is a "LVEF" "<30%" || answer_is a "NYHA" "III/IV" then
    mkResult (Some IV) notes
  else if answer_is a "LVEF" "30–45%" then
    mkResult (Some III) notes
  else if answer_is a "LVEF" ">45%" then
    if answer_is a "RVfunction" "significant" then
      mkResult (Some II_III) notes
    else if answer_is a "PPCM" "> mild residual" then
      let notes := push notes "PPCM with > mild residual LV impairment" in
      mkResult (Some IV) notes
    else if answer_is a "PPCM" "≤ mild residual" then
      let notes := push notes "PPCM with ≤ mild residual LV impairment" in
      mkResult (Some III) notes
    else mkResult (Some II_III) notes
  else mkResult None notes.

Definition picksCardiomyopathy (a : Answers) : list MWHO_or_null :=
  let picks : list MWHO_or_null := [] in
  let picks := if answer_is a "HCMgenoPheno" "+/−" then push picks (Some I) else picks in
  let picks := if answer_is a "HCMcomp" "arrhythmic/moderate-hemodynamic" then push picks (Some III) else picks in
  let picks := if answer_is a "HCMcomp" "severe-LVOT>=50-or-EF<50%" then push picks (Some IV) else picks in
  let picks := if answer_is a "DCM_EF" ">45%" then push picks (Some II_III) else picks in
  let picks := if answer_is a "DCM_EF" "30–45%" then push picks (Some III) else picks in
  let picks := if answer_is a "DCM_EF" "<30%/NYHAIII-IV" then push picks (Some IV) else picks in
  let picks := if answer_is a "ARVC" "low-risk" then push picks (Some II_III) else picks in
  let picks := if answer_is a "ARVC" "moderate/severe" then push picks (Some III) else picks in
  picks.

Definition computeCardiomyopathy (a : Answers) : Result :=
  let picks := picksCardiomyopathy a in
  mkResult (reduce (fun acc cur => highestClass acc cur) picks None) [].

Definition computeValvular (a : Answers) : Result :=
  let m : MWHO_or_null := None in
  let notes : list string := [] in
  (* Pulmonary stenosis explicit severities *)
  let m := if answer_is a "PS_sev" "mild" then highestClass m (Some I) else m in
  let c := answer_is a "PS_sev" "moderate/severe" in
  let m := if c then highestClass m (Some II_III) else m in
  let notes := if c then push notes "Moderate/severe PS — confirm gradients & RV pressure" else notes in
  (* Mitral stenosis *)
  let m := if answer_is a "MS" "moderate" then highestClass m (Some III) else m in
  let m := if answer_is a "MS" "severe" then highestClass m (Some IV) else m in
  (* Aortic stenosis *)
  let m := if answer_is a "AS" "severe-asymptomatic" then highestClass m (Some III) else m in
  let m := if answer_is a "AS" "severe-symptomatic" then highestClass m (Some IV) else m in
  (* Regurgitation severities (independent of MVP) *)
  let m := if answer_is a "MR_sev" "severe" || answer_is a "AR_sev" "severe"
           then highestClass m (Some III) else m in
  let m := if answer_is a "MR_sev" "moderate" || answer_is a "AR_sev" "moderate"
           then highestClass m (Some II_III) else m in
  (* MVP presence with NO significant MR qualifies for mWHO I *)
  let c1 := answer_is a "MVP_present" "yes" in
  let c2 := answer_is a "MR_sev" "none/trace" || answer_is a "MR_sev" "mild" in
  let c3 := falsy a "MR_sev" || answer_is a "MR_sev" "unknown" in
  let m := if c1 then (if c2 then highestClass m (Some I) else m) else m in
  let notes := if c1 then
                 (if c2 then notes
                  else if c3 then push notes "MVP present but MR severity unknown — cannot assume class I"
                  else notes)
               else notes in
  (* Mechanical valve *)
  let c := answer_is a "MechanicalValve" "well-controlled" in
  let notes := if c then push notes "Mechanical valve on stable anticoagulation" else notes in
  let m := if c then highestClass m (Some III) else m in
  let c := answer_is a "MechanicalValve" "unstable/complicated" in
  let notes := if c then push notes "Mechanical valve with complications/unstable anticoagulation" else notes in
  let m := if c then highestClass m (Some III) else m in
  mkResult m notes.

Definition computeCongenital (a : Answers) : Result :=
  let m : MWHO_or_null := None in
  let notes : list string := [] in
  let m := if answer_is a "SimpleRepaired" "yes" then highestClass m (Some I) else m in
  let m := if answer_is a "ASDVSDunoperated" "yes" then highestClass m (Some II) else m in
  let m := if answer_is a "ToFgood" "yes" then highestClass m (Some II) else m in
  let m := if answer_is a "TGAarterialSwitchGood" "yes" then highestClass m (Some II) else m in
  let m := if answer_is a "AVSDrepairedGood" "yes" then highestClass m (Some II_III) else m in
  let m := if answer_is a "Ebstein" "uncomplicated" then highestClass m (Some II_III) else m in
  let m := if answer_is a "Ebstein" "complicated" then highestClass m (Some III) else m in
  let m := if answer_is a "SystemicRV" "good/mildly↓" then highestClass m (Some III) else m in
  let m := if answer_is a "SystemicRV" "moderate/severely↓" then highestClass m (Some IV) else m in
  let m := if answer_is a "Fontan" "uncomplicated" then highestClass m (Some III) else m in
  let m := if answer_is a "Fontan" "complicated" then highestClass m (Some IV) else m in
  let m := if answer_is a "Cyanotic" "unrepaired-non-eisenmenger" then highestClass m (Some III) else m in
  let m := if answer_is a "Cyanotic" "eisenmenger" then highestClass m (Some IV) else m in
  mkResult m notes.

Definition computeAortopathy (a : Answers) : Result :=
  let m : MWHO_or_null := None in
  let notes : list string := [] in
  let m := if answer_is a "NonHTADlt40" "yes" then highestClass m (Some I) else m in
  let m := if answer_is a "TurnerNoCVfeatures" "yes" then highestClass m (Some II) else m in
  let m := if answer_is a "HTADnoDilation_or_BAVlt45_or_repairedCoA" "yes" then highestClass m (Some II_III) else m in
  let m := if answer_is a "Marfan40to45" "yes" then highestClass m (Some III) else m in
  let m := if answer_is a "BAV45to50" "yes" then highestClass m (Some III) else m in
  let m := if answer_is a "TurnerASI20to25" "yes" then highestClass m (Some III) else m in
  let m := if answer_is a "OtherAortaLt50" "yes" then highestClass m (Some III) else m in
  let c := answer_is a "MarfanGt45" "yes" in
  let m := if c then highestClass m (Some IV) else m in
  let notes := if c then push notes "Severe Marfan/HTAD aortic dilation >45 mm" else notes in
  let c := answer_is a "BAVGt50" "yes" in
  let m := if c then highestClass m (Some IV) else m in
  let notes := if c then push notes "Severe BAV aortic dilation >50 mm" else notes in
  let c := answer_is a "TurnerASIgt25" "yes" in
  let m := if c then highestClass m (Some IV) else m in
  let notes := if c then push notes "Turner ASI >25 mm²/m" else notes in
  let c := answer_is a "SevereRecoA_or_vEDS_or_PriorDissectionGrowing" "yes" in
  let m := if c then highestClass m (Some IV) else m in
  let notes := if c then push notes "Severe (re)CoA / vascular EDS / prior dissection with growth" else notes in
  let m := if answer_is a "PriorDissectionStable" "yes" then highestClass m (Some III) else m in
  mkResult m notes.

Definition computeArrhythmia (a : Answers) : Result :=
  let m : MWHO_or_null := None in
  let notes : list string := [] in
  let m := if answer_is a "IsolatedEctopy" "yes" then highestClass m (Some I) else m in
  let m := if answer_is a "SVTorPacemaker" "yes" then highestClass m (Some II) else m in
  let m := if answer_is a "InheritedLowRisk" "yes" then highestClass m (Some II_III) else m in
  let m := if answer_is a "InheritedHighRisk" "yes" then highestClass m (Some III) else m in
  let m := if answer_is a "SustainedVT" "yes" then highestClass m (Some III) else m in
  mkResult m notes.

Definition computeCoronaryOther (a : Answers) : Result :=
  let m : MWHO_or_null := None in
  let notes : list string := [] in
  let m := if answer_is a "SCAD" "yes" then highestClass m (Some III) else m in
  let m := if answer_is a "PriorIschaemia" "yes" then highestClass m (Some III) else m in
  let m := if answer_is a "PriorAPOhosp" "yes" then highestClass m (Some III) else m in
  let m := if answer_is a "CancerTherapyCVtox" "yes" then highestClass m (Some III) else m in
  mkResult m notes.

(** The guards of each rule function, in source order, as in the first
    draft.  [computeValvular] has one more: the [else if] that pushes the
    note on an unknown MR severity. *)
Definition guards (g : Group) (a : Answers) : list bool :=
  match g with
  | VentricularPH =>
      [ answer_is a "PAH" "yes";
        answer_is a "LVEF" "<30%" || answer_is a "NYHA" "III/IV";
        answer_is a "LVEF" "30–45%";
        answer_is a "LVEF" ">45%" ]
  | Cardiomyopathy =>
      [ answer_is a "HCMgenoPheno" "+/−";
        answer_is a "HCMcomp" "arrhythmic/moderate-hemodynamic";
        answer_is a "HCMcomp" "severe-LVOT>=50-or-EF<50%";
        answer_is a "DCM_EF" ">45%";
        answer_is a "DCM_EF" "30–45%";
        answer_is a "DCM_EF" "<30%/NYHAIII-IV";
        answer_is a "ARVC" "low-risk";
        answer_is a "ARVC" "moderate/severe" ]
  | Valvular =>
      [ answer_is a "PS_sev" "mild";
        answer_is a "PS_sev" "moderate/severe";
        answer_is a "MS" "moderate";
        answer_is a "MS" "severe";
        answer_is a "AS" "severe-asymptomatic";
        answer_is a "AS" "severe-symptomatic";
        answer_is a "MR_sev" "severe" || answer_is a "AR_sev" "severe";
        answer_is a "MR_sev" "moderate" || answer_is a "AR_sev" "moderate";
        answer_is a "MVP_present" "yes"
          && (answer_is a "MR_sev" "none/trace" || answer_is a "MR_sev" "mild");
        answer_is a "MVP_present" "yes"
          && negb (answer_is a "MR_sev" "none/trace" || answer_is a "MR_sev" "mild")
          && (falsy a "MR_sev" || answer_is a "MR_sev" "unknown");
        answer_is a "MechanicalValve" "well-controlled";
        answer_is a "MechanicalValve" "unstable/complicated" ]
  | Congenital =>
      [ answer_is a "SimpleRepaired" "yes";
        answer_is a "ASDVSDunoperated" "yes";
        answer_is a "ToFgood" "yes";
        answer_is a "TGAarterialSwitchGood" "yes";
        answer_is a "AVSDrepairedGood" "yes";
        answer_is a "Ebstein" "uncomplicated";
        answer_is a "Ebstein" "complicated";
        answer_is a "SystemicRV" "good/mildly↓";
        answer_is a "SystemicRV" "moderate/severely↓";
        answer_is a "Fontan" "uncomplicated";
        answer_is a "Fontan" "complicated";
        answer_is a "Cyanotic" "unrepaired-non-eisenmenger";
        answer_is a "Cyanotic" "eisenmenger" ]
  | Aortopathy =>
      [ answer_is a "NonHTADlt40" "yes";
        answer_is a "TurnerNoCVfeatures" "yes";
        answer_is a "HTADnoDilation_or_BAVlt45_or_repairedCoA" "yes";
        answer_is a "Marfan40to45" "yes";
        answer_is a "BAV45to50" "yes";
        answer_is a "TurnerASI20to25" "yes";
        answer_is a "OtherAortaLt50" "yes";
        answer_is a "MarfanGt45" "yes";
        answer_is a "BAVGt50" "yes";
        answer_is a "TurnerASIgt25" "yes";
        answer_is a "SevereRecoA_or_vEDS_or_PriorDissectionGrowing" "yes";
        answer_is a "PriorDissectionStable" "yes" ]
  | Arrhythmia =>
      [ answer_is a "IsolatedEctopy" "yes";
        answer_is a "SVTorPacemaker" "yes";
        answer_is a "InheritedLowRisk" "yes";
        answer_is a "InheritedHighRisk" "yes";
        answer_is a "SustainedVT" "yes" ]
  | CoronaryOther =>
      [ answer_is a "SCAD" "yes";
        answer_is a "PriorIschaemia" "yes";
        answer_is a "PriorAPOhosp" "yes";
        answer_is a "CancerTherapyCVtox" "yes" ]
  end.

(** The [useMemo] for [computed]; its [default:] arm is unreachable for a
    [group] taken from [GROUPS]. *)
Definition computed (s : AppState) : Result :=
  match group s with
  | None => mkResult None []
  | Some VentricularPH => computeVentricularPH (answers s)
  | Some Cardiomyopathy => computeCardiomyopathy (answers s)
  | Some Valvular => computeValvular (answers s)
  | Some Congenital => computeCongenital (answers s)
  | Some Aortopathy => computeAortopathy (answers s)
  | Some Arrhythmia => computeArrhythmia (answers s)
  | Some CoronaryOther => computeCoronaryOther (answers s)
  end.

(** Group button: [onClick={()=>setGroup(g)}] *)
Definition onClickGroup (g : Group) (s : AppState) : AppState :=
  setGroup (Value (Some g)) s.

(** [const onReset = () => { setGroup(null); setAnswers({}); }] *)
Definition onReset (s : AppState) : AppState :=
  setAnswers (Value ∅) (setGroup (Value None) s).

Definition step (s : AppState) (e : Event) : AppState :=
  match e with
  | ClickGroup g => onClickGroup g s
  | PickOption k v => set k v s
  | ClickReset => onReset s
  end.

End Draft2.

(** ** Third draft (the shadcn/ui component) *)

Module Draft3.

(** The function ends in [order[...] as MWHOClass], with no fallback: the
    result is whatever the array read gives. *)
Definition highestClass (a b : MWHO_or_null) : MWHO_or_null :=
  match a, b with
  | None, _ => b
  | _, None => a
  | Some x, Some y =>
      let order := [I; II; II_III; III; IV] in
      at_index order (Z.max (indexOf order x) (indexOf order y))
  end.

Definition computeVentricularPH (answers : Answers) : Result :=
  let notes : list string := [] in
  if answer_is answers "PAH" "yes" then
    let notes := push notes "Pulmonary arterial hypertension" in
    mkResult (Some IV) notes
  else if answer_is answers "LVEF" "<30%" || answer_is answers "NYHA" "III/IV" then
    mkResult (Some IV) notes
  else if answer_is answers "LVEF" "30–45%" then
    mkResult (Some III) notes
  else if answer_is answers "LVEF" ">45%" then
    if answer_is answers "RVfunction" "significant" then
      mkResult (Some II_III) notes
    else if answer_is answers "PPCM" "> mild residual" then
      let notes := push notes "PPCM with > mild residual LV impairment" in
      mkResult (Some IV) notes
    else if answer_is answers "PPCM" "≤ mild residual" then
      let notes := push notes "PPCM with ≤ mild residual LV impairment" in
      mkResult (Some III) notes
    else mkResult (Some II_III) notes
  else mkResult None notes.

Definition scoresCardiomyopathy (answers : Answers) : list MWHO_or_null :=
  let scores : list MWHO_or_null := [] in
  let scores := if answer_is answers "HCMgenoPheno" "+/−" then push scores (Some I) else scores in
  let scores := if answer_is answers "HCMcomp" "arrhythmic/moderate-hemodynamic" then push scores (Some III) else scores in
  let scores := if answer_is answers "HCMcomp" "severe-LVOT>=50-or-EF<50%" then push scores (Some IV) else scores in
  let scores := if answer_is answers "DCM_EF" ">45%" then push scores (Some II_III) else scores in
  let scores := if answer_is answers "DCM_EF" "30–45%" then push scores (Some III) else scores in
  let scores := if answer_is answers "DCM_EF" "<30%/NYHAIII-IV" then push scores (Some IV) else scores in
  let scores := if answer_is answers "ARVC" "low-risk" then push scores (Some II_III) else scores in
  let scores := if answer_is answers "ARVC" "moderate/severe" then push scores (Some III) else scores in
  scores.

Definition computeCardiomyopathy (answers : Answers) : Result :=
  let scores := scoresCardiomyopathy answers in
  let notes : list string := [] in
  let mwho := reduce (fun acc cur => highestClass acc cur) scores None in
  mkResult mwho notes.

Definition computeValvular (answers : Answers) : Result :=
  let notes : list string := [] in
  let mwho : MWHO_or_null := None in
  let mwho := if answer_is answers "PS" "small/mild" then highestClass mwho (Some I) else mwho in
  let mwho := if answer_is answers "MVP" "no-sig-MR" then highestClass mwho (Some I) else mwho in
  let mwho := if answer_is answers "MS" "moderate" then highestClass mwho (Some III) else mwho in
  let mwho := if answer_is answers "MS" "severe" then highestClass mwho (Some IV) else mwho in
  let mwho := if answer_is answers "AS" "severe-asymptomatic" then highestClass mwho (Some III) else mwho in
  let mwho := if answer_is answers "AS" "severe-symptomatic" then highestClass mwho (Some IV) else mwho in
  let mwho := if answer_is answers "LeftRegurg" "severe" then highestClass mwho (Some III) else mwho in
  let mwho := if answer_is answers "NativeTissue" "mild-MS/mod-AS/mod-regurg" then highestClass mwho (Some II_III) else mwho in
  let c := answer_is answers "MechanicalValve" "well-controlled" in
  let notes := if c then push notes "Mechanical valve on stable anticoagulation" else notes in
  let mwho := if c then highestClass mwho (Some III) else mwho in
  let c := answer_is answers "MechanicalValve" "unstable/complicated" in
  let notes := if c then push notes "Mechanical valve with complications/unstable anticoagulation" else notes in
  let mwho := if c then highestClass mwho (Some III) else mwho in
  mkResult mwho notes.

Definition computeCongenital (answers : Answers) : Result :=
  let mwho : MWHO_or_null := None in
  let notes : list string := [] in
  let mwho := if answer_is answers "SimpleRepaired" "yes" then highestClass mwho (Some I) else mwho in
  let mwho := if answer_is answers "ASDVSDunoperated" "yes" then highestClass mwho (Some II) else mwho in
  let mwho := if answer_is answers "ToFgood" "yes" then highestClass mwho (Some II) else mwho in
  let mwho := if answer_is answers "TGAarterialSwitchGood" "yes" then highestClass mwho (Some II) else mwho in
  let mwho := if answer_is answers "AVSDrepairedGood" "yes" then highestClass mwho (Some II_III) else mwho in
  let mwho := if answer_is answers "Ebstein" "uncomplicated" then highestClass mwho (Some II_III) else mwho in
  let mwho := if answer_is answers "Ebstein" "complicated" then highestClass mwho (Some III) else mwho in
  let mwho := if answer_is answers "SystemicRV" "good/mildly↓" then highestClass mwho (Some III) else mwho in
  let mwho := if answer_is answers "SystemicRV" "moderate/severely↓" then highestClass mwho (Some IV) else mwho in
  let mwho := if answer_is answers "Fontan" "uncomplicated" then highestClass mwho (Some III) else mwho in
  let mwho := if answer_is answers "Fontan" "complicated" then highestClass mwho (Some IV) else mwho in
  let mwho := if answer_is answers "Cyanotic" "unrepaired-non-eisenmenger" then highestClass mwho (Some III) else mwho in
  let mwho := if answer_is answers "Cyanotic" "eisenmenger" then highestClass mwho (Some IV) else mwho in
  mkResult mwho notes.

Definition computeAortopathy (answers : Answers) : Result :=
  let mwho : MWHO_or_null := None in
  let notes : list string := [] in
  let mwho := if answer_is answers "NonHTADlt40" "yes" then highestClass mwho (Some I) else mwho in
  let mwho := if answer_is answers "TurnerNoCVfeatures" "yes" then highestClass mwho (Some II) else mwho in
  let mwho := if answer_is answers "HTADnoDilation_or_BAVlt45_or_repairedCoA" "yes" then highestClass mwho (Some II_III) else mwho in
  let mwho := if answer_is answers "Marfan40to45" "yes" then highestClass mwho (Some III) else mwho in
  let mwho := if answer_is answers "BAV45to50" "yes" then highestClass mwho (Some III) else mwho in
  let mwho := if answer_is answers "TurnerASI20to25" "yes" then highestClass mwho (Some III) else mwho in
  let mwho := if answer_is answers "OtherAortaLt50" "yes" then highestClass mwho (Some III) else mwho in
  let c := answer_is answers "MarfanGt45" "yes" in
  let mwho := if c then highestClass mwho (Some IV) else mwho in
  let notes := if c then push notes "Severe Marfan/HTAD aortic dilation >45 mm" else notes in
  let c := answer_is answers "BAVGt50" "yes" in
  let mwho := if c then highestClass mwho (Some IV) else mwho in
  let notes := if c then push notes "Severe BAV aortic dilation >50 mm" else notes in
  let c := answer_is answers "TurnerASIgt25" "yes" in
  let mwho := if c then highestClass mwho (Some IV) else mwho in
  let notes := if c then push notes "Turner ASI >25 mm²/m" else notes in
  let c := answer_is answers "SevereRecoA_or_vEDS_or_PriorDissectionGrowing" "yes" in
  let mwho := if c then highestClass mwho (Some IV) else mwho in
  let notes := if c then push notes "Severe (re)CoA / vascular EDS / prior dissection with growth" else notes in
  let mwho := if answer_is answers "PriorDissectionStable" "yes" then highestClass mwho (Some III) else mwho in
  mkResult mwho notes.

Definition computeArrhythmia (answers : Answers) : Result :=
  let mwho : MWHO_or_null := None in
  let notes : list string := [] in
  let mwho := if answer_is answers "IsolatedEctopy" "yes" then highestClass mwho (Some I) else mwho in
  let mwho := if answer_is answers "SVTorPacemaker" "yes" then highestClass mwho (Some II) else mwho in
  let mwho := if answer_is answers "InheritedLowRisk" "yes" then highestClass mwho (Some II_III) else mwho in
  let mwho := if answer_is answers "InheritedHighRisk" "yes" then highestClass mwho (Some III) else mwho in
  let mwho := if answer_is answers "SustainedVT" "yes" then highestClass mwho (Some III) else mwho in
  mkResult mwho notes.

Definition computeCoronaryOther (answers : Answers) : Result :=
  let mwho : MWHO_or_null := None in
  let notes : list string := [] in
  let mwho := if answer_is answers "SCAD" "yes" then highestClass mwho (Some III) else mwho in
  let mwho := if answer_is answers "PriorIschaemia" "yes" then highestClass mwho (Some III) else mwho in
  let mwho := if answer_is answers "PriorAPOhosp" "yes" then highestClass mwho (Some III) else mwho in
  let mwho := if answer_is answers "CancerTherapyCVtox" "yes" then highestClass mwho (Some III) else mwho in
  mkResult mwho notes.

(** The guards of each rule function, in source order, as in the first
    draft. *)
Definition guards (g : Group) (a : Answers) : list bool :=
  match g with
  | VentricularPH =>
      [ answer_is a "PAH" "yes";
        answer_is a "LVEF" "<30%" || answer_is a "NYHA" "III/IV";
        answer_is a "LVEF" "30–45%";
        answer_is a "LVEF" ">45%" ]
  | Cardiomyopathy =>
      [ answer_is a "HCMgenoPheno" "+/−";
        answer_is a "HCMcomp" "arrhythmic/moderate-hemodynamic";
        answer_is a "HCMcomp" "severe-LVOT>=50-or-EF<50%";
        answer_is a "DCM_EF" ">45%";
        answer_is a "DCM_EF" "30–45%";
        answer_is a "DCM_EF" "<30%/NYHAIII-IV";
        answer_is a "ARVC" "low-risk";
        answer_is a "ARVC" "moderate/severe" ]
  | Valvular =>
      [ answer_is a "PS" "small/mild";
        answer_is a "MVP" "no-sig-MR";
        answer_is a "MS" "moderate";
        answer_is a "MS" "severe";
        answer_is a "AS" "severe-asymptomatic";
        answer_is a "AS" "severe-symptomatic";
        answer_is a "LeftRegurg" "severe";
        answer_is a "NativeTissue" "mild-MS/mod-AS/mod-regurg";
        answer_is a "MechanicalValve" "well-controlled";
        answer_is a "MechanicalValve" "unstable/complicated" ]
  | Congenital =>
      [ answer_is a "SimpleRepaired" "yes";
        answer_is a "ASDVSDunoperated" "yes";
        answer_is a "ToFgood" "yes";
        answer_is a "TGAarterialSwitchGood" "yes";
        answer_is a "AVSDrepairedGood" "yes";
        answer_is a "Ebstein" "uncomplicated";
        answer_is a "Ebstein" "complicated";
        answer_is a "SystemicRV" "good/mildly↓";
        answer_is a "SystemicRV" "moderate/severely↓";
        answer_is a "Fontan" "uncomplicated";
        answer_is a "Fontan" "complicated";
        answer_is a "Cyanotic" "unrepaired-non-eisenmenger";
        answer_is a "Cyanotic" "eisenmenger" ]
  | Aortopathy =>
      [ answer_is a "NonHTADlt40" "yes";
        answer_is a "TurnerNoCVfeatures" "yes";
        answer_is a "HTADnoDilation_or_BAVlt45_or_repairedCoA" "yes";
        answer_is a "Marfan40to45" "yes";
        answer_is a "BAV45to50" "yes";
        answer_is a "TurnerASI20to25" "yes";
        answer_is a "OtherAortaLt50" "yes";
        answer_is a "MarfanGt45" "yes";
        answer_is a "BAVGt50" "yes";
        answer_is a "TurnerASIgt25" "yes";
        answer_is a "SevereRecoA_or_vEDS_or_PriorDissectionGrowing" "yes";
        answer_is a "PriorDissectionStable" "yes" ]
  | Arrhythmia =>
      [ answer_is a "IsolatedEctopy" "yes";
        answer_is a "SVTorPacemaker" "yes";
        answer_is a "InheritedLowRisk" "yes";
        answer_is a "InheritedHighRisk" "yes";
        answer_is a "SustainedVT" "yes" ]
  | CoronaryOther =>
      [ answer_is a "SCAD" "yes";
        answer_is a "PriorIschaemia" "yes";
        answer_is a "PriorAPOhosp" "yes";
        answer_is a "CancerTherapyCVtox" "yes" ]
  end.

Definition computed (s : AppState) : Result :=
  match group s with
  | None => mkResult None []
  | Some VentricularPH => computeVentricularPH (answers s)
  | Some Cardiomyopathy => computeCardiomyopathy (answers s)
  | Some Valvular => computeValvular (answers s)
  | Some Congenital => computeCongenital (answers s)
  | Some Aortopathy => computeAortopathy (answers s)
  | Some Arrhythmia => computeArrhythmia (answers s)
  | Some CoronaryOther => computeCoronaryOther (answers s)
  end.

(** Group button: [onClick={()=> setGroup(g)}] *)
Definition onClickGroup (g : Group) (s : AppState) : AppState :=
  setGroup (Value (Some g)) s.

(** [const onReset = () => { setGroup(null); setAnswers({}); }] *)
Definition onReset (s : AppState) : AppState :=
  setAnswers (Value ∅) (setGroup (Value None) s).

Definition step (s : AppState) (e : Event) : AppState :=
  match e with
  | ClickGroup g => onClickGroup g s
  | PickOption k v => set k v s
  | ClickReset => onReset s
  end.

End Draft3.

(** ** Notions used in the statements *)

(** The position of a class in the fixed order [I, II, II–III, III, IV]. *)
Definition position (c : MWHO) : Z := indexOf Draft1.ORDER c.

(** What the specification asks of [combine], for a candidate [f]. *)
Definition severity_reducer_laws (f : MWHO_or_null -> MWHO_or_null -> MWHO_or_null) : Prop :=
  (forall a b, f a b = f b a) /\
  (forall a b c, f (f a b) c = f a (f b c)) /\
  (forall a, f None a = a /\ f a None = a) /\
  (forall x y : MWHO, exists z,
      f (Some x) (Some y) = Some z /\ (z = x \/ z = y) /\
      position z = Z.max (position x) (position y)).

(** The answer sets of the scenarios the specification lists. *)

(** [{ PAH: "yes", LVEF: "<30%" }] *)
Definition answers_PAH_and_low_LVEF : Answers :=
  <["PAH" := "yes"]> (<["LVEF" := "<30%"]> ∅).

(** [{ HCMgenoPheno: "+/−", DCM_EF: "<30%/NYHAIII-IV" }] *)
Definition answers_HCM_and_DCM : Answers :=
  <["HCMgenoPheno" := "+/−"]> (<["DCM_EF" := "<30%/NYHAIII-IV"]> ∅).

(** [{ MVP_present: "yes", MR_sev: "moderate" }] *)
Definition answers_MVP_moderate_MR : Answers :=
  <["MVP_present" := "yes"]> (<["MR_sev" := "moderate"]> ∅).

(** [{ MVP_present: "yes" }]: MR severity not answered. *)
Definition answers_MVP_only : Answers := <["MVP_present" := "yes"]> ∅.

(** [{ MVP_present: "yes", MR_sev: "unknown" }] *)
Definition answers_MVP_unknown_MR : Answers :=
  <["MVP_present" := "yes"]> (<["MR_sev" := "unknown"]> ∅).

(** An answer set whose keys and values no Aortopathy rule knows:
    a "no" answer and a key of another group. *)
Definition answers_unmatched : Answers :=
  <["NonHTADlt40" := "no"]> (<["MarfanGt45" := "maybe"]> (<["SCAD" := "yes"]> ∅)).

(** A session in which the Valvular group is open and one question is
    answered, and the events that lead to it. *)
Definition state_valvular_answered : AppState :=
  mkApp (Some Valvular) (<["MS" := "severe"]> ∅).

Definition events_valvular_answered : list Event :=
  [ClickGroup Valvular; PickOption "MS" "severe"].

(** The classes [computeVentricularPH] can return. *)
Definition ventricular_range : list MWHO_or_null :=
  [None; Some II_III; Some III; Some IV].

(** The three drafts, to state a property of all of them at once. *)
Inductive Draft : Type := First | Second | Third.

Definition guards_of (d : Draft) : Group -> Answers -> list bool :=
  match d with
  | First => Draft1.guards
  | Second => Draft2.guards
  | Third => Draft3.guards
  end.

Definition computed_of (d : Draft) : AppState -> Result :=
  match d with
  | First => Draft1.computed
  | Second => Draft2.computed
  | Third => Draft3.computed
  end.

(** A rule function that never returns a note, and one that returns a
    note for some answer set. *)
Definition no_notes (f : Answers -> Result) : Prop :=
  forall a, notes (f a) = [].

Definition may_note (f : Answers -> Result) : Prop :=
  exists a, notes (f a) <> [].

(** A result whose class, if any, is II–III or later. *)
Definition not_below_II_III (r : Result) : Prop :=
  mwho r ∈ ventricular_range /\ mwho r <> Some I /\ mwho r <> Some II.

(** ** The first draft again, with its store made explicit

    The rule functions above are written as functions of the answer set.
    The source reads the answer object it was handed and the module-level
    array [ORDER], and it allocates and mutates arrays of its own ([notes],
    [picks]).  Here the same statements run in a state monad over a store
    that holds exactly these objects, so that what a call reads, allocates
    and writes can be stated. *)

Module Stateful.

(** An array on the heap: a [string[]] or a [(MWHO | null)[]]. *)
Inductive Cell : Type :=
  | StringArray (xs : list string)
  | ClassArray (xs : list MWHO_or_null).

(** The objects a rule function can reach: the answer object passed as
    its argument, the module constant [ORDER], and the arrays allocated so
    far (an array's address is its index in [st_heap]). *)
Record Store : Type := mkStore {
  st_answers : Answers;
  st_ORDER : list MWHO;
  st_heap : list Cell
}.

Definition M (A : Type) : Type := Store -> A * Store.

Definition ret {A} (x : A) : M A := fun σ => (x, σ).

Definition bind {A B} (c : M A) (k : A -> M B) : M B :=
  fun σ => let (x, σ') := c σ in k x σ'.

Notation "x <- c ;; k" := (bind c (fun x => k))
  (at level 100, c at next level, right associativity).
Notation "c ;; k" := (bind c (fun _ => k))
  (at level 100, right associativity).

(** [a.K === "v"] *)
Definition prop_is (k v : string) : M bool :=
  fun σ => (answer_is (st_answers σ) k v, σ).

(** [c1 || c2] on two tests; the second is evaluated only if the first
    fails. *)
Definition orM (c1 c2 : M bool) : M bool :=
  b <- c1 ;; if b then ret true else c2.

(** [if (c) t else e] *)
Definition ifM {A} (c : M bool) (t e : M A) : M A :=
  b <- c ;; if b then t else e.

Notation "'If' c 'Then' t 'Else' e" := (ifM c t e)
  (at level 10, c at level 200, t at level 200, e at level 200).

(** An array literal ([[]]): a new cell at the end of the heap. *)
Definition new_array (c : Cell) : M nat :=
  fun σ => (length (st_heap σ),
            mkStore (st_answers σ) (st_ORDER σ) (st_heap σ ++ [c])).

Definition push_cell_string (s : string) (c : Cell) : Cell :=
  match c with
  | StringArray xs => StringArray (push xs s)
  | ClassArray xs => ClassArray xs
  end.

Definition push_cell_class (x : MWHO_or_null) (c : Cell) : Cell :=
  match c with
  | StringArray xs => StringArray xs
  | ClassArray xs => ClassArray (push xs x)
  end.

(** [arr.push(s)] on the array at address [l]: the cell is updated in
    place. *)
Definition push_string (l : nat) (s : string) : M unit :=
  fun σ => (tt, mkStore (st_answers σ) (st_ORDER σ)
                  (alter (push_cell_string s) l (st_heap σ))).

Definition push_class (l : nat) (x : MWHO_or_null) : M unit :=
  fun σ => (tt, mkStore (st_answers σ) (st_ORDER σ)
                  (alter (push_cell_class x) l (st_heap σ))).

(** The elements of the class array at address [l]. *)
Definition read_classes (l : nat) : M (list MWHO_or_null) :=
  fun σ => (match st_heap σ !! l with
            | Some (ClassArray xs) => xs
            | _ => []
            end, σ).

(** [ORDER.indexOf(x)] and [ORDER[i]] *)
Definition ORDER_indexOf (x : MWHO) : M Z :=
  fun σ => (indexOf (st_ORDER σ) x, σ).

Definition ORDER_at (i : Z) : M MWHO_or_null :=
  fun σ => (at_index (st_ORDER σ) i, σ).

Definition highestClass (a b : MWHO_or_null) : M MWHO_or_null :=
  match a, b with
  | None, _ => ret b
  | _, None => ret a
  | Some x, Some y =>
      i <- ORDER_indexOf x ;;
      j <- ORDER_indexOf y ;;
      r <- ORDER_at (Z.max i j) ;;
      ret (or_else r x)
  end.

(** [arr.reduce(f, init)] with a callback that runs in the store. *)
Fixpoint reduceM (f : MWHO_or_null -> MWHO_or_null -> M MWHO_or_null)
    (l : list MWHO_or_null) (acc : MWHO_or_null) : M MWHO_or_null :=
  match l with
  | [] => ret acc
  | cur :: l' => acc' <- f acc cur ;; reduceM f l' acc'
  end.

(** The returned object [{ mwho, notes }]: [notes] is the address of an
    array. *)
Record ResultRef : Type := mkRef { r_mwho : MWHO_or_null; r_notes : nat }.

(** The result as a value: the class and the contents of the notes array
    in a given store. *)
Definition deref (σ : Store) (r : ResultRef) : Result :=
  mkResult (r_mwho r)
    (match st_heap σ !! r_notes r with
     | Some (StringArray xs) => xs
     | _ => []
     end).

Definition computeVentricularPH : M ResultRef :=
  notes <- new_array (StringArray []) ;;
  If prop_is "PAH" "yes"
  Then (push_string notes "Pulmonary arterial hypertension" ;;
        ret (mkRef (Some IV) notes))
  Else
  If orM (prop_is "LVEF" "<30%") (prop_is "NYHA" "III/IV")
  Then ret (mkRef (Some IV) notes)
  Else
  If prop_is "LVEF" "30–45%"
  Then ret (mkRef (Some III) notes)
  Else
  If prop_is "LVEF" ">45%"
  Then
    (If prop_is "RVfunction" "significant"
     Then ret (mkRef (Some II_III) notes)
     Else
     If prop_is "PPCM" "> mild residual"
     Then (push_string notes "PPCM with > mild residual LV impairment" ;;
           ret (mkRef (Some IV) notes))
     Else
     If prop_is "PPCM" "≤ mild residual"
     Then (push_string notes "PPCM with ≤ mild residual LV impairment" ;;
           ret (mkRef (Some III) notes))
     Else ret (mkRef (Some II_III) notes))
  Else ret (mkRef None notes).

Definition computeCardiomyopathy : M ResultRef :=
  picks <- new_array (ClassArray []) ;;
  (If prop_is "HCMgenoPheno" "+/−" Then push_class picks (Some I) Else ret tt) ;;
  (If prop_is "HCMcomp" "arrhythmic/moderate-hemodynamic" Then push_class picks (Some III) Else ret tt) ;;
  (If prop_is "HCMcomp" "severe-LVOT>=50-or-EF<50%" Then push_class picks (Some IV) Else ret tt) ;;
  (If prop_is "DCM_EF" ">45%" Then push_class picks (Some II_III) Else ret tt) ;;
  (If prop_is "DCM_EF" "30–45%" Then push_class picks (Some III) Else ret tt) ;;
  (If prop_is "DCM_EF" "<30%/NYHAIII-IV" Then push_class picks (Some IV) Else ret tt) ;;
  (If prop_is "ARVC" "low-risk" Then push_class picks (Some II_III) Else ret tt) ;;
  (If prop_is "ARVC" "moderate/severe" Then push_class picks (Some III) Else ret tt) ;;
  elements <- read_classes picks ;;
  mwho <- reduceM (fun acc cur => highestClass acc cur) elements None ;;
  notes <- new_array (StringArray []) ;;
  ret (mkRef mwho notes).

Definition computeValvular : M ResultRef :=
  let m : MWHO_or_null := None in
  notes <- new_array (StringArray []) ;;
  m <- (If prop_is "PS_sev" "mild" Then highestClass m (Some I) Else ret m) ;;
  m <- (If prop_is "PS_sev" "moderate/severe"
        Then (m <- highestClass m (Some II_III) ;;
              push_string notes "Moderate/severe PS — confirm gradients and RV pressure" ;;
              ret m)
        Else ret m) ;;
  m <- (If prop_is "MS" "moderate" Then highestClass m (Some III) Else ret m) ;;
  m <- (If prop_is "MS" "severe" Then highestClass m (Some IV) Else ret m) ;;
  m <- (If prop_is "AS" "severe-asymptomatic" Then highestClass m (Some III) Else ret m) ;;
  m <- (If prop_is "AS" "severe-symptomatic" Then highestClass m (Some IV) Else ret m) ;;
  m <- (If orM (prop_is "MR_sev" "severe") (prop_is "AR_sev" "severe")
        Then highestClass m (Some III) Else ret m) ;;
  m <- (If orM (prop_is "MR_sev" "moderate") (prop_is "AR_sev" "moderate")
        Then highestClass m (Some II_III) Else ret m) ;;
  m <- (If prop_is "MVP_present" "yes"
        Then (If orM (prop_is "MR_sev" "none/trace") (prop_is "MR_sev" "mild")
              Then highestClass m (Some I) Else ret m)
        Else ret m) ;;
  m <- (If prop_is "MechanicalValve" "well-controlled"
        Then (push_string notes "Mechanical valve on stable anticoagulation" ;;
              highestClass m (Some III))
        Else ret m) ;;
  m <- (If prop_is "MechanicalValve" "unstable/complicated"
        Then (push_string notes "Mechanical valve with complications/unstable anticoagulation" ;;
              highestClass m (Some III))
        Else ret m) ;;
  ret (mkRef m notes).

Definition computeCongenital : M ResultRef :=
  let m : MWHO_or_null := None in
  m <- (If prop_is "SimpleRepaired" "yes" Then highestClass m (Some I) Else ret m) ;;
  m <- (If prop_is "ASDVSDunoperated" "yes" Then highestClass m (Some II) Else ret m) ;;
  m <- (If prop_is "ToFgood" "yes" Then highestClass m (Some II) Else ret m) ;;
  m <- (If prop_is "TGAarterialSwitchGood" "yes" Then highestClass m (Some II) Else ret m) ;;
  m <- (If prop_is "AVSDrepairedGood" "yes" Then highestClass m (Some II_III) Else ret m) ;;
  m <- (If prop_is "Ebstein" "uncomplicated" Then highestClass m (Some II_III) Else ret m) ;;
  m <- (If prop_is "Ebstein" "complicated" Then highestClass m (Some III) Else ret m) ;;
  m <- (If prop_is "SystemicRV" "good/mildly-decreased" Then highestClass m (Some III) Else ret m) ;;
  m <- (If prop_is "SystemicRV" "moderate/severely-decreased" Then highestClass m (Some IV) Else ret m) ;;
  m <- (If prop_is "Fontan" "uncomplicated" Then highestClass m (Some III) Else ret m) ;;
  m <- (If prop_is "Fontan" "complicated" Then highestClass m (Some IV) Else ret m) ;;
  m <- (If prop_is "Cyanotic" "unrepaired-non-eisenmenger" Then highestClass m (Some III) Else ret m) ;;
  m <- (If prop_is "Cyanotic" "eisenmenger" Then highestClass m (Some IV) Else ret m) ;;
  notes <- new_array (StringArray []) ;;
  ret (mkRef m notes).

Definition computeAortopathy : M ResultRef :=
  let m : MWHO_or_null := None in
  notes <- new_array (StringArray []) ;;
  m <- (If prop_is "NonHTADlt40" "yes" Then highestClass m (Some I) Else ret m) ;;
  m <- (If prop_is "TurnerNoCVfeatures" "yes" Then highestClass m (Some II) Else ret m) ;;
  m <- (If prop_is "HTADnoDilation_or_BAVlt45_or_repairedCoA" "yes" Then highestClass m (Some II_III) Else ret m) ;;
  m <- (If prop_is "Marfan40to45" "yes" Then highestClass m (Some III) Else ret m) ;;
  m <- (If prop_is "BAV45to50" "yes" Then highestClass m (Some III) Else ret m) ;;
  m <- (If prop_is "TurnerASI20to25" "yes" Then highestClass m (Some III) Else ret m) ;;
  m <- (If prop_is "OtherAortaLt50" "yes" Then highestClass m (Some III) Else ret m) ;;
  m <- (If prop_is "MarfanGt45" "yes"
        Then (m <- highestClass m (Some IV) ;;
              push_string notes "Marfan/HTAD aortic diameter >45 mm" ;; ret m)
        Else ret m) ;;
  m <- (If prop_is "BAVGt50" "yes"
        Then (m <- highestClass m (Some IV) ;;
              push_string notes "BAV aortic diameter >50 mm" ;; ret m)
        Else ret m) ;;
  m <- (If prop_is "TurnerASIgt25" "yes"
        Then (m <- highestClass m (Some IV) ;;
              push_string notes "Turner ASI >25 mm^2/m" ;; ret m)
        Else ret m) ;;
  m <- (If prop_is "SevereRecoA_or_vEDS_or_PriorDissectionGrowing" "yes"
        Then (m <- highestClass m (Some IV) ;;
              push_string notes "Severe (re)CoA / vEDS / prior dissection with growth" ;; ret m)
        Else ret m) ;;
  m <- (If prop_is "PriorDissectionStable" "yes" Then highestClass m (Some III) Else ret m) ;;
  ret (mkRef m notes).

Definition computeArrhythmia : M ResultRef :=
  let m : MWHO_or_null := None in
  m <- (If prop_is "IsolatedEctopy" "yes" Then highestClass m (Some I) Else ret m) ;;
  m <- (If prop_is "SVTorPacemaker" "yes" Then highestClass m (Some II) Else ret m) ;;
  m <- (If prop_is "InheritedLowRisk" "yes" Then highestClass m (Some II_III) Else ret m) ;;
  m <- (If prop_is "InheritedHighRisk" "yes" Then highestClass m (Some III) Else ret m) ;;
  m <- (If prop_is "SustainedVT" "yes" Then highestClass m (Some III) Else ret m) ;;
  notes <- new_array (StringArray []) ;;
  ret (mkRef m notes).

Definition computeCoronaryOther : M ResultRef :=
  let m : MWHO_or_null := None in
  m <- (If prop_is "SCAD" "yes" Then highestClass m (Some III) Else ret m) ;;
  m <- (If prop_is "PriorIschaemia" "yes" Then highestClass m (Some III) Else ret m) ;;
  m <- (If prop_is "PriorAPOhosp" "yes" Then highestClass m (Some III) Else ret m) ;;
  m <- (If prop_is "CancerTherapyCVtox" "yes" Then highestClass m (Some III) Else ret m) ;;
  notes <- new_array (StringArray []) ;;
  ret (mkRef m notes).

(** The rule function of a group, as the [switch] of [computed] picks
    it. *)
Definition rule (g : Group) : M ResultRef :=
  match g with
  | VentricularPH => computeVentricularPH
  | Cardiomyopathy => computeCardiomyopathy
  | Valvular => computeValvular
  | Congenital => computeCongenital
  | Aortopathy => computeAortopathy
  | Arrhythmia => computeArrhythmia
  | CoronaryOther => computeCoronaryOther
  end.

(** What a call may do to the store: it leaves the answer object and
    [ORDER] as they are and keeps every array that existed, adding new
    ones at the end. *)
Definition preserves (σ σ' : Store) : Prop :=
  st_answers σ' = st_answers σ /\
  st_ORDER σ' = st_ORDER σ /\
  st_heap σ `prefix_of` st_heap σ'.

(** A store whose [ORDER] is the module's constant. *)
Abbreviation St a h := (mkStore a Draft1.ORDER h).

(** A store for a session: some answers, [ORDER] as the module defines
    it, and an array left by an earlier call. *)
Definition store_example : Store :=
  mkStore (<["PS_sev" := "moderate/severe"]> (<["MechanicalValve" := "well-controlled"]> ∅))
          Draft1.ORDER
          [StringArray ["Pulmonary arterial hypertension"]].

End Stateful.

(** * The rest of the component *)

(** ** The question forms

    [GroupQuestions] renders, for the selected group, one radio group [Q]
    per question.  A question is kept here as the [name] of its radio
    group and the [value]s of its options, in the order of the source; the
    [label]s, which are only displayed, are left out.  Picking an option
    calls [set(name, value)]. *)

Module Forms.

Record Question : Type := Q { name : string; options : list string }.

(** First draft *)
Definition GroupQuestions1 (group : Group) : list Question :=
  match group with
  | VentricularPH =>
      [ Q "PAH" ["yes"; "no"];
        Q "LVEF" ["<30%"; "30–45%"; ">45%"];
        Q "NYHA" ["I/II"; "III/IV"];
        Q "RVfunction" ["none/mild"; "significant"];
        Q "PPCM" ["no"; "≤ mild residual"; "> mild residual"] ]
  | Cardiomyopathy =>
      [ Q "HCMgenoPheno" ["+/−"; "other"];
        Q "HCMcomp" ["none"; "arrhythmic/moderate-hemodynamic"; "severe-LVOT>=50-or-EF<50%"];
        Q "DCM_EF" [">45%"; "30–45%"; "<30%/NYHAIII-IV"];
        Q "ARVC" ["low-risk"; "moderate/severe"; "na"] ]
  | Valvular =>
      [ Q "PS_sev" ["none"; "mild"; "moderate/severe"];
        Q "MVP_present" ["yes"; "no"];
        Q "MR_sev" ["none/trace"; "mild"; "moderate"; "severe"];
        Q "AR_sev" ["none/trace"; "mild"; "moderate"; "severe"];
        Q "MS" ["none/mild"; "moderate"; "severe"];
        Q "AS" ["none/mild/moderate"; "severe-asymptomatic"; "severe-symptomatic"];
        Q "MechanicalValve" ["well-controlled"; "unstable/complicated"; "no"] ]
  | Congenital =>
      [ Q "SimpleRepaired" ["yes"; "no"];
        Q "ASDVSDunoperated" ["yes"; "no"];
        Q "ToFgood" ["yes"; "no"];
        Q "TGAarterialSwitchGood" ["yes"; "no"];
        Q "AVSDrepairedGood" ["yes"; "no"];
        Q "Ebstein" ["uncomplicated"; "complicated"; "na"];
        Q "SystemicRV" ["good/mildly-decreased"; "moderate/severely-decreased"; "na"];
        Q "Fontan" ["uncomplicated"; "complicated"; "na"];
        Q "Cyanotic" ["unrepaired-non-eisenmenger"; "eisenmenger"; "no"] ]
  | Aortopathy =>
      [ Q "NonHTADlt40" ["yes"; "no"];
        Q "TurnerNoCVfeatures" ["yes"; "no"];
        Q "HTADnoDilation_or_BAVlt45_or_repairedCoA" ["yes"; "no"];
        Q "Marfan40to45" ["yes"; "no"];
        Q "BAV45to50" ["yes"; "no"];
        Q "TurnerASI20to25" ["yes"; "no"];
        Q "OtherAortaLt50" ["yes"; "no"];
        Q "MarfanGt45" ["yes"; "no"];
        Q "BAVGt50" ["yes"; "no"];
        Q "TurnerASIgt25" ["yes"; "no"];
        Q "SevereRecoA_or_vEDS_or_PriorDissectionGrowing" ["yes"; "no"];
        Q "PriorDissectionStable" ["yes"; "no"] ]
  | Arrhythmia =>
      [ Q "IsolatedEctopy" ["yes"; "no"];
        Q "SVTorPacemaker" ["yes"; "no"];
        Q "InheritedLowRisk" ["yes"; "no"];
        Q "InheritedHighRisk" ["yes"; "no"];
        Q "SustainedVT" ["yes"; "no"] ]
  | CoronaryOther =>
      [ Q "SCAD" ["yes"; "no"];
        Q "PriorIschaemia" ["yes"; "no"];
        Q "PriorAPOhosp" ["yes"; "no"];
        Q "CancerTherapyCVtox" ["yes"; "no"] ]
  end.

(** Second draft: every question has one more option, "unknown" *)
Definition GroupQuestions2 (group : Group) : list Question :=
  match group with
  | VentricularPH =>
      [ Q "PAH" ["yes"; "no"; "unknown"];
        Q "LVEF" ["<30%"; "30–45%"; ">45%"; "unknown"];
        Q "NYHA" ["I/II"; "III/IV"; "unknown"];
        Q "RVfunction" ["none/mild"; "significant"; "unknown"];
        Q "PPCM" ["no"; "≤ mild residual"; "> mild residual"; "unknown"] ]
  | Cardiomyopathy =>
      [ Q "HCMgenoPheno" ["+/−"; "other"; "unknown"];
        Q "HCMcomp" ["none"; "arrhythmic/moderate-hemodynamic"; "severe-LVOT>=50-or-EF<50%"; "unknown"];
        Q "DCM_EF" [">45%"; "30–45%"; "<30%/NYHAIII-IV"; "unknown"];
        Q "ARVC" ["low-risk"; "moderate/severe"; "na"; "unknown"] ]
  | Valvular =>
      [ Q "PS_sev" ["none"; "mild"; "moderate/severe"; "unknown"];
        Q "MVP_present" ["yes"; "no"; "unknown"];
        Q "MR_sev" ["none/trace"; "mild"; "moderate"; "severe"; "unknown"];
        Q "AR_sev" ["none/trace"; "mild"; "moderate"; "severe"; "unknown"];
        Q "MS" ["none/mild"; "moderate"; "severe"; "unknown"];
        Q "AS" ["none/mild/moderate"; "severe-asymptomatic"; "severe-symptomatic"; "unknown"];
        Q "MechanicalValve" ["well-controlled"; "unstable/complicated"; "no"; "unknown"] ]
  | Congenital =>
      [ Q "SimpleRepaired" ["yes"; "no"; "unknown"];
        Q "ASDVSDunoperated" ["yes"; "no"; "unknown"];
        Q "ToFgood" ["yes"; "no"; "unknown"];
        Q "TGAarterialSwitchGood" ["yes"; "no"; "unknown"];
        Q "AVSDrepairedGood" ["yes"; "no"; "unknown"];
        Q "Ebstein" ["uncomplicated"; "complicated"; "na"; "unknown"];
        Q "SystemicRV" ["good/mildly↓"; "moderate/severely↓"; "na"; "unknown"];
        Q "Fontan" ["uncomplicated"; "complicated"; "na"; "unknown"];
        Q "Cyanotic" ["unrepaired-non-eisenmenger"; "eisenmenger"; "no"; "unknown"] ]
  | Aortopathy =>
      [ Q "NonHTADlt40" ["yes"; "no"; "unknown"];
        Q "TurnerNoCVfeatures" ["yes"; "no"; "unknown"];
        Q "HTADnoDilation_or_BAVlt45_or_repairedCoA" ["yes"; "no"; "unknown"];
        Q "Marfan40to45" ["yes"; "no"; "unknown"];
        Q "BAV45to50" ["yes"; "no"; "unknown"];
        Q "TurnerASI20to25" ["yes"; "no"; "unknown"];
        Q "OtherAortaLt50" ["yes"; "no"; "unknown"];
        Q "MarfanGt45" ["yes"; "no"; "unknown"];
        Q "BAVGt50" ["yes"; "no"; "unknown"];
        Q "TurnerASIgt25" ["yes"; "no"; "unknown"];
        Q "SevereRecoA_or_vEDS_or_PriorDissectionGrowing" ["yes"; "no"; "unknown"];
        Q "PriorDissectionStable" ["yes"; "no"; "unknown"] ]
  | Arrhythmia =>
      [ Q "IsolatedEctopy" ["yes"; "no"; "unknown"];
        Q "SVTorPacemaker" ["yes"; "no"; "unknown"];
        Q "InheritedLowRisk" ["yes"; "no"; "unknown"];
        Q "InheritedHighRisk" ["yes"; "no"; "unknown"];
        Q "SustainedVT" ["yes"; "no"; "unknown"] ]
  | CoronaryOther =>
      [ Q "SCAD" ["yes"; "no"; "unknown"];
        Q "PriorIschaemia" ["yes"; "no"; "unknown"];
        Q "PriorAPOhosp" ["yes"; "no"; "unknown"];
        Q "CancerTherapyCVtox" ["yes"; "no"; "unknown"] ]
  end.

(** Third draft *)
Definition GroupQuestions3 (group : Group) : list Question :=
  match group with
  | VentricularPH =>
      [ Q "PAH" ["yes"; "no"];
        Q "LVEF" ["<30%"; "30–45%"; ">45%"];
        Q "NYHA" ["I/II"; "III/IV"];
        Q "RVfunction" ["none/mild"; "significant"];
        Q "PPCM" ["no"; "≤ mild residual"; "> mild residual"] ]
  | Cardiomyopathy =>
      [ Q "HCMgenoPheno" ["+/−"; "other"];
        Q "HCMcomp" ["none"; "arrhythmic/moderate-hemodynamic"; "severe-LVOT>=50-or-EF<50%"];
        Q "DCM_EF" [">45%"; "30–45%"; "<30%/NYHAIII-IV"];
        Q "ARVC" ["low-risk"; "moderate/severe"; "na"] ]
  | Valvular =>
      [ Q "PS" ["small/mild"; "other"];
        Q "MVP" ["no-sig-MR"; "other"];
        Q "MS" ["none/mild"; "moderate"; "severe"];
        Q "AS" ["none/mild/moderate"; "severe-asymptomatic"; "severe-symptomatic"];
        Q "LeftRegurg" ["none/mild/moderate"; "severe"];
        Q "NativeTissue" ["mild-MS/mod-AS/mod-regurg"; "na"];
        Q "MechanicalValve" ["well-controlled"; "unstable/complicated"; "no"] ]
  | Congenital =>
      [ Q "SimpleRepaired" ["yes"; "no"];
        Q "ASDVSDunoperated" ["yes"; "no"];
        Q "ToFgood" ["yes"; "no"];
        Q "TGAarterialSwitchGood" ["yes"; "no"];
        Q "AVSDrepairedGood" ["yes"; "no"];
        Q "Ebstein" ["uncomplicated"; "complicated"; "na"];
        Q "SystemicRV" ["good/mildly↓"; "moderate/severely↓"; "na"];
        Q "Fontan" ["uncomplicated"; "complicated"; "na"];
        Q "Cyanotic" ["unrepaired-non-eisenmenger"; "eisenmenger"; "no"] ]
  | Aortopathy =>
      [ Q "NonHTADlt40" ["yes"; "no"];
        Q "TurnerNoCVfeatures" ["yes"; "no"];
        Q "HTADnoDilation_or_BAVlt45_or_repairedCoA" ["yes"; "no"];
        Q "Marfan40to45" ["yes"; "no"];
        Q "BAV45to50" ["yes"; "no"];
        Q "TurnerASI20to25" ["yes"; "no"];
        Q "OtherAortaLt50" ["yes"; "no"];
        Q "MarfanGt45" ["yes"; "no"];
        Q "BAVGt50" ["yes"; "no"];
        Q "TurnerASIgt25" ["yes"; "no"];
        Q "SevereRecoA_or_vEDS_or_PriorDissectionGrowing" ["yes"; "no"];
        Q "PriorDissectionStable" ["yes"; "no"] ]
  | Arrhythmia =>
      [ Q "IsolatedEctopy" ["yes"; "no"];
        Q "SVTorPacemaker" ["yes"; "no"];
        Q "InheritedLowRisk" ["yes"; "no"];
        Q "InheritedHighRisk" ["yes"; "no"];
        Q "SustainedVT" ["yes"; "no"] ]
  | CoronaryOther =>
      [ Q "SCAD" ["yes"; "no"];
        Q "PriorIschaemia" ["yes"; "no"];
        Q "PriorAPOhosp" ["yes"; "no"];
        Q "CancerTherapyCVtox" ["yes"; "no"] ]
  end.

Definition GroupQuestions (d : Draft) : Group -> list Question :=
  match d with
  | First => GroupQuestions1
  | Second => GroupQuestions2
  | Third => GroupQuestions3
  end.

(** The names of the questions of a group. *)
Definition names (d : Draft) (g : Group) : list string :=
  map name (GroupQuestions d g).

(** The form of group [g] has a question [k] with an option [v]. *)
Definition offers (d : Draft) (g : Group) (k v : string) : bool :=
  existsb (fun q => bool_decide (name q = k) && bool_decide (v ∈ options q))
          (GroupQuestions d g).

(** Every answer of [a] is an option of a question of group [g]. *)
Definition filled_from (d : Draft) (g : Group) (a : Answers) : Prop :=
  map_Forall (fun k v => offers d g k v = true) a.

#[global] Instance filled_from_dec d g a : Decision (filled_from d g a).
Proof. unfold filled_from. apply _. Defined.

End Forms.

(** ** Sessions

    The handlers of a draft, and when the page lets an event happen: the
    group buttons are always there; the radio groups of a group and the
    Reset button are rendered only while a group is selected
    ([{group && (...)}]). *)

Definition step_of (d : Draft) : AppState -> Event -> AppState :=
  match d with
  | First => Draft1.step
  | Second => Draft2.step
  | Third => Draft3.step
  end.

Definition enabled (d : Draft) (s : AppState) (e : Event) : bool :=
  match e with
  | ClickGroup _ => true
  | PickOption k v =>
      match group s with
      | Some g => Forms.offers d g k v
      | None => false
      end
  | ClickReset =>
      match group s with
      | Some _ => true
      | None => false
      end
  end.

(** The states a session can be in. *)
Inductive reachable (d : Draft) : AppState -> Prop :=
  | reachable_initial : reachable d initialState
  | reachable_step s e :
      reachable d s -> enabled d s e = true -> reachable d (step_of d s e).

(** ** The rule functions as tables

    The six rule functions other than [computeVentricularPH] are sequences
    of statements [if (cond) m = highestClass(m, "C")] and
    [if (cond) notes.push("...")]; [computeVentricularPH] is a tree of
    [if]s that end in [return].  The conditions, classes and notes of each
    function are collected here, in source order, to reason about all the
    functions at once; each function is proved equal to the reading of its
    table below. *)

Module Rules.

(** The conditions the rule functions use. *)
Inductive Cond : Type :=
  | Is (k v : string)        (* a.K === "v" *)
  | Blank (k : string)       (* !a.K *)
  | Or (c1 c2 : Cond)        (* c1 || c2 *)
  | And (c1 c2 : Cond)       (* an [if] inside an [if] *)
  | Not (c : Cond).          (* the [else] of an [if] *)

Fixpoint holds (c : Cond) (a : Answers) : bool :=
  match c with
  | Is k v => answer_is a k v
  | Blank k => falsy a k
  | Or c1 c2 => holds c1 a || holds c2 a
  | And c1 c2 => holds c1 a && holds c2 a
  | Not c => negb (holds c a)
  end.

(** The keys a condition reads. *)
Fixpoint keys (c : Cond) : list string :=
  match c with
  | Is k _ => [k]
  | Blank k => [k]
  | Or c1 c2 => keys c1 ++ keys c2
  | And c1 c2 => keys c1 ++ keys c2
  | Not c => keys c
  end.

(** The tests [a.K === "v"] a condition makes. *)
Fixpoint tests (c : Cond) : list (string * string) :=
  match c with
  | Is k v => [(k, v)]
  | Blank _ => []
  | Or c1 c2 => tests c1 ++ tests c2
  | And c1 c2 => tests c1 ++ tests c2
  | Not c => tests c
  end.

(** A condition made of [===], [||] and nesting only. *)
Fixpoint positive (c : Cond) : bool :=
  match c with
  | Is _ _ => true
  | Blank _ => false
  | Or c1 c2 => positive c1 && positive c2
  | And c1 c2 => positive c1 && positive c2
  | Not _ => false
  end.

(** The statements that raise the class, for the six flat functions. *)
Definition class_rules (d : Draft) (g : Group) : list (Cond * MWHO) :=
  match g with
  | VentricularPH => []
  | Cardiomyopathy =>
      [ (Is "HCMgenoPheno" "+/−", I);
        (Is "HCMcomp" "arrhythmic/moderate-hemodynamic", III);
        (Is "HCMcomp" "severe-LVOT>=50-or-EF<50%", IV);
        (Is "DCM_EF" ">45%", II_III);
        (Is "DCM_EF" "30–45%", III);
        (Is "DCM_EF" "<30%/NYHAIII-IV", IV);
        (Is "ARVC" "low-risk", II_III);
        (Is "ARVC" "moderate/severe", III) ]
  | Valvular =>
      match d with
      | First | Second =>
          [ (Is "PS_sev" "mild", I);
            (Is "PS_sev" "moderate/severe", II_III);
            (Is "MS" "moderate", III);
            (Is "MS" "severe", IV);
            (Is "AS" "severe-asymptomatic", III);
            (Is "AS" "severe-symptomatic", IV);
            (Or (Is "MR_sev" "severe") (Is "AR_sev" "severe"), III);
            (Or (Is "MR_sev" "moderate") (Is "AR_sev" "moderate"), II_III);
            (And (Is "MVP_present" "yes")
                 (Or (Is "MR_sev" "none/trace") (Is "MR_sev" "mild")), I);
            (Is "MechanicalValve" "well-controlled", III);
            (Is "MechanicalValve" "unstable/complicated", III) ]
      | Third =>
          [ (Is "PS" "small/mild", I);
            (Is "MVP" "no-sig-MR", I);
            (Is "MS" "moderate", III);
            (Is "MS" "severe", IV);
            (Is "AS" "severe-asymptomatic", III);
            (Is "AS" "severe-symptomatic", IV);
            (Is "LeftRegurg" "severe", III);
            (Is "NativeTissue" "mild-MS/mod-AS/mod-regurg", II_III);
            (Is "MechanicalValve" "well-controlled", III);
            (Is "MechanicalValve" "unstable/complicated", III) ]
      end
  | Congenital =>
      [ (Is "SimpleRepaired" "yes", I);
        (Is "ASDVSDunoperated" "yes", II);
        (Is "ToFgood" "yes", II);
        (Is "TGAarterialSwitchGood" "yes", II);
        (Is "AVSDrepairedGood" "yes", II_III);
        (Is "Ebstein" "uncomplicated", II_III);
        (Is "Ebstein" "complicated", III);
        (Is "SystemicRV"
            match d with First => "good/mildly-decreased" | _ => "good/mildly↓" end, III);
        (Is "SystemicRV"
            match d with
            | First => "moderate/severely-decreased"
            | _ => "moderate/severely↓"
            end, IV);
        (Is "Fontan" "uncomplicated", III);
        (Is "Fontan" "complicated", IV);
        (Is "Cyanotic" "unrepaired-non-eisenmenger", III);
        (Is "Cyanotic" "eisenmenger", IV) ]
  | Aortopathy =>
      [ (Is "NonHTADlt40" "yes", I);
        (Is "TurnerNoCVfeatures" "yes", II);
        (Is "HTADnoDilation_or_BAVlt45_or_repairedCoA" "yes", II_III);
        (Is "Marfan40to45" "yes", III);
        (Is "BAV45to50" "yes", III);
        (Is "TurnerASI20to25" "yes", III);
        (Is "OtherAortaLt50" "yes", III);
        (Is "MarfanGt45" "yes", IV);
        (Is "BAVGt50" "yes", IV);
        (Is "TurnerASIgt25" "yes", IV);
        (Is "SevereRecoA_or_vEDS_or_PriorDissectionGrowing" "yes", IV);
        (Is "PriorDissectionStable" "yes", III) ]
  | Arrhythmia =>
      [ (Is "IsolatedEctopy" "yes", I);
        (Is "SVTorPacemaker" "yes", II);
        (Is "InheritedLowRisk" "yes", II_III);
        (Is "InheritedHighRisk" "yes", III);
        (Is "SustainedVT" "yes", III) ]
  | CoronaryOther =>
      [ (Is "SCAD" "yes", III);
        (Is "PriorIschaemia" "yes", III);
        (Is "PriorAPOhosp" "yes", III);
        (Is "CancerTherapyCVtox" "yes", III) ]
  end.

(** The statements that push a note, for the six flat functions. *)
Definition note_rules (d : Draft) (g : Group) : list (Cond * string) :=
  match g with
  | Valvular =>
      match d with
      | First =>
          [ (Is "PS_sev" "moderate/severe",
             "Moderate/severe PS — confirm gradients and RV pressure");
            (Is "MechanicalValve" "well-controlled",
             "Mechanical valve on stable anticoagulation");
            (Is "MechanicalValve" "unstable/complicated",
             "Mechanical valve with complications/unstable anticoagulation") ]
      | Second =>
          [ (Is "PS_sev" "moderate/severe",
             "Moderate/severe PS — confirm gradients & RV pressure");
            (And (And (Is "MVP_present" "yes")
                      (Not (Or (Is "MR_sev" "none/trace") (Is "MR_sev" "mild"))))
                 (Or (Blank "MR_sev") (Is "MR_sev" "unknown")),
             "MVP present but MR severity unknown — cannot assume class I");
            (Is "MechanicalValve" "well-controlled",
             "Mechanical valve on stable anticoagulation");
            (Is "MechanicalValve" "unstable/complicated",
             "Mechanical valve with complications/unstable anticoagulation") ]
      | Third =>
          [ (Is "MechanicalValve" "well-controlled",
             "Mechanical valve on stable anticoagulation");
            (Is "MechanicalValve" "unstable/complicated",
             "Mechanical valve with complications/unstable anticoagulation") ]
      end
  | Aortopathy =>
      match d with
      | First =>
          [ (Is "MarfanGt45" "yes", "Marfan/HTAD aortic diameter >45 mm");
            (Is "BAVGt50" "yes", "BAV aortic diameter >50 mm");
            (Is "TurnerASIgt25" "yes", "Turner ASI >25 mm^2/m");
            (Is "SevereRecoA_or_vEDS_or_PriorDissectionGrowing" "yes",
             "Severe (re)CoA / vEDS / prior dissection with growth") ]
      | _ =>
          [ (Is "MarfanGt45" "yes", "Severe Marfan/HTAD aortic dilation >45 mm");
            (Is "BAVGt50" "yes", "Severe BAV aortic dilation >50 mm");
            (Is "TurnerASIgt25" "yes", "Turner ASI >25 mm²/m");
            (Is "SevereRecoA_or_vEDS_or_PriorDissectionGrowing" "yes",
             "Severe (re)CoA / vascular EDS / prior dissection with growth") ]
      end
  | _ => []
  end.

(** A tree of [if]s whose leaves are [return { mwho, notes }]. *)
Inductive Tree : Type :=
  | Return (r : Result)
  | Branch (c : Cond) (yes no : Tree).

(** [computeVentricularPH], the same in the three drafts. *)
Definition ventricular : Tree :=
  Branch (Is "PAH" "yes")
    (Return (mkResult (Some IV) ["Pulmonary arterial hypertension"]))
  (Branch (Or (Is "LVEF" "<30%") (Is "NYHA" "III/IV"))
    (Return (mkResult (Some IV) []))
  (Branch (Is "LVEF" "30–45%")
    (Return (mkResult (Some III) []))
  (Branch (Is "LVEF" ">45%")
    (Branch (Is "RVfunction" "significant")
       (Return (mkResult (Some II_III) []))
    (Branch (Is "PPCM" "> mild residual")
       (Return (mkResult (Some IV) ["PPCM with > mild residual LV impairment"]))
    (Branch (Is "PPCM" "≤ mild residual")
       (Return (mkResult (Some III) ["PPCM with ≤ mild residual LV impairment"]))
       (Return (mkResult (Some II_III) [])))))
    (Return (mkResult None []))))).

Fixpoint run_tree (t : Tree) (a : Answers) : Result :=
  match t with
  | Return r => r
  | Branch c yes no => if holds c a then run_tree yes a else run_tree no a
  end.

Fixpoint tree_conds (t : Tree) : list Cond :=
  match t with
  | Return _ => []
  | Branch c yes no => c :: tree_conds yes ++ tree_conds no
  end.

(** The reducer a draft uses. *)
Definition reducer (d : Draft) : MWHO_or_null -> MWHO_or_null -> MWHO_or_null :=
  match d with
  | First => Draft1.highestClass
  | Second => Draft2.highestClass
  | Third => Draft3.highestClass
  end.

(** The statements of a table with their conditions evaluated on an
    answer set. *)
Definition fired {A} (rules : list (Cond * A)) (a : Answers) : list (bool * A) :=
  map (fun r : Cond * A => (holds (fst r) a, snd r)) rules.

(** Running the statements, with [m] starting as [null] and [notes] as
    [[]]. *)
Definition raise_all (hc : MWHO_or_null -> MWHO_or_null -> MWHO_or_null)
    (l : list (bool * MWHO)) : MWHO_or_null :=
  fold_left (fun m (r : bool * MWHO) => if fst r then hc m (Some (snd r)) else m) l None.

Definition push_all (l : list (bool * string)) : list string :=
  fold_left (fun notes (r : bool * string) => if fst r then push notes (snd r) else notes) l [].

Definition classify (hc : MWHO_or_null -> MWHO_or_null -> MWHO_or_null)
    (rules : list (Cond * MWHO)) (a : Answers) : MWHO_or_null :=
  raise_all hc (fired rules a).

Definition flag (rules : list (Cond * string)) (a : Answers) : list string :=
  push_all (fired rules a).

(** What the statements whose condition holds carry, in order. *)
Fixpoint kept {A} (l : list (bool * A)) : list A :=
  match l with
  | [] => []
  | r :: l' => if fst r then snd r :: kept l' else kept l'
  end.

Definition read (d : Draft) (g : Group) (a : Answers) : Result :=
  match g with
  | VentricularPH => run_tree ventricular a
  | _ => mkResult (classify (reducer d) (class_rules d g) a) (flag (note_rules d g) a)
  end.

(** All the conditions of a rule function, and the keys they read. *)
Definition conds (d : Draft) (g : Group) : list Cond :=
  match g with
  | VentricularPH => tree_conds ventricular
  | _ => map fst (class_rules d g) ++ map fst (note_rules d g)
  end.

Definition keys_read (d : Draft) (g : Group) : list string :=
  concat (map keys (conds d g)).

Definition tests_made (d : Draft) (g : Group) : list (string * string) :=
  concat (map tests (conds d g)).

End Rules.

(** ** Notions used in the statements, continued *)

(** The rank of a result class: [-1] for [null], else the position in
    [ORDER]. *)
Definition rank (m : MWHO_or_null) : Z :=
  match m with
  | None => -1
  | Some c => position c
  end.

(** The groups whose rule function folds its candidates. *)
Definition flat (g : Group) : Prop := g <> VentricularPH.

(** The answer set that holds exactly the tests of a condition that it
    needs to hold (the first alternative of each [||]). *)
Fixpoint answers_for (c : Rules.Cond) : Answers :=
  match c with
  | Rules.Is k v => {[ k := v ]}
  | Rules.Blank _ => ∅
  | Rules.Or c1 _ => answers_for c1
  | Rules.And c1 c2 => answers_for c1 ∪ answers_for c2
  | Rules.Not _ => ∅
  end.


(** ** The summary text (first and second draft)

    [App] builds the text behind "Copy summary" from [group] and
    [computed].  JavaScript strings are modelled as the UTF-8 bytes of
    their text; the texts of the component are well-formed, so a white
    space character is recognised by its encoding.  The third draft's
    [summary] is not embedded: in the file its template literals have lost
    their backquotes. *)

Module Text.

(** The strings that are the values of [MWHO] and [Group]. *)
Definition of_MWHO (c : MWHO) : string :=
  match c with
  | I => "I" | II => "II" | II_III => "II–III" | III => "III" | IV => "IV"
  end.

Definition of_Group (g : Group) : string :=
  match g with
  | VentricularPH => "Ventricular/PH/PPCM"
  | Cardiomyopathy => "Cardiomyopathy"
  | Valvular => "Valvular"
  | Congenital => "Congenital"
  | Aortopathy => "Aortopathy"
  | Arrhythmia => "Arrhythmia"
  | CoronaryOther => "Coronary/Other"
  end.

(** An entry of [meaningByMWHO]. *)
Record Meaning : Type := mkMeaning {
  maternal : string;
  fetal : string;
  care : string;
  delivery : string
}.

(** The line feed a [\n] of a template literal stands for. *)
Definition nl : string := String (Ascii.ascii_of_N 10) "".

(** [Array.prototype.join] on an array of strings. *)
Fixpoint join (sep : string) (l : list string) : string :=
  match l with
  | [] => ""
  | [x] => x
  | x :: l' => x +:+ sep +:+ join sep l'
  end.

(** The characters [String.prototype.trim] removes (WhiteSpace and
    LineTerminator of the language definition), by the length of their
    encoding: U+0009 to U+000D and U+0020; U+00A0; U+1680, U+2000 to
    U+200A, U+2028, U+2029, U+202F, U+205F, U+3000 and U+FEFF. *)
Definition white1 (c : Ascii.ascii) : bool :=
  let n := Ascii.N_of_ascii c in
  ((9 <=? n) && (n <=? 13) || (n =? 32))%N.

Definition white2 (c1 c2 : Ascii.ascii) : bool :=
  ((Ascii.N_of_ascii c1 =? 194) && (Ascii.N_of_ascii c2 =? 160))%N.

Definition white3 (c1 c2 c3 : Ascii.ascii) : bool :=
  let n1 := Ascii.N_of_ascii c1 in
  let n2 := Ascii.N_of_ascii c2 in
  let n3 := Ascii.N_of_ascii c3 in
  ((n1 =? 225) && (n2 =? 154) && (n3 =? 128)
   || (n1 =? 226) && (n2 =? 128)
      && ((128 <=? n3) && (n3 <=? 138) || (n3 =? 168) || (n3 =? 169) || (n3 =? 175))
   || (n1 =? 226) && (n2 =? 129) && (n3 =? 159)
   || (n1 =? 227) && (n2 =? 128) && (n3 =? 128)
   || (n1 =? 239) && (n2 =? 187) && (n3 =? 191))%N.

(** The bytes left when the white space at the start is removed. *)
Fixpoint drop_white (l : list Ascii.ascii) : list Ascii.ascii :=
  match l with
  | [] => []
  | c1 :: l1 =>
      if white1 c1 then drop_white l1
      else match l1 with
           | [] => l
           | c2 :: l2 =>
               if white2 c1 c2 then drop_white l2
               else match l2 with
                    | [] => l
                    | c3 :: l3 => if white3 c1 c2 c3 then drop_white l3 else l
                    end
           end
  end.

(** The same on the reversed bytes, for the white space at the end. *)
Fixpoint drop_white_rev (l : list Ascii.ascii) : list Ascii.ascii :=
  match l with
  | [] => []
  | c1 :: l1 =>
      if white1 c1 then drop_white_rev l1
      else match l1 with
           | [] => l
           | c2 :: l2 =>
               if white2 c2 c1 then drop_white_rev l2
               else match l2 with
                    | [] => l
                    | c3 :: l3 => if white3 c3 c2 c1 then drop_white_rev l3 else l
                    end
           end
  end.

(** [String.prototype.trim] *)
Definition trim (s : string) : string :=
  String.string_of_list_ascii
    (rev (drop_white_rev (rev (drop_white (String.list_ascii_of_string s))))).

(** A byte that is a character of its own and no white space. *)
Definition plain (c : Ascii.ascii) : bool :=
  (Ascii.N_of_ascii c <? 128)%N && negb (white1 c).

Definition starts_plain (s : string) : bool :=
  match String.list_ascii_of_string s with
  | c :: _ => plain c
  | [] => false
  end.

Definition ends_plain (s : string) : bool :=
  match rev (String.list_ascii_of_string s) with
  | c :: _ => plain c
  | [] => false
  end.

(** No line feed in the string. *)
Definition one_line (s : string) : bool :=
  forallb (fun c => negb (Ascii.N_of_ascii c =? 10)%N) (String.list_ascii_of_string s).

End Text.

Module Summary1.

(** [meaningByMWHO] of the first draft. *)
Definition meaningByMWHO (c : MWHO) : Text.Meaning :=
  match c with
  | I =>
      Text.mkMeaning
        "No detectable increase in maternal mortality; no/mild morbidity vs general population."
        "Baseline obstetric/fetal risk."
        "Routine antenatal care; cardiology as needed."
        "Vaginal birth usually appropriate; neuraxial anesthesia per obstetric plan."
  | II =>
      Text.mkMeaning
        "Small increase in maternal mortality or moderate morbidity."
        "Slight increase in preterm/low-birth-weight/perinatal complications."
        "Shared care with cardiology; define follow-up plan."
        "Vaginal birth preferred; consider assisted second stage if hemodynamics warrant."
  | II_III =>
      Text.mkMeaning
        "Intermediate risk between II and III; morbidity depends on lesion severity."
        "Moderate increase in fetal complications depending on condition."
        "Shared care with a Pregnancy Heart Team; deliver where cardiology and anesthesia are on site."
        "Vaginal birth usually preferred; individualized plan; early anesthesia review."
  | III =>
      Text.mkMeaning
        "Significant increase in maternal mortality or severe morbidity."
        "High increase in fetal complications (preterm, growth, NICU)."
        "Care led by a Pregnancy Heart Team at an expert center; close surveillance; multidisciplinary plan."
        "Vaginal birth often preferred with assisted second stage; cesarean for specific cardiac/obstetric indications."
  | IV =>
      Text.mkMeaning
        "Extremely high risk; pregnancy is not recommended (contraindicated)."
        "Very high fetal/neonatal risk given maternal instability/therapy limits."
        "If pregnant and continuing, manage in an expert center with intensive surveillance."
        "Mode individualized by expert team; cesarean may be preferred in select scenarios (e.g., severe PH)."
  end.

(** [const summary = useMemo(() => { ... }, [group, computed])]:
<<
    const mh = computed.mwho ? `mWHO ${computed.mwho}` : "–";
    const s = computed.mwho ? meaningByMWHO[computed.mwho] : undefined;
    const flags = computed.notes.length ? `\nFlags: ${computed.notes.join("; ")}` : "";
    return `Group: ${group ?? "–"}\nResult: ${mh}\nMaternal risk: ${s?.maternal ?? ""}\n...`.trim();
>>
    [template] is the template literal, [summary] its [trim()]. *)
Definition template (group : option Group) (computed : Result) : string :=
  let mh := match mwho computed with
            | Some c => "mWHO " +:+ Text.of_MWHO c
            | None => "–"
            end in
  let s := match mwho computed with
           | Some c => Some (meaningByMWHO c)
           | None => None
           end in
  let flags := if negb (length (notes computed) =? 0)%nat
               then Text.nl +:+ "Flags: " +:+ Text.join "; " (notes computed)
               else "" in
  "Group: " +:+ from_option Text.of_Group "–" group +:+ Text.nl
  +:+ "Result: " +:+ mh +:+ Text.nl
  +:+ "Maternal risk: " +:+ from_option Text.maternal "" s +:+ Text.nl
  +:+ "Fetal risk: " +:+ from_option Text.fetal "" s +:+ Text.nl
  +:+ "Care level: " +:+ from_option Text.care "" s +:+ Text.nl
  +:+ "Delivery guidance: " +:+ from_option Text.delivery "" s +:+ flags.

Definition summary (group : option Group) (computed : Result) : string :=
  Text.trim (template group computed).

End Summary1.

Module Summary2.

(** [meaningByMWHO] of the second draft. *)
Definition meaningByMWHO (c : MWHO) : Text.Meaning :=
  match c with
  | I =>
      Text.mkMeaning
        "No detectable ↑ mortality; no/mild ↑ morbidity vs general population."
        "Baseline obstetric/fetal risk."
        "Routine antenatal care; cardiology as needed."
        "Vaginal birth usually appropriate; neuraxial anesthesia as per obstetric plan."
  | II =>
      Text.mkMeaning
        "Small ↑ maternal mortality or moderate ↑ morbidity."
        "Slight ↑ preterm/low‑birth‑weight/perinatal complications."
        "Shared care with cardiology; define follow‑up plan."
        "Vaginal birth preferred; consider assisted 2nd stage if hemodynamics warrant."
  | II_III =>
      Text.mkMeaning
        "Intermediate between II and III; morbidity can be important depending on lesion severity."
        "Moderate ↑ fetal complications (preterm, growth restriction) depending on condition."
        "Shared care with a Pregnancy Heart Team; deliver in hospital with cardiology & anesthesia on site."
        "Vaginal birth usually preferred; individualized plan; early anesthesia review."
  | III =>
      Text.mkMeaning
        "Significantly ↑ maternal mortality or severe morbidity."
        "High ↑ fetal complications (preterm, growth, neonatal ICU)."
        "Care led by a Pregnancy Heart Team at an expert centre; close surveillance; multidisciplinary birth plan."
        "Vaginal birth often preferred with assisted 2nd stage; Caesarean for specific cardiac/obstetric indications."
  | IV =>
      Text.mkMeaning
        "Extremely high risk; pregnancy is not recommended (contraindicated)."
        "Very high fetal/neonatal risk given maternal instability/therapy constraints."
        "Pre‑pregnancy counselling to avoid pregnancy. If pregnant and continuing, manage in expert centre."
        "Mode individualized by expert team; Caesarean may be preferred in select scenarios (e.g., severe PH)."
  end.

(** [const summary = useMemo(() => { ... }, [group, computed])]: the four
    guidance texts are read one by one, and the template literal has line
    breaks where the first draft writes [\n]. *)
Definition template (group : option Group) (computed : Result) : string :=
  let mh := match mwho computed with
            | Some c => "mWHO " +:+ Text.of_MWHO c
            | None => "–"
            end in
  let care := match mwho computed with
              | Some c => Text.care (meaningByMWHO c)
              | None => ""
              end in
  let del := match mwho computed with
             | Some c => Text.delivery (meaningByMWHO c)
             | None => ""
             end in
  let maternal := match mwho computed with
                  | Some c => Text.maternal (meaningByMWHO c)
                  | None => ""
                  end in
  let fetal := match mwho computed with
               | Some c => Text.fetal (meaningByMWHO c)
               | None => ""
               end in
  let flags := if negb (length (notes computed) =? 0)%nat
               then Text.nl +:+ "Flags: " +:+ Text.join "; " (notes computed)
               else "" in
  "Group: " +:+ from_option Text.of_Group "–" group +:+ Text.nl
  +:+ "Result: " +:+ mh +:+ Text.nl
  +:+ "Maternal risk: " +:+ maternal +:+ Text.nl
  +:+ "Fetal risk: " +:+ fetal +:+ Text.nl
  +:+ "Care level: " +:+ care +:+ Text.nl
  +:+ "Delivery guidance: " +:+ del +:+ flags.

Definition summary (group : option Group) (computed : Result) : string :=
  Text.trim (template group computed).

End Summary2.

(** The summary a session shows in a state. *)
Definition summary1 (s : AppState) : string :=
  Summary1.summary (group s) (Draft1.computed s).

Definition summary2 (s : AppState) : string :=
  Summary2.summary (group s) (Draft2.computed s).

(** The summary when there is no class and no note: the last line ends
    after the colon. *)
Definition blank_summary (group : option Group) : string :=
  "Group: " +:+ from_option Text.of_Group "–" group +:+ Text.nl
  +:+ "Result: –" +:+ Text.nl
  +:+ "Maternal risk: " +:+ Text.nl
  +:+ "Fetal risk: " +:+ Text.nl
  +:+ "Care level: " +:+ Text.nl
  +:+ "Delivery guidance:".

(** The notes a rule function can return. *)
Fixpoint tree_notes (t : Rules.Tree) : list string :=
  match t with
  | Rules.Return r => notes r
  | Rules.Branch _ yes no => (tree_notes yes ++ tree_notes no)%list
  end.

Definition possible_notes (d : Draft) (g : Group) : list string :=
  match g with
  | VentricularPH => tree_notes Rules.ventricular
  | _ => map snd (Rules.note_rules d g)
  end.

(** The first two lines of a summary, before the text [rest]. *)
Definition first_lines (group : option Group) (m : MWHO_or_null) (rest : string) : string :=
  "Group: " +:+ from_option Text.of_Group "–" group +:+ Text.nl
  +:+ "Result: "
  +:+ match m with Some c => "mWHO " +:+ Text.of_MWHO c | None => "–" end
  +:+ Text.nl +:+ rest.
(** * Properties *)

Arguments answer_is : simpl never.
Arguments falsy : simpl never.

(** ** The severity reducer *)

(** The domain of the reducer has exactly the six elements named in the
    specification. *)
Lemma MWHO_or_null_domain (a : MWHO_or_null) :
  a ∈ [None; Some I; Some II; Some II_III; Some III; Some IV].
Proof. destruct a as [[]|]; set_solver. Qed.

Lemma positions : map position [I; II; II_III; III; IV] = [0; 1; 2; 3; 4].
Proof. reflexivity. Qed.

Ltac by_cases_on_classes :=
  repeat match goal with
         | x : MWHO_or_null |- _ => destruct x as [[]|]
         | x : MWHO |- _ => destruct x
         end.

Lemma highestClass_draft2 a b : Draft2.highestClass a b = Draft1.highestClass a b.
Proof. reflexivity. Qed.

Lemma highestClass_draft3 a b : Draft3.highestClass a b = Draft1.highestClass a b.
Proof. by_cases_on_classes; reflexivity. Qed.

Lemma highestClass_Some_r m c : is_Some (Draft1.highestClass m (Some c)).
Proof. by_cases_on_classes; eexists; reflexivity. Qed.

Lemma highestClass_upper_bound (m : MWHO_or_null) (c x : MWHO) :
  Draft1.highestClass m (Some c) = Some x ->
  position c <= position x /\ (forall y, m = Some y -> position y <= position x).
Proof.
  intros H; split; [|intros y ->];
    by_cases_on_classes; vm_compute in H; try discriminate; vm_compute; discriminate.
Qed.

(** C1: [highestClass] is commutative and associative, has [null] as its
    identity, and on two classes returns the one of the two that stands
    later in the order [I, II, II–III, III, IV]; this holds for the reducer
    of each of the three drafts. *)
Theorem highestClass_laws :
  severity_reducer_laws Draft1.highestClass /\
  severity_reducer_laws Draft2.highestClass /\
  severity_reducer_laws Draft3.highestClass.
Proof.
  repeat split; intros; by_cases_on_classes;
    try reflexivity;
    match goal with
    | |- exists z, ?f (Some ?x) (Some ?y) = _ /\ _ =>
        let r := eval vm_compute in (f (Some x) (Some y)) in
        match r with
        | Some ?z => exists z; vm_compute; intuition congruence
        end
    end.
Qed.

(** ** Folding the candidates of a rule function *)

Lemma reduce_cons {A B} (f : B -> A -> B) x l init :
  reduce f (x :: l) init = reduce f l (f init x).
Proof. reflexivity. Qed.

(** Folding a list of classes with [highestClass] gives a class at least
    as late as the start value and as every element. *)
Lemma reduce_highest_upper_bound (l : list MWHO_or_null) :
  forall (init : MWHO_or_null) (c : MWHO),
    init = Some c \/ Some c ∈ l ->
    exists x, reduce Draft1.highestClass l init = Some x /\ position c <= position x.
Proof.
  induction l as [|p l IH]; intros init c Hc.
  - destruct Hc as [-> | Hc]; [|set_solver]. exists c. split; [reflexivity | lia].
  - rewrite reduce_cons.
    destruct Hc as [-> | Hc].
    + destruct p as [y|].
      * destruct (highestClass_Some_r (Some c) y) as [z Hz].
        destruct (IH (Draft1.highestClass (Some c) (Some y)) z) as (x & Hx & Hle);
          [left; exact Hz|].
        exists x. split; [exact Hx|].
        apply highestClass_upper_bound in Hz as [_ Hz]. specialize (Hz c eq_refl). lia.
      * apply IH. left. reflexivity.
    + apply elem_of_cons in Hc as [<- | Hc].
      * destruct (highestClass_Some_r init c) as [z Hz].
        destruct (IH (Draft1.highestClass init (Some c)) z) as (x & Hx & Hle);
          [left; exact Hz|].
        exists x. split; [exact Hx|].
        apply highestClass_upper_bound in Hz as [Hz _]. lia.
      * apply IH. right. exact Hc.
Qed.

(** The fold returns the start value or one of the elements. *)
Lemma reduce_highest_attained (l : list MWHO_or_null) :
  forall init, let r := reduce Draft1.highestClass l init in r = init \/ r ∈ l.
Proof.
  induction l as [|p l IH]; intros init; cbn zeta.
  - left. reflexivity.
  - rewrite reduce_cons.
    destruct (IH (Draft1.highestClass init p)) as [H | H]; cbn zeta in H.
    + rewrite H.
      assert (Draft1.highestClass init p = init \/ Draft1.highestClass init p = p) as [-> | ->]
        by (by_cases_on_classes; vm_compute; auto).
      * left; reflexivity.
      * right; set_solver.
    + right. set_solver.
Qed.

Ltac case_answers :=
  repeat match goal with
         | |- context [answer_is ?a ?k ?v] => destruct (answer_is a k v)
         end.

(** Every candidate pushed by [computeCardiomyopathy] is a class. *)
Lemma picksCardiomyopathy_classes (a : Answers) :
  Forall is_Some (Draft1.picksCardiomyopathy a).
Proof.
  unfold Draft1.picksCardiomyopathy, push.
  case_answers; cbn; repeat constructor; eexists; reflexivity.
Qed.

(** ** Scenarios *)

(** C3: whenever [PAH] is ["yes"], [computeVentricularPH] returns class IV
    with the single note "Pulmonary arterial hypertension", whatever the
    other answers are (so the tests on [LVEF] and the later ones play no
    part); in each of the three drafts. *)
Theorem PAH_short_circuits (a : Answers) :
  a !! "PAH" = Some "yes" ->
  Draft1.computeVentricularPH a = mkResult (Some IV) ["Pulmonary arterial hypertension"] /\
  Draft2.computeVentricularPH a = mkResult (Some IV) ["Pulmonary arterial hypertension"] /\
  Draft3.computeVentricularPH a = mkResult (Some IV) ["Pulmonary arterial hypertension"].
Proof.
  intros H.
  assert (answer_is a "PAH" "yes" = true) as Hg
    by (unfold answer_is; apply bool_decide_eq_true; exact H).
  unfold Draft1.computeVentricularPH, Draft2.computeVentricularPH,
    Draft3.computeVentricularPH.
  rewrite Hg. repeat split.
Qed.

Lemma PAH_short_circuits_witness :
  answers_PAH_and_low_LVEF !! "PAH" = Some "yes" /\
  answers_PAH_and_low_LVEF !! "LVEF" = Some "<30%" /\
  Draft1.computeVentricularPH answers_PAH_and_low_LVEF
    = mkResult (Some IV) ["Pulmonary arterial hypertension"].
Proof.
  split; [reflexivity|]. split; [reflexivity|].
  apply (PAH_short_circuits answers_PAH_and_low_LVEF). reflexivity.
Defined.

(** C4: on [{ HCMgenoPheno: "+/−", DCM_EF: "<30%/NYHAIII-IV" }] the
    candidates of [computeCardiomyopathy] are I and IV and the function
    returns IV, the later of the two; and on every answer set the class it
    returns is one of its candidates ([null] when there is none) and no
    candidate stands later in the order. *)
Theorem cardiomyopathy_highest_wins :
  Draft1.picksCardiomyopathy answers_HCM_and_DCM = [Some I; Some IV] /\
  Draft1.highestClass (Some I) (Some IV) = Some IV /\
  Draft1.computeCardiomyopathy answers_HCM_and_DCM = mkResult (Some IV) [] /\
  (forall a : Answers,
      let picks := Draft1.picksCardiomyopathy a in
      let r := mwho (Draft1.computeCardiomyopathy a) in
      (picks = [] /\ r = None \/ r ∈ picks) /\
      (forall c, Some c ∈ picks -> exists x, r = Some x /\ position c <= position x)).
Proof.
  split; [reflexivity|]. split; [reflexivity|]. split; [reflexivity|].
  intros a picks r. subst picks r.
  unfold Draft1.computeCardiomyopathy; cbn [mwho]. split.
  - destruct (reduce_highest_attained (Draft1.picksCardiomyopathy a) None) as [H | H];
      cbn zeta in H.
    + destruct (Draft1.picksCardiomyopathy a) as [|p l] eqn:E.
      * left. split; reflexivity.
      * right.
        assert (None ∉ Draft1.picksCardiomyopathy a) as Hn.
        { intros Hin. pose proof (picksCardiomyopathy_classes a) as Hall.
          rewrite Forall_forall in Hall. destruct (Hall None Hin) as [? [=]]. }
        exfalso. rewrite E in Hn. rewrite reduce_cons in H.
        destruct p as [c|]; [|apply Hn; set_solver].
        destruct (reduce_highest_upper_bound l (Draft1.highestClass None (Some c)) c)
          as (x & Hx & _); [left; reflexivity|].
        congruence.
    + right. exact H.
  - intros c Hc. apply reduce_highest_upper_bound. right. exact Hc.
Qed.

(** C5: on [{ MVP_present: "yes", MR_sev: "moderate" }] [computeValvular]
    returns class II–III with no note.  Of its eleven guards only the one on
    moderate regurgitation holds; the MVP guard does not, because [MR_sev]
    is neither "none/trace" nor "mild". *)
Theorem valvular_MVP_with_moderate_MR :
  let a := answers_MVP_moderate_MR in
  Draft1.computeValvular a = mkResult (Some II_III) [] /\
  (answer_is a "MR_sev" "moderate" || answer_is a "AR_sev" "moderate") = true /\
  answer_is a "MVP_present" "yes" = true /\
  (answer_is a "MR_sev" "none/trace" || answer_is a "MR_sev" "mild") = false /\
  Draft1.guards Valvular a
    = [false; false; false; false; false; false; false; true; false; false; false].
Proof. cbn zeta. repeat split; reflexivity. Qed.

(** C8: the Valvular functions of the drafts are not the same function.
    With [MVP_present] "yes" and [MR_sev] unanswered or "unknown", the
    second draft returns the note "MVP present but MR severity unknown —
    cannot assume class I", while the first and the third return no note. *)
Theorem valvular_drafts_differ :
  Draft1.computeValvular answers_MVP_only = mkResult None [] /\
  Draft2.computeValvular answers_MVP_only
    = mkResult None ["MVP present but MR severity unknown — cannot assume class I"] /\
  Draft3.computeValvular answers_MVP_only = mkResult None [] /\
  Draft1.computeValvular answers_MVP_unknown_MR = mkResult None [] /\
  Draft2.computeValvular answers_MVP_unknown_MR
    = mkResult None ["MVP present but MR severity unknown — cannot assume class I"] /\
  Draft3.computeValvular answers_MVP_unknown_MR = mkResult None [] /\
  ~ (forall a, Draft1.computeValvular a = Draft2.computeValvular a) /\
  ~ (forall a, Draft2.computeValvular a = Draft3.computeValvular a).
Proof.
  repeat split; try reflexivity.
  - intros H. specialize (H answers_MVP_only). vm_compute in H. discriminate.
  - intros H. specialize (H answers_MVP_only). vm_compute in H. discriminate.
Qed.

(** ** Properties of all answer sets *)

(** C9: [computeVentricularPH] never returns class I or class II: its
    class is [null], II–III, III or IV; in each of the three drafts. *)
Theorem ventricular_never_below_II_III (a : Answers) :
  not_below_II_III (Draft1.computeVentricularPH a) /\
  not_below_II_III (Draft2.computeVentricularPH a) /\
  not_below_II_III (Draft3.computeVentricularPH a).
Proof.
  unfold not_below_II_III, ventricular_range,
    Draft1.computeVentricularPH, Draft2.computeVentricularPH,
    Draft3.computeVentricularPH.
  case_answers; cbn [orb mwho]; repeat split; try discriminate; set_solver.
Qed.

(** C10: [computeCardiomyopathy], [computeCongenital], [computeArrhythmia]
    and [computeCoronaryOther] return an empty list of notes on every
    answer set, in each draft; [computeVentricularPH], [computeValvular]
    and [computeAortopathy] return a note on some answer set. *)
Theorem notes_only_from_three_groups :
  (no_notes Draft1.computeCardiomyopathy /\ no_notes Draft1.computeCongenital /\
   no_notes Draft1.computeArrhythmia /\ no_notes Draft1.computeCoronaryOther) /\
  (no_notes Draft2.computeCardiomyopathy /\ no_notes Draft2.computeCongenital /\
   no_notes Draft2.computeArrhythmia /\ no_notes Draft2.computeCoronaryOther) /\
  (no_notes Draft3.computeCardiomyopathy /\ no_notes Draft3.computeCongenital /\
   no_notes Draft3.computeArrhythmia /\ no_notes Draft3.computeCoronaryOther) /\
  (may_note Draft1.computeVentricularPH /\ may_note Draft1.computeValvular /\
   may_note Draft1.computeAortopathy) /\
  (may_note Draft2.computeVentricularPH /\ may_note Draft2.computeValvular /\
   may_note Draft2.computeAortopathy) /\
  (may_note Draft3.computeVentricularPH /\ may_note Draft3.computeValvular /\
   may_note Draft3.computeAortopathy).
Proof.
  repeat split; try (intros a; reflexivity).
  all: first
    [ exists (<["PAH" := "yes"]> ∅); vm_compute; discriminate
    | exists (<["MechanicalValve" := "well-controlled"]> ∅); vm_compute; discriminate
    | exists (<["MarfanGt45" := "yes"]> ∅); vm_compute; discriminate ].
Qed.

(** ** The session state *)

(** C7, as the specification states it, fails in the second and the third
    draft: open the Valvular group, answer [MS], then press the Congenital
    button; the answer is still there. *)
Lemma select_group_keeps_answers :
  run Draft2.step events_valvular_answered = state_valvular_answered /\
  answers (Draft2.step state_valvular_answered (ClickGroup Congenital)) <> ∅ /\
  run Draft3.step events_valvular_answered = state_valvular_answered /\
  answers (Draft3.step state_valvular_answered (ClickGroup Congenital)) <> ∅.
Proof.
  repeat split; intros H; apply (f_equal (fun m : Answers => m !! "MS")) in H;
    vm_compute in H; discriminate.
Qed.

(** C7, amended: pressing a group button in the first draft selects the
    group and empties the answer set, whatever the state was; in the second
    and the third draft it selects the group and leaves the answer set as it
    was.  In the three drafts the Reset button empties the answer set. *)
Theorem select_group_effect (s : AppState) (g : Group) :
  Draft1.step s (ClickGroup g) = mkApp (Some g) ∅ /\
  Draft2.step s (ClickGroup g) = mkApp (Some g) (answers s) /\
  Draft3.step s (ClickGroup g) = mkApp (Some g) (answers s) /\
  Draft1.step s ClickReset = mkApp None ∅ /\
  Draft2.step s ClickReset = mkApp None ∅ /\
  Draft3.step s ClickReset = mkApp None ∅.
Proof. repeat split. Qed.

(** ** Unmatched answer sets *)

Ltac split_guards :=
  repeat match goal with
         | H : any_true _ = false |- _ => unfold any_true in H; cbn [existsb id] in H
         | H : (_ || _) = false |- _ =>
             apply orb_false_elim in H; destruct H
         | H : (_ && _) = false |- _ =>
             apply andb_false_iff in H; destruct H
         | H : negb _ = false |- _ => apply negb_false_iff in H
         | H : false = false |- _ => clear H
         end.

(** Unfold the rule functions and keep their [let]s. *)
Ltac unfold_rule_functions :=
  lazy delta
    [Draft1.computeVentricularPH Draft1.computeCardiomyopathy
     Draft1.picksCardiomyopathy Draft1.computeValvular Draft1.computeCongenital
     Draft1.computeAortopathy Draft1.computeArrhythmia Draft1.computeCoronaryOther
     Draft2.computeVentricularPH Draft2.computeCardiomyopathy
     Draft2.picksCardiomyopathy Draft2.computeValvular Draft2.computeCongenital
     Draft2.computeAortopathy Draft2.computeArrhythmia Draft2.computeCoronaryOther
     Draft3.computeVentricularPH Draft3.computeCardiomyopathy
     Draft3.scoresCardiomyopathy Draft3.computeValvular Draft3.computeCongenital
     Draft3.computeAortopathy Draft3.computeArrhythmia Draft3.computeCoronaryOther];
  lazy beta.

Ltac unfold_rule_functions_in H :=
  lazy delta
    [Draft1.computeVentricularPH Draft1.computeCardiomyopathy
     Draft1.picksCardiomyopathy Draft1.computeValvular Draft1.computeCongenital
     Draft1.computeAortopathy Draft1.computeArrhythmia Draft1.computeCoronaryOther
     Draft2.computeVentricularPH Draft2.computeCardiomyopathy
     Draft2.picksCardiomyopathy Draft2.computeValvular Draft2.computeCongenital
     Draft2.computeAortopathy Draft2.computeArrhythmia Draft2.computeCoronaryOther
     Draft3.computeVentricularPH Draft3.computeCardiomyopathy
     Draft3.scoresCardiomyopathy Draft3.computeValvular Draft3.computeCongenital
     Draft3.computeAortopathy Draft3.computeArrhythmia Draft3.computeCoronaryOther] in H;
  lazy beta in H.

Ltac use_guards :=
  repeat match goal with
         | H : (_ || _) = true |- _ => apply orb_true_iff in H; destruct H
         | H : answer_is _ _ _ = _ |- _ => rewrite ?H in *; clear H
         | H : falsy _ _ = _ |- _ => rewrite ?H in *; clear H
         end.

(** C2: a rule function whose guards all fail returns [(null, [])], for
    every group and every answer set, in each draft; so does every rule
    function on the empty answer set, and in particular
    [computeAortopathy].  The functions are total: no step of theirs (a
    property read of an object, [===], [push], [indexOf], [Math.max], an
    array read, [??], [reduce] with a start value) can throw. *)
Theorem no_guard_yields_null :
  (forall (d : Draft) (g : Group) (a : Answers),
      any_true (guards_of d g a) = false ->
      computed_of d (mkApp (Some g) a) = mkResult None []) /\
  (forall (d : Draft) (g : Group),
      computed_of d (mkApp (Some g) ∅) = mkResult None []) /\
  Draft1.computeAortopathy ∅ = mkResult None [].
Proof.
  split; [|split; [intros [] []; reflexivity | reflexivity]].
  intros d g a H.
  destruct d, g; cbn [guards_of Draft1.guards Draft2.guards Draft3.guards] in H;
    split_guards;
    cbn [computed_of Draft1.computed Draft2.computed Draft3.computed group answers];
    unfold_rule_functions; use_guards; try discriminate; case_answers; reflexivity.
Qed.

Lemma no_guard_yields_null_witness :
  any_true (guards_of First Aortopathy answers_unmatched) = false /\
  Draft1.computeAortopathy answers_unmatched = mkResult None [].
Proof.
  split; [reflexivity|].
  apply (proj1 no_guard_yields_null First Aortopathy answers_unmatched).
  reflexivity.
Defined.

(** ** The guards are exactly the conditions under which a result is not [(null, [])] *)

Lemma raise_is_None (b : bool) m c :
  (if b then Draft1.highestClass m (Some c) else m) = None -> b = false /\ m = None.
Proof.
  destruct b; [|auto]. intros H. destruct (highestClass_Some_r m c) as [x Hx]. congruence.
Qed.

Lemma raise_nested_is_None (b1 b2 : bool) m c :
  (if b1 then (if b2 then Draft1.highestClass m (Some c) else m) else m) = None ->
  b1 && b2 = false /\ m = None.
Proof.
  destruct b1; [|auto]. intros H. apply raise_is_None in H. exact H.
Qed.

Lemma push_is_nil {A} (b : bool) (xs : list A) x :
  (if b then push xs x else xs) = [] -> b = false /\ xs = [].
Proof. destruct b; [|auto]. unfold push. destruct xs; discriminate. Qed.

Lemma push_nested_is_nil {A} (b1 b2 b3 : bool) (xs : list A) x :
  (if b1 then (if b2 then xs else if b3 then push xs x else xs) else xs) = [] ->
  b1 && negb b2 && b3 = false /\ xs = [].
Proof.
  destruct b1, b2, b3; cbn [andb negb]; auto.
  unfold push. destruct xs; discriminate.
Qed.

Lemma reduce_ext {A B} (f g : B -> A -> B) (l : list A) :
  (forall x y, f x y = g x y) -> forall init, reduce f l init = reduce g l init.
Proof.
  intros Hfg. induction l as [|x l IH]; intros init; [reflexivity|].
  rewrite !reduce_cons, Hfg. apply IH.
Qed.

Lemma reduce_is_None (f : MWHO_or_null -> MWHO_or_null -> MWHO_or_null)
    (l : list MWHO_or_null) :
  (forall x y, f x y = Draft1.highestClass x y) ->
  Forall is_Some l -> reduce f l None = None -> l = [].
Proof.
  intros Hf Hall H. rewrite (reduce_ext f Draft1.highestClass l Hf) in H.
  destruct l as [|p l]; [reflexivity|]. exfalso.
  apply Forall_cons in Hall as [[c ->] _]. rewrite reduce_cons in H.
  destruct (reduce_highest_upper_bound l (Draft1.highestClass None (Some c)) c)
    as (x & Hx & _); [left; reflexivity|].
  congruence.
Qed.

(** Turn the [let]s at the head of the left-hand side of [H] into local
    definitions. *)
Ltac name_lets H :=
  repeat match type of H with
         | (let x := ?v in @?B x) = ?R =>
             let y := fresh x in
             pose (y := v); change (B y = R) in H; cbv beta in H
         end.

(** From [H : m = None] or [H : notes = []], with [m] and [notes] defined
    by the statements of a rule function, conclude that no statement
    fired. *)
Ltac peel H :=
  repeat match type of H with
         | ?x = _ =>
             is_var x; unfold x in H; clear x;
             change Draft2.highestClass with Draft1.highestClass in H;
             rewrite ?highestClass_draft3 in H
         | _ = None =>
             first [ apply raise_nested_is_None in H | apply raise_is_None in H ];
             let G := fresh "G" in destruct H as [G H]
         | _ = [] =>
             first [ apply push_nested_is_nil in H | apply push_is_nil in H ];
             let G := fresh "G" in destruct H as [G H]
         end.

Ltac conclude_no_guard :=
  repeat match goal with c := _ : bool |- _ => subst c end;
  unfold any_true;
  cbn [guards_of Draft1.guards Draft2.guards Draft3.guards existsb id];
  repeat match goal with G : _ = false |- _ => rewrite ?G; clear G end;
  reflexivity.

(** A rule function returns [(null, [])] only if none of its guards
    holds: with C2, the guards listed for a rule function are exactly the
    conditions under which it returns something else. *)
Lemma null_result_means_no_guard (d : Draft) (g : Group) (a : Answers) :
  computed_of d (mkApp (Some g) a) = mkResult None [] ->
  any_true (guards_of d g a) = false.
Proof.
  intros H.
  destruct g; destruct d;
    cbn [computed_of Draft1.computed Draft2.computed Draft3.computed group answers] in H.
  (* Ventricular/PH/PPCM: by cases on the branches *)
  1-3: revert H; unfold_rule_functions; unfold any_true;
       cbn [guards_of Draft1.guards Draft2.guards Draft3.guards existsb id];
       case_answers; cbn [orb]; intros H; try discriminate H; reflexivity.
  (* Cardiomyopathy: the fold is [null] only on an empty array *)
  1-3: injection H as H;
       (apply reduce_is_None in H;
        [ | intros x y; first [reflexivity | apply highestClass_draft3]
          | apply picksCardiomyopathy_classes ]);
       unfold_rule_functions_in H; name_lets H; peel H; conclude_no_guard.
  (* the other groups: statement by statement, from the last one *)
  all: unfold_rule_functions_in H; name_lets H;
       pose proof (f_equal mwho H) as Hm; pose proof (f_equal notes H) as Hn;
       cbn [mwho notes] in Hm, Hn; clear H;
       peel Hm; peel Hn; conclude_no_guard.
Qed.

(** ** Purity of the rule functions *)

Module StatefulFacts.
Import Stateful.

Arguments Draft1.highestClass : simpl never.
Arguments push : simpl never.

Lemma highestClass_run a h x y :
  highestClass x y (St a h) = (Draft1.highestClass x y, St a h).
Proof. destruct x as [x|], y as [y|]; reflexivity. Qed.

Lemma reduceM_run a h l : forall acc,
  reduceM (fun acc cur => highestClass acc cur) l acc (St a h)
  = (reduce (fun acc cur => Draft1.highestClass acc cur) l acc, St a h).
Proof.
  induction l as [|cur l IH]; intros acc; [reflexivity|].
  cbn [reduceM]. unfold bind. rewrite highestClass_run. apply IH.
Qed.

Lemma alter_last (f : Cell -> Cell) (h : list Cell) (c : Cell) :
  alter f (length h) (h ++ [c])%list = (h ++ [f c])%list.
Proof.
  replace (length h) with (length h + 0)%nat by lia.
  rewrite alter_app_r. reflexivity.
Qed.

Lemma lookup_last (h : list Cell) (c : Cell) : (h ++ [c])%list !! length h = Some c.
Proof. rewrite lookup_app_r by lia. rewrite Nat.sub_diag. reflexivity. Qed.

Lemma push_string_run a h xs s :
  push_string (length h) s (St a (h ++ [StringArray xs]))
  = (tt, St a (h ++ [StringArray (push xs s)])).
Proof. unfold push_string. cbn [st_answers st_ORDER st_heap]. rewrite alter_last. reflexivity. Qed.

Lemma push_class_run a h xs x :
  push_class (length h) x (St a (h ++ [ClassArray xs]))
  = (tt, St a (h ++ [ClassArray (push xs x)])).
Proof. unfold push_class. cbn [st_answers st_ORDER st_heap]. rewrite alter_last. reflexivity. Qed.

(** The statements of the rule functions, one lemma per shape. *)

(** [if (a.K === "v") m = highestClass(m, "C");] *)
Lemma raise_run a h k v m c :
  ifM (prop_is k v) (highestClass m (Some c)) (ret m) (St a h)
  = (if answer_is a k v then Draft1.highestClass m (Some c) else m, St a h).
Proof.
  unfold ifM, bind, prop_is. cbn [st_answers].
  destruct (answer_is a k v); [apply highestClass_run | reflexivity].
Qed.

(** [if (a.K1 === "v1" || a.K2 === "v2") m = highestClass(m, "C");] *)
Lemma raise_or_run a h k1 v1 k2 v2 m c :
  ifM (orM (prop_is k1 v1) (prop_is k2 v2)) (highestClass m (Some c)) (ret m) (St a h)
  = (if answer_is a k1 v1 || answer_is a k2 v2
     then Draft1.highestClass m (Some c) else m, St a h).
Proof.
  cbv [ifM orM bind prop_is ret st_answers].
  destruct (answer_is a k1 v1), (answer_is a k2 v2); cbn [orb];
    try apply highestClass_run; reflexivity.
Qed.

(** [if (a.K === "v") { if (a.K1 === "v1" || a.K2 === "v2") m = highestClass(m, "C"); }] *)
Lemma raise_nested_run a h k v k1 v1 k2 v2 m c :
  ifM (prop_is k v)
    (ifM (orM (prop_is k1 v1) (prop_is k2 v2)) (highestClass m (Some c)) (ret m))
    (ret m) (St a h)
  = (if answer_is a k v
     then if answer_is a k1 v1 || answer_is a k2 v2
          then Draft1.highestClass m (Some c) else m
     else m, St a h).
Proof.
  unfold ifM at 1. unfold bind at 1. unfold prop_is at 1. cbn [st_answers].
  destruct (answer_is a k v); [apply raise_or_run | reflexivity].
Qed.

(** [if (a.K === "v") { m = highestClass(m, "C"); notes.push(s); }] *)
Lemma raise_push_run a h xs k v m c s :
  ifM (prop_is k v)
    (bind (highestClass m (Some c)) (fun m' =>
       bind (push_string (length h) s) (fun _ => ret m')))
    (ret m) (St a (h ++ [StringArray xs]))
  = (if answer_is a k v then Draft1.highestClass m (Some c) else m,
     St a (h ++ [StringArray (if answer_is a k v then push xs s else xs)])).
Proof.
  unfold ifM, bind, prop_is. cbn [st_answers].
  destruct (answer_is a k v); [|reflexivity].
  rewrite highestClass_run, push_string_run. reflexivity.
Qed.

(** [if (a.K === "v") { notes.push(s); m = highestClass(m, "C"); }] *)
Lemma push_raise_run a h xs k v m c s :
  ifM (prop_is k v)
    (bind (push_string (length h) s) (fun _ => highestClass m (Some c)))
    (ret m) (St a (h ++ [StringArray xs]))
  = (if answer_is a k v then Draft1.highestClass m (Some c) else m,
     St a (h ++ [StringArray (if answer_is a k v then push xs s else xs)])).
Proof.
  unfold ifM, bind, prop_is. cbn [st_answers].
  destruct (answer_is a k v); [|reflexivity].
  rewrite push_string_run, highestClass_run. reflexivity.
Qed.

(** [if (a.K === "v") picks.push("C");] *)
Lemma pick_run a h xs k v c :
  ifM (prop_is k v) (push_class (length h) c) (ret tt) (St a (h ++ [ClassArray xs]))
  = (tt, St a (h ++ [ClassArray (if answer_is a k v then push xs c else xs)])).
Proof.
  unfold ifM, bind, prop_is. cbn [st_answers].
  destruct (answer_is a k v); [apply push_class_run | reflexivity].
Qed.

(** Run the next statement and name the values it computes, so that the
    goal keeps its size. *)
Ltac run_statement :=
  unfold bind at 1;
  first
    [ rewrite raise_run | rewrite raise_or_run | rewrite raise_nested_run
    | rewrite raise_push_run | rewrite push_raise_run | rewrite pick_run ];
  repeat match goal with
         | |- context [if ?b then ?x else ?y] => set (if b then x else y)
         end.

Ltac allocate :=
  unfold bind at 1, new_array; cbn [st_answers st_ORDER st_heap].

Lemma ifM_prop_run {A} a h k v (t e : M A) :
  ifM (prop_is k v) t e (St a h)
  = if answer_is a k v then t (St a h) else e (St a h).
Proof.
  cbv [ifM bind prop_is st_answers]. destruct (answer_is a k v); reflexivity.
Qed.

Lemma ifM_or_run {A} a h k1 v1 k2 v2 (t e : M A) :
  ifM (orM (prop_is k1 v1) (prop_is k2 v2)) t e (St a h)
  = if answer_is a k1 v1 || answer_is a k2 v2 then t (St a h) else e (St a h).
Proof.
  cbv [ifM orM bind prop_is ret st_answers].
  destruct (answer_is a k1 v1), (answer_is a k2 v2); reflexivity.
Qed.

(** Each rule function, run in a store with the module's [ORDER], returns
    the class of its functional counterpart and the address of a new array
    that holds the notes; it changes nothing else. *)

Lemma computeVentricularPH_run a h :
  computeVentricularPH (St a h)
  = (mkRef (mwho (Draft1.computeVentricularPH a)) (length h),
     St a (h ++ [StringArray (notes (Draft1.computeVentricularPH a))])).
Proof.
  unfold computeVentricularPH, Draft1.computeVentricularPH. allocate.
  repeat first [rewrite ifM_prop_run | rewrite ifM_or_run].
  repeat match goal with
         | |- context [if answer_is a ?k ?v || _ then _ else _] =>
             destruct (answer_is a k v); cbn [orb]
         | |- context [if answer_is a ?k ?v then _ else _] =>
             destruct (answer_is a k v)
         end;
    unfold bind; rewrite ?push_string_run; reflexivity.
Qed.

Lemma computeCardiomyopathy_run a h :
  computeCardiomyopathy (St a h)
  = (mkRef (mwho (Draft1.computeCardiomyopathy a)) (S (length h)),
     St a (h ++ [ClassArray (Draft1.picksCardiomyopathy a);
                 StringArray (notes (Draft1.computeCardiomyopathy a))])).
Proof.
  unfold computeCardiomyopathy. allocate.
  do 8 run_statement.
  unfold bind at 1, read_classes. cbn [st_heap]. rewrite lookup_last.
  unfold bind at 1. rewrite reduceM_run.
  allocate. rewrite length_app, <- app_assoc. cbn [length app].
  replace (length h + 1)%nat with (S (length h)) by lia.
  reflexivity.
Qed.

Lemma computeValvular_run a h :
  computeValvular (St a h)
  = (mkRef (mwho (Draft1.computeValvular a)) (length h),
     St a (h ++ [StringArray (notes (Draft1.computeValvular a))])).
Proof. unfold computeValvular. allocate. do 11 run_statement. reflexivity. Qed.

Lemma computeCongenital_run a h :
  computeCongenital (St a h)
  = (mkRef (mwho (Draft1.computeCongenital a)) (length h),
     St a (h ++ [StringArray (notes (Draft1.computeCongenital a))])).
Proof. unfold computeCongenital. do 13 run_statement. allocate. reflexivity. Qed.

Lemma computeAortopathy_run a h :
  computeAortopathy (St a h)
  = (mkRef (mwho (Draft1.computeAortopathy a)) (length h),
     St a (h ++ [StringArray (notes (Draft1.computeAortopathy a))])).
Proof. unfold computeAortopathy. allocate. do 12 run_statement. reflexivity. Qed.

Lemma computeArrhythmia_run a h :
  computeArrhythmia (St a h)
  = (mkRef (mwho (Draft1.computeArrhythmia a)) (length h),
     St a (h ++ [StringArray (notes (Draft1.computeArrhythmia a))])).
Proof. unfold computeArrhythmia. do 5 run_statement. allocate. reflexivity. Qed.

Lemma computeCoronaryOther_run a h :
  computeCoronaryOther (St a h)
  = (mkRef (mwho (Draft1.computeCoronaryOther a)) (length h),
     St a (h ++ [StringArray (notes (Draft1.computeCoronaryOther a))])).
Proof. unfold computeCoronaryOther. do 4 run_statement. allocate. reflexivity. Qed.

(** The same for the rule function of any group: the store after the call
    is the store before it with new arrays at the end, one of which holds
    the notes. *)
Lemma rule_run (g : Group) a h :
  exists r new,
    rule g (St a h) = (r, St a (h ++ new)) /\
    deref (St a (h ++ new)) r = Draft1.computed (mkApp (Some g) a) /\
    (length h <= r_notes r < length (h ++ new))%nat.
Proof.
  destruct g; cbn [rule Draft1.computed group answers];
    eexists; eexists;
    (split;
     [ first [ apply computeVentricularPH_run | apply computeCardiomyopathy_run
             | apply computeValvular_run | apply computeCongenital_run
             | apply computeAortopathy_run | apply computeArrhythmia_run
             | apply computeCoronaryOther_run ]
     | ]);
    unfold deref; cbn [r_mwho r_notes st_heap]; rewrite length_app; cbn [length];
    (split; [|lia]).
  all: try (rewrite lookup_last;
            match goal with |- context [mwho ?r] => destruct r end; reflexivity).
  rewrite lookup_app_r by lia.
  replace (S (length h) - length h)%nat with 1%nat by lia. reflexivity.
Qed.

End StatefulFacts.

(** C6: the rule functions are deterministic and pure.  Run twice in a
    row in any store whose [ORDER] is the module's constant, the rule
    function of any group returns the same class and the same notes both
    times, namely those of its functional counterpart on the answer
    object; neither call changes the answer object, [ORDER] or any array
    that existed before it (each only adds arrays of its own), and the
    second call leaves the result of the first as it was. *)
Theorem rule_functions_deterministic_and_pure (g : Group) (σ : Stateful.Store) :
  Stateful.st_ORDER σ = Draft1.ORDER ->
  let (r1, σ1) := Stateful.rule g σ in
  let (r2, σ2) := Stateful.rule g σ1 in
  Stateful.deref σ2 r2 = Stateful.deref σ1 r1 /\
  Stateful.deref σ1 r1 = Draft1.computed (mkApp (Some g) (Stateful.st_answers σ)) /\
  Stateful.deref σ2 r1 = Stateful.deref σ1 r1 /\
  Stateful.preserves σ σ1 /\
  Stateful.preserves σ1 σ2.
Proof.
  destruct σ as [a o h]. cbn [Stateful.st_ORDER Stateful.st_answers]. intros ->.
  destruct (StatefulFacts.rule_run g a h) as (r1 & new1 & E1 & D1 & L1).
  rewrite E1.
  destruct (StatefulFacts.rule_run g a (h ++ new1)) as (r2 & new2 & E2 & D2 & L2).
  rewrite E2.
  split; [congruence|]. split; [exact D1|]. split.
  - unfold Stateful.deref. cbn [Stateful.st_heap].
    rewrite (lookup_app_l (h ++ new1)) by lia. reflexivity.
  - split; (split; [reflexivity|]; split; [reflexivity|]);
      cbn [Stateful.st_heap]; apply prefix_app_r; reflexivity.
Qed.

Lemma rule_functions_deterministic_and_pure_witness :
  Stateful.st_ORDER Stateful.store_example = Draft1.ORDER /\
  let (r1, σ1) := Stateful.rule Valvular Stateful.store_example in
  let (r2, σ2) := Stateful.rule Valvular σ1 in
  Stateful.deref σ2 r2 = Stateful.deref σ1 r1 /\
  Stateful.deref σ1 r1
    = Draft1.computed (mkApp (Some Valvular) (Stateful.st_answers Stateful.store_example)) /\
  Stateful.deref σ2 r1 = Stateful.deref σ1 r1 /\
  Stateful.preserves Stateful.store_example σ1 /\
  Stateful.preserves σ1 σ2.
Proof.
  split; [reflexivity|].
  apply (rule_functions_deterministic_and_pure Valvular Stateful.store_example).
  reflexivity.
Defined.

(** The run of the example: two notes, in a new array each time. *)
Example store_example_run :
  let (r1, σ1) := Stateful.rule Valvular Stateful.store_example in
  let (r2, σ2) := Stateful.rule Valvular σ1 in
  Stateful.deref σ1 r1
    = mkResult (Some III)
        ["Moderate/severe PS — confirm gradients and RV pressure";
         "Mechanical valve on stable anticoagulation"] /\
  Stateful.r_notes r1 = 1%nat /\ Stateful.r_notes r2 = 2%nat /\
  length (Stateful.st_heap σ2) = 3%nat.
Proof. vm_compute. repeat split. Qed.
(** * More of the component *)

(** ** The rule functions read as tables *)

(** Unfold the reading of a table down to its list of evaluated
    statements. *)
Ltac unfold_read :=
  unfold Rules.read, Rules.classify, Rules.flag;
  cbn [Rules.fired Rules.class_rules Rules.note_rules map fst snd Rules.holds].

(** Each rule function returns what the reading of its table returns.  In
    most cases the two sides are the same term once unfolded; the array of
    candidates of [computeCardiomyopathy] and the nested test on MVP of
    [computeValvular] need a case analysis. *)
Lemma read_correct (d : Draft) (g : Group) (a : Answers) :
  computed_of d (mkApp (Some g) a) = Rules.read d g a.
Proof.
  destruct d, g;
    cbn [computed_of Draft1.computed Draft2.computed Draft3.computed group answers].
  all: lazymatch goal with
       | |- ?f _ = Rules.read _ Cardiomyopathy _ =>
           unfold_read; unfold_rule_functions; case_answers; reflexivity
       | |- Draft1.computeValvular _ = _ =>
           unfold_read; unfold_rule_functions;
           destruct (answer_is a "MVP_present" "yes"); reflexivity
       | |- Draft2.computeValvular _ = _ =>
           unfold_read; unfold_rule_functions;
           destruct (answer_is a "MVP_present" "yes"),
             (answer_is a "MR_sev" "none/trace"), (answer_is a "MR_sev" "mild");
           reflexivity
       | |- _ => reflexivity
       end.
Qed.

(** *** Conditions *)

(** A condition reads only its keys. *)
Lemma holds_agree (c : Rules.Cond) (a a' : Answers) :
  (forall k, k ∈ Rules.keys c -> a !! k = a' !! k) ->
  Rules.holds c a = Rules.holds c a'.
Proof.
  induction c as [k v | k | c1 IH1 c2 IH2 | c1 IH1 c2 IH2 | c IH];
    cbn [Rules.keys Rules.holds]; intros H.
  - unfold answer_is. rewrite (H k) by left. reflexivity.
  - unfold falsy. rewrite (H k) by left. reflexivity.
  - rewrite IH1, IH2; [reflexivity | |]; intros k Hk; apply H, elem_of_app; auto.
  - rewrite IH1, IH2; [reflexivity | |]; intros k Hk; apply H, elem_of_app; auto.
  - rewrite IH; [reflexivity|]. exact H.
Qed.

(** A condition made of [===] tests stays true when answers are added. *)
Lemma holds_mono (c : Rules.Cond) (a a' : Answers) :
  Rules.positive c = true -> a ⊆ a' ->
  Rules.holds c a = true -> Rules.holds c a' = true.
Proof.
  intros Hp Hsub.
  induction c as [k v | k | c1 IH1 c2 IH2 | c1 IH1 c2 IH2 | c IH];
    cbn [Rules.positive Rules.holds] in *; try discriminate.
  - unfold answer_is. rewrite !bool_decide_eq_true. intros H.
    eapply lookup_weaken; eassumption.
  - apply andb_true_iff in Hp as [Hp1 Hp2]. rewrite !orb_true_iff.
    intros [H | H]; [left; apply IH1 | right; apply IH2]; assumption.
  - apply andb_true_iff in Hp as [Hp1 Hp2]. rewrite !andb_true_iff.
    intros [H1 H2]. split; [apply IH1 | apply IH2]; assumption.
Qed.

(** *** Running the statements of a table *)

Lemma reducer_is_highestClass (d : Draft) (x y : MWHO_or_null) :
  Rules.reducer d x y = Draft1.highestClass x y.
Proof. destruct d; [reflexivity | reflexivity | apply highestClass_draft3]. Qed.

Lemma fold_left_ext_eq {A B} (f g : A -> B -> A) (l : list B) :
  (forall x y, f x y = g x y) -> forall init, fold_left f l init = fold_left g l init.
Proof.
  intros Hfg. induction l as [|y l IH]; intros init; [reflexivity|].
  cbn [fold_left]. rewrite Hfg. apply IH.
Qed.

Lemma raise_all_reducer (d : Draft) (l : list (bool * MWHO)) :
  Rules.raise_all (Rules.reducer d) l = Rules.raise_all Draft1.highestClass l.
Proof.
  unfold Rules.raise_all. apply fold_left_ext_eq.
  intros m r. rewrite reducer_is_highestClass. reflexivity.
Qed.

Lemma raise_all_kept (l : list (bool * MWHO)) :
  Rules.raise_all Draft1.highestClass l
  = reduce Draft1.highestClass (map Some (Rules.kept l)) None.
Proof.
  unfold Rules.raise_all, reduce. generalize (@None MWHO).
  induction l as [|[b c] l IH]; intros m; [reflexivity|].
  cbn [fold_left Rules.kept fst snd]. destruct b; cbn [map fold_left]; apply IH.
Qed.

Lemma push_all_kept (l : list (bool * string)) : Rules.push_all l = Rules.kept l.
Proof.
  unfold Rules.push_all.
  enough (forall init, fold_left
            (fun notes (r : bool * string) => if fst r then push notes (snd r) else notes)
            l init = (init ++ Rules.kept l)%list) as H by apply (H []).
  induction l as [|[b x] l IH]; intros init; cbn [fold_left Rules.kept fst snd].
  - rewrite app_nil_r. reflexivity.
  - destruct b; rewrite IH; [unfold push; rewrite <- app_assoc|]; reflexivity.
Qed.

Lemma elem_of_kept {A} (l : list (bool * A)) (x : A) :
  x ∈ Rules.kept l <-> (true, x) ∈ l.
Proof.
  induction l as [|[b y] l IH]; cbn [Rules.kept fst snd].
  - split; intros H; inversion H.
  - destruct b; rewrite ?elem_of_cons, IH; intuition congruence.
Qed.

Lemma elem_of_fired {A} (rules : list (Rules.Cond * A)) (a : Answers) (b : bool) (x : A) :
  (b, x) ∈ Rules.fired rules a <-> exists c, (c, x) ∈ rules /\ Rules.holds c a = b.
Proof.
  unfold Rules.fired. rewrite list_elem_of_fmap. split.
  - intros ([c y] & [= -> ->] & Hin). exists c. split; [exact Hin | reflexivity].
  - intros (c & Hin & <-). exists (c, x). split; [reflexivity | exact Hin].
Qed.

(** *** The order of classes *)

Lemma rank_highestClass_ge (m : MWHO_or_null) (c : MWHO) :
  rank m <= rank (Draft1.highestClass m (Some c)) /\
  rank (Some c) <= rank (Draft1.highestClass m (Some c)).
Proof. by_cases_on_classes; vm_compute; split; discriminate. Qed.

Lemma rank_highestClass_mono (m m' : MWHO_or_null) (c : MWHO) :
  rank m <= rank m' ->
  rank (Draft1.highestClass m (Some c)) <= rank (Draft1.highestClass m' (Some c)).
Proof.
  intros H. by_cases_on_classes; vm_compute in H |- *;
    first [discriminate | exfalso; apply H; reflexivity].
Qed.

Lemma rank_inj (m m' : MWHO_or_null) : rank m = rank m' -> m = m'.
Proof. by_cases_on_classes; vm_compute; congruence. Qed.

(** More statements firing never lowers the class. *)
Lemma raise_all_mono (l l' : list (bool * MWHO)) :
  Forall2 (fun r r' : bool * MWHO => snd r = snd r' /\ (fst r = true -> fst r' = true)) l l' ->
  rank (Rules.raise_all Draft1.highestClass l) <= rank (Rules.raise_all Draft1.highestClass l').
Proof.
  unfold Rules.raise_all. intros H.
  enough (forall m m', rank m <= rank m' ->
            rank (fold_left (fun m (r : bool * MWHO) =>
                    if fst r then Draft1.highestClass m (Some (snd r)) else m) l m)
            <= rank (fold_left (fun m (r : bool * MWHO) =>
                    if fst r then Draft1.highestClass m (Some (snd r)) else m) l' m'))
    as Hgen by (apply Hgen; lia).
  induction H as [|[b c] [b' c'] l l' [Hc Hb] _ IH]; intros m m' Hm; [exact Hm|].
  cbn [fold_left fst snd] in *. subst c'. apply IH.
  destruct b, b'.
  - apply rank_highestClass_mono, Hm.
  - discriminate (Hb eq_refl).
  - pose proof (rank_highestClass_ge m' c). lia.
  - exact Hm.
Qed.

Lemma fired_mono {A} (rules : list (Rules.Cond * A)) (a a' : Answers) :
  forallb (fun r : Rules.Cond * A => Rules.positive (fst r)) rules = true ->
  a ⊆ a' ->
  Forall2 (fun r r' : bool * A => snd r = snd r' /\ (fst r = true -> fst r' = true))
    (Rules.fired rules a) (Rules.fired rules a').
Proof.
  intros Hp Hsub. induction rules as [|[c x] rules IH]; cbn [Rules.fired map]; [constructor|].
  cbn [forallb fst] in Hp. apply andb_true_iff in Hp as [Hc Hp].
  constructor; [|apply IH, Hp].
  cbn [fst snd]. split; [reflexivity|]. apply holds_mono; assumption.
Qed.

(** More statements firing never removes a note. *)
Lemma kept_sublist {A} (l l' : list (bool * A)) :
  Forall2 (fun r r' : bool * A => snd r = snd r' /\ (fst r = true -> fst r' = true)) l l' ->
  Rules.kept l `sublist_of` Rules.kept l'.
Proof.
  induction 1 as [|[b x] [b' x'] l l' [Hx Hb] _ IH]; cbn [Rules.kept fst snd] in *;
    [constructor|].
  subst x'. destruct b, b'.
  - apply sublist_skip, IH.
  - discriminate (Hb eq_refl).
  - apply sublist_cons, IH.
  - exact IH.
Qed.

(** In every table the conditions that raise the class are made of [===]
    tests only. *)
Lemma class_rules_positive (d : Draft) (g : Group) :
  forallb (fun r : Rules.Cond * MWHO => Rules.positive (fst r)) (Rules.class_rules d g) = true.
Proof. destruct d, g; reflexivity. Qed.

(** *** What a rule function reads *)

Lemma fired_agree {A} (rules : list (Rules.Cond * A)) (a a' : Answers) :
  (forall c k, c ∈ map fst rules -> k ∈ Rules.keys c -> a !! k = a' !! k) ->
  Rules.fired rules a = Rules.fired rules a'.
Proof.
  intros H. unfold Rules.fired. apply map_ext_in. intros [c x] Hin. cbn [fst snd].
  f_equal. apply holds_agree. intros k Hk. apply (H c k); [|exact Hk].
  apply list_elem_of_fmap. exists (c, x). split; [reflexivity|].
  apply list_elem_of_In, Hin.
Qed.

Lemma run_tree_agree (t : Rules.Tree) (a a' : Answers) :
  (forall c k, c ∈ Rules.tree_conds t -> k ∈ Rules.keys c -> a !! k = a' !! k) ->
  Rules.run_tree t a = Rules.run_tree t a'.
Proof.
  induction t as [r | c yes IHy no IHn]; cbn [Rules.run_tree Rules.tree_conds]; intros H;
    [reflexivity|].
  rewrite (holds_agree c a a') by (intros k Hk; apply (H c k); [left | exact Hk]).
  rewrite IHy, IHn; [reflexivity | |]; intros c' k Hc Hk; apply (H c' k); try exact Hk;
    right; apply elem_of_app; [right | left]; exact Hc.
Qed.

Lemma read_agree (d : Draft) (g : Group) (a a' : Answers) :
  (forall k, k ∈ Rules.keys_read d g -> a !! k = a' !! k) ->
  Rules.read d g a = Rules.read d g a'.
Proof.
  unfold Rules.keys_read. intros H.
  assert (forall c k, c ∈ Rules.conds d g -> k ∈ Rules.keys c -> a !! k = a' !! k) as Hc.
  { intros c k Hin Hk. apply H. apply list_elem_of_In, in_concat. exists (Rules.keys c).
    split; [|apply list_elem_of_In, Hk].
    apply in_map, list_elem_of_In, Hin. }
  clear H.
  destruct g; cbn [Rules.read Rules.conds] in *;
    first
      [ apply run_tree_agree; exact Hc
      | unfold Rules.classify, Rules.flag;
        rewrite (fired_agree (Rules.class_rules d _) a a'),
                (fired_agree (Rules.note_rules d _) a a');
        [ reflexivity
        | intros c k Hin Hk; apply (Hc c k); [apply elem_of_app; right; exact Hin | exact Hk]
        | intros c k Hin Hk; apply (Hc c k); [apply elem_of_app; left; exact Hin | exact Hk] ] ].
Qed.

(** The keys a rule function reads are names of questions of its group, and
    every value it tests is an option of that question. *)
Lemma keys_read_are_questions (d : Draft) (g : Group) :
  forallb (fun k => bool_decide (k ∈ Forms.names d g)) (Rules.keys_read d g) = true.
Proof. destruct d, g; vm_compute; reflexivity. Qed.

(** *** The flat rule functions *)

(** The class of a flat rule function is the fold of the classes of the
    statements whose condition holds; its notes are the notes of those
    statements. *)
Lemma flat_mwho (d : Draft) (g : Group) (a : Answers) :
  flat g ->
  mwho (computed_of d (mkApp (Some g) a))
  = reduce Draft1.highestClass
      (map Some (Rules.kept (Rules.fired (Rules.class_rules d g) a))) None.
Proof.
  intros Hflat. rewrite read_correct.
  destruct g; [contradiction Hflat; reflexivity | ..];
    cbn [Rules.read mwho]; unfold Rules.classify;
    rewrite raise_all_reducer, raise_all_kept; reflexivity.
Qed.

Lemma flat_notes (d : Draft) (g : Group) (a : Answers) :
  flat g ->
  notes (computed_of d (mkApp (Some g) a))
  = Rules.kept (Rules.fired (Rules.note_rules d g) a).
Proof.
  intros Hflat. rewrite read_correct.
  destruct g; [contradiction Hflat; reflexivity | ..];
    cbn [Rules.read notes]; unfold Rules.flag; apply push_all_kept.
Qed.

(** A statement whose condition holds contributes its class. *)
Lemma holding_rule_kept {A} (rules : list (Rules.Cond * A)) (a : Answers) (x : A) :
  x ∈ Rules.kept (Rules.fired rules a)
  <-> exists c, (c, x) ∈ rules /\ Rules.holds c a = true.
Proof. rewrite elem_of_kept. apply elem_of_fired. Qed.

Lemma rank_lower_bound (m : MWHO_or_null) : -1 <= rank m.
Proof. by_cases_on_classes; vm_compute; discriminate. Qed.

(** The fold is an upper bound of the start value and of the elements, in
    rank. *)
Lemma reduce_rank_upper_bound (l : list MWHO_or_null) (init x : MWHO_or_null) :
  x = init \/ x ∈ l -> rank x <= rank (reduce Draft1.highestClass l init).
Proof.
  intros H. destruct x as [c|]; [|apply rank_lower_bound].
  destruct (reduce_highest_upper_bound l init c) as (y & -> & Hle).
  - destruct H as [<- | H]; [left | right]; auto.
  - exact Hle.
Qed.

Lemma flat_upper_bound (d : Draft) (g : Group) (a : Answers) (c : Rules.Cond) (cls : MWHO) :
  flat g -> (c, cls) ∈ Rules.class_rules d g -> Rules.holds c a = true ->
  rank (Some cls) <= rank (mwho (computed_of d (mkApp (Some g) a))).
Proof.
  intros Hflat Hin Hc. rewrite flat_mwho by exact Hflat.
  apply reduce_rank_upper_bound. right.
  apply list_elem_of_fmap. exists cls. split; [reflexivity|].
  apply holding_rule_kept. exists c. split; assumption.
Qed.

Lemma flat_attained (d : Draft) (g : Group) (a : Answers) :
  flat g ->
  let r := mwho (computed_of d (mkApp (Some g) a)) in
  r = None \/
  exists c cls, (c, cls) ∈ Rules.class_rules d g /\ Rules.holds c a = true /\ r = Some cls.
Proof.
  intros Hflat. cbn zeta. rewrite flat_mwho by exact Hflat.
  destruct (reduce_highest_attained
              (map Some (Rules.kept (Rules.fired (Rules.class_rules d g) a))) None)
    as [H | H]; cbn zeta in H; [left; exact H|].
  right. apply list_elem_of_fmap in H as (cls & Hr & Hin).
  apply holding_rule_kept in Hin as (c & Hin & Hc).
  exists c, cls. repeat split; assumption.
Qed.

(** ** The reducer *)

(** X1: in [highestClass] the index [Math.max(indexOf(a), indexOf(b))] of
    two classes is a valid index of the order array, so the array read
    returns a class and the fallback of the first two drafts ([?? a],
    [|| a]) is never used; the third draft, which has no fallback, never
    returns [undefined], and the three versions return the same value on
    all arguments. *)
Theorem highestClass_read_in_range :
  (forall x y : MWHO,
      let i := Z.max (indexOf Draft1.ORDER x) (indexOf Draft1.ORDER y) in
      0 <= i < Z.of_nat (length Draft1.ORDER) /\
      at_index Draft1.ORDER i = Draft1.highestClass (Some x) (Some y) /\
      is_Some (at_index Draft1.ORDER i)) /\
  (forall a b : MWHO_or_null,
      Draft2.highestClass a b = Draft1.highestClass a b /\
      Draft3.highestClass a b = Draft1.highestClass a b).
Proof.
  split.
  - intros x y. cbn zeta. split; [|split].
    + destruct x, y; vm_compute; (split; [discriminate | reflexivity]).
    + destruct x, y; reflexivity.
    + destruct x, y; eexists; reflexivity.
  - intros a b. split; [reflexivity|]. by_cases_on_classes; reflexivity.
Qed.

(** X2: the class obtained by folding an array of candidates with
    [highestClass] does not depend on the order of the candidates, and
    a candidate that occurs twice counts once. *)
Theorem reduce_highestClass_order_irrelevant (l l' : list MWHO_or_null) (init : MWHO_or_null) :
  (forall x, x ∈ l <-> x ∈ l') ->
  reduce (fun acc cur => Draft1.highestClass acc cur) l init
  = reduce (fun acc cur => Draft1.highestClass acc cur) l' init.
Proof.
  intros Hsame.
  change (reduce Draft1.highestClass l init = reduce Draft1.highestClass l' init).
  apply rank_inj, Z.le_antisymm.
  - destruct (reduce_highest_attained l init) as [-> | H]; cbn zeta in *.
    + apply reduce_rank_upper_bound. left. reflexivity.
    + apply reduce_rank_upper_bound. right. apply Hsame, H.
  - destruct (reduce_highest_attained l' init) as [-> | H]; cbn zeta in *.
    + apply reduce_rank_upper_bound. left. reflexivity.
    + apply reduce_rank_upper_bound. right. apply Hsame, H.
Qed.

Lemma reduce_highestClass_order_irrelevant_witness :
  (forall x, x ∈ [Some III; Some I; Some III] <-> x ∈ [Some I; Some III]) /\
  reduce (fun acc cur => Draft1.highestClass acc cur) [Some III; Some I; Some III] None
  = reduce (fun acc cur => Draft1.highestClass acc cur) [Some I; Some III] None.
Proof.
  assert (forall x : MWHO_or_null, x ∈ [Some III; Some I; Some III] <-> x ∈ [Some I; Some III])
    as H by (intros x; rewrite !elem_of_cons; intuition).
  split; [exact H|].
  apply (reduce_highestClass_order_irrelevant _ _ None H).
Defined.

(** ** The flat rule functions *)

(** X3: a flat rule function returns the highest class among its
    statements whose condition holds: no such statement has a class later
    in the order than the class returned, and the class returned is [null]
    or the class of one of them. *)
Theorem flat_functions_highest_wins (d : Draft) (g : Group) (a : Answers) :
  flat g ->
  let r := mwho (computed_of d (mkApp (Some g) a)) in
  (forall c cls, (c, cls) ∈ Rules.class_rules d g -> Rules.holds c a = true ->
                 rank (Some cls) <= rank r) /\
  (r = None \/
   exists c cls, (c, cls) ∈ Rules.class_rules d g /\ Rules.holds c a = true /\ r = Some cls).
Proof.
  intros Hflat. split.
  - intros c cls. apply flat_upper_bound, Hflat.
  - apply flat_attained, Hflat.
Qed.

Lemma flat_functions_highest_wins_witness :
  flat Congenital /\
  let a : Answers := <["Fontan" := "complicated"]> (<["SimpleRepaired" := "yes"]> ∅) in
  let r := mwho (computed_of First (mkApp (Some Congenital) a)) in
  (forall c cls, (c, cls) ∈ Rules.class_rules First Congenital -> Rules.holds c a = true ->
                 rank (Some cls) <= rank r) /\
  (r = None \/
   exists c cls, (c, cls) ∈ Rules.class_rules First Congenital /\
                 Rules.holds c a = true /\ r = Some cls).
Proof.
  split; [discriminate|].
  apply (flat_functions_highest_wins First Congenital). discriminate.
Defined.

(** X4: answering more questions never lowers the class of a flat rule
    function: if every answer of [a] is also in [a'], the class on [a'] is
    the class on [a] or a later one. *)
Theorem flat_functions_monotone (d : Draft) (g : Group) (a a' : Answers) :
  flat g -> a ⊆ a' ->
  rank (mwho (computed_of d (mkApp (Some g) a)))
  <= rank (mwho (computed_of d (mkApp (Some g) a'))).
Proof.
  intros Hflat Hsub. rewrite !read_correct.
  destruct g; [contradiction Hflat; reflexivity | ..];
    cbn [Rules.read mwho]; unfold Rules.classify; rewrite !raise_all_reducer;
    apply raise_all_mono, fired_mono; auto using class_rules_positive.
Qed.

Lemma flat_functions_monotone_witness :
  flat Valvular /\
  (<["MS" := "moderate"]> ∅ : Answers) ⊆ <["AS" := "severe-symptomatic"]> (<["MS" := "moderate"]> ∅) /\
  rank (mwho (computed_of Second (mkApp (Some Valvular) (<["MS" := "moderate"]> ∅))))
  <= rank (mwho (computed_of Second (mkApp (Some Valvular)
                   (<["AS" := "severe-symptomatic"]> (<["MS" := "moderate"]> ∅))))).
Proof.
  assert ((<["MS" := "moderate"]> ∅ : Answers)
          ⊆ <["AS" := "severe-symptomatic"]> (<["MS" := "moderate"]> ∅)) as Hsub
    by (apply insert_subseteq; reflexivity).
  split; [discriminate|]. split; [exact Hsub|].
  apply (flat_functions_monotone Second Valvular _ _); [discriminate | exact Hsub].
Defined.

(** ** The Ventricular/PH/PPCM tree *)

Ltac decide_answers :=
  unfold answer_is;
  repeat match goal with
         | H : ?a !! ?k = Some _ |- context [?a !! ?k] => rewrite H
         end;
  repeat case_bool_decide; simplify_eq; try reflexivity; try tauto.

(** X5: in [computeVentricularPH], when LVEF is ">45%" (and neither PAH
    nor NYHA III/IV sends the call to an earlier branch), a significantly
    impaired right ventricle returns class II–III with no note, whatever
    the answer on PPCM is: the tests on PPCM, one of which returns class
    IV, are not reached. *)
Theorem ventricular_RV_masks_PPCM (d : Draft) (a : Answers) :
  a !! "PAH" <> Some "yes" ->
  a !! "NYHA" <> Some "III/IV" ->
  a !! "LVEF" = Some ">45%" ->
  a !! "RVfunction" = Some "significant" ->
  computed_of d (mkApp (Some VentricularPH) a) = mkResult (Some II_III) [].
Proof.
  intros HP HN HL HR.
  destruct d;
    cbn [computed_of Draft1.computed Draft2.computed Draft3.computed group answers];
    unfold Draft1.computeVentricularPH, Draft2.computeVentricularPH,
      Draft3.computeVentricularPH;
    decide_answers.
Qed.

Lemma ventricular_RV_masks_PPCM_witness :
  let a : Answers :=
    <["LVEF" := ">45%"]> (<["RVfunction" := "significant"]>
      (<["PPCM" := "> mild residual"]> ∅)) in
  a !! "PAH" <> Some "yes" /\ a !! "NYHA" <> Some "III/IV" /\
  a !! "LVEF" = Some ">45%" /\ a !! "RVfunction" = Some "significant" /\
  a !! "PPCM" = Some "> mild residual" /\
  computed_of First (mkApp (Some VentricularPH) a) = mkResult (Some II_III) [].
Proof.
  cbn zeta. split; [discriminate|]. split; [discriminate|].
  split; [reflexivity|]. split; [reflexivity|]. split; [reflexivity|].
  apply (ventricular_RV_masks_PPCM First); [discriminate | discriminate | reflexivity | reflexivity].
Defined.

(** X6: unlike the flat rule functions, [computeVentricularPH] can return
    an earlier class when a question more is answered: with LVEF ">45%"
    and PPCM "> mild residual" it returns IV, and II–III once RVfunction
    "significant" is added. *)
Theorem ventricular_not_monotone (d : Draft) :
  exists a a' : Answers,
    a ⊆ a' /\
    rank (mwho (computed_of d (mkApp (Some VentricularPH) a')))
    < rank (mwho (computed_of d (mkApp (Some VentricularPH) a))).
Proof.
  exists (<["LVEF" := ">45%"]> (<["PPCM" := "> mild residual"]> ∅)),
    (<["RVfunction" := "significant"]>
       (<["LVEF" := ">45%"]> (<["PPCM" := "> mild residual"]> ∅))).
  split; [apply insert_subseteq; reflexivity|].
  destruct d; reflexivity.
Qed.

(** X7: [computeVentricularPH] returns class IV exactly when PAH is
    "yes", or LVEF is "<30%", or NYHA is "III/IV", or LVEF is ">45%" with
    RVfunction other than "significant" and PPCM "> mild residual". *)
Theorem ventricular_class_IV_iff (d : Draft) (a : Answers) :
  mwho (computed_of d (mkApp (Some VentricularPH) a)) = Some IV <->
  a !! "PAH" = Some "yes" \/
  a !! "LVEF" = Some "<30%" \/
  a !! "NYHA" = Some "III/IV" \/
  (a !! "LVEF" = Some ">45%" /\ a !! "RVfunction" <> Some "significant" /\
   a !! "PPCM" = Some "> mild residual").
Proof.
  destruct d;
    cbn [computed_of Draft1.computed Draft2.computed Draft3.computed group answers];
    unfold Draft1.computeVentricularPH, Draft2.computeVentricularPH,
      Draft3.computeVentricularPH, answer_is;
    repeat case_bool_decide; cbn [orb mwho];
    (split; [intros ?; simplify_eq | intros ?]); try tauto;
    try (exfalso; intuition congruence).
Qed.

(** ** Classes and notes of the flat rule functions *)

Lemma rank_IV_is_top (m : MWHO_or_null) : rank (Some IV) <= rank m -> m = Some IV.
Proof.
  by_cases_on_classes; vm_compute; intros H; try reflexivity; exfalso; apply H; reflexivity.
Qed.

(** A flat rule function returns class IV exactly when one of its
    statements of class IV fires. *)
Lemma flat_class_IV_iff (d : Draft) (g : Group) (a : Answers) :
  flat g ->
  mwho (computed_of d (mkApp (Some g) a)) = Some IV <->
  exists c, (c, IV) ∈ Rules.class_rules d g /\ Rules.holds c a = true.
Proof.
  intros Hflat. split.
  - intros Hr. destruct (flat_attained d g a Hflat) as [H | (c & cls & Hin & Hc & H)];
      cbn zeta in H; rewrite Hr in H; [discriminate|].
    injection H as <-. exists c. split; assumption.
  - intros (c & Hin & Hc). apply rank_IV_is_top.
    apply (flat_upper_bound d g a c IV); assumption.
Qed.

(** It returns a note exactly when one of its statements that push a note
    fires. *)
Lemma flat_notes_iff (d : Draft) (g : Group) (a : Answers) :
  flat g ->
  notes (computed_of d (mkApp (Some g) a)) <> [] <->
  exists c s, (c, s) ∈ Rules.note_rules d g /\ Rules.holds c a = true.
Proof.
  intros Hflat. rewrite flat_notes by exact Hflat. split.
  - destruct (Rules.kept _) as [|s l] eqn:E; [congruence|]. intros _.
    assert (s ∈ Rules.kept (Rules.fired (Rules.note_rules d g) a)) as Hs
      by (rewrite E; left).
    apply holding_rule_kept in Hs as (c & Hin & Hc). exists c, s. split; assumption.
  - intros (c & s & Hin & Hc) E.
    assert (s ∈ Rules.kept (Rules.fired (Rules.note_rules d g) a)) as Hs
      by (apply holding_rule_kept; exists c; split; assumption).
    rewrite E in Hs. inversion Hs.
Qed.

(** In [computeAortopathy] the statements of class IV are the statements
    that push a note. *)
Lemma aortopathy_IV_rules (d : Draft) :
  map fst (filter (fun r : Rules.Cond * MWHO => snd r = IV) (Rules.class_rules d Aortopathy))
  = map fst (Rules.note_rules d Aortopathy).
Proof. destruct d; reflexivity. Qed.

(** X8: [computeAortopathy] returns a note exactly when it returns class
    IV: the notes list is empty for [null] and for classes I to III, and
    not empty for class IV. *)
Theorem aortopathy_notes_iff_class_IV (d : Draft) (a : Answers) :
  notes (computed_of d (mkApp (Some Aortopathy) a)) <> [] <->
  mwho (computed_of d (mkApp (Some Aortopathy) a)) = Some IV.
Proof.
  assert (flat Aortopathy) as Hflat by discriminate.
  rewrite flat_notes_iff, flat_class_IV_iff by exact Hflat.
  assert (forall c, (exists s, (c, s) ∈ Rules.note_rules d Aortopathy)
                    <-> (c, IV) ∈ Rules.class_rules d Aortopathy) as Hsame.
  { intros c.
    assert (c ∈ map fst (Rules.note_rules d Aortopathy)
            <-> (c, IV) ∈ Rules.class_rules d Aortopathy) as H.
    { rewrite <- aortopathy_IV_rules, list_elem_of_fmap. split.
      - intros ([c' cls] & -> & Hin). apply list_elem_of_filter in Hin as [Hcls Hin].
        cbn [fst snd] in *. subst cls. exact Hin.
      - intros Hin. exists (c, IV). split; [reflexivity|].
        apply list_elem_of_filter. split; [reflexivity | exact Hin]. }
    rewrite <- H, list_elem_of_fmap. split.
    - intros (s & Hin). exists (c, s). split; [reflexivity | exact Hin].
    - intros ([c' s] & -> & Hin). exists s. exact Hin. }
  split.
  - intros (c & s & Hin & Hc). exists c. split; [|exact Hc]. apply Hsame. exists s. exact Hin.
  - intros (c & Hin & Hc). apply Hsame in Hin as (s & Hin). exists c, s. split; assumption.
Qed.

(** The class of a flat rule function is [null] or a class of its table. *)
Lemma flat_class_in_table (d : Draft) (g : Group) (a : Answers) :
  flat g ->
  mwho (computed_of d (mkApp (Some g) a))
  ∈ None :: map (fun r : Rules.Cond * MWHO => Some (snd r)) (Rules.class_rules d g).
Proof.
  intros Hflat. destruct (flat_attained d g a Hflat) as [H | (c & cls & Hin & _ & H)];
    cbn zeta in H; rewrite H; [left|]. right.
  apply list_elem_of_fmap. exists (c, cls). split; [reflexivity | exact Hin].
Qed.

Ltac not_in_table H :=
  cbn [Rules.class_rules map snd] in H;
  repeat (apply elem_of_cons in H as [H|H]; [discriminate H|]);
  inversion H.

(** X9: the classes some groups never reach.  [computeCoronaryOther]
    returns [null] or class III; [computeArrhythmia] never returns class
    IV; [computeCardiomyopathy] and [computeValvular] never return class
    II. *)
Theorem classes_never_returned (d : Draft) (a : Answers) :
  mwho (computed_of d (mkApp (Some CoronaryOther) a)) ∈ [None; Some III] /\
  mwho (computed_of d (mkApp (Some Arrhythmia) a)) <> Some IV /\
  mwho (computed_of d (mkApp (Some Cardiomyopathy) a)) <> Some II /\
  mwho (computed_of d (mkApp (Some Valvular) a)) <> Some II.
Proof.
  pose proof (flat_class_in_table d CoronaryOther a ltac:(discriminate)) as H1.
  pose proof (flat_class_in_table d Arrhythmia a ltac:(discriminate)) as H2.
  pose proof (flat_class_in_table d Cardiomyopathy a ltac:(discriminate)) as H3.
  pose proof (flat_class_in_table d Valvular a ltac:(discriminate)) as H4.
  revert H1 H2 H3 H4.
  generalize (mwho (computed_of d (mkApp (Some CoronaryOther) a))).
  generalize (mwho (computed_of d (mkApp (Some Arrhythmia) a))).
  generalize (mwho (computed_of d (mkApp (Some Cardiomyopathy) a))).
  generalize (mwho (computed_of d (mkApp (Some Valvular) a))).
  intros m4 m3 m2 m1 H1 H2 H3 H4.
  repeat split.
  - destruct d, m1 as [[]|]; first [ by repeat constructor | exfalso; not_in_table H1 ].
  - intros ->. destruct d; not_in_table H2.
  - intros ->. destruct d; not_in_table H3.
  - intros ->. destruct d; not_in_table H4.
Qed.

(** ** Rule functions and question forms *)

(** X10: the result of a rule function depends only on the answers to the
    questions of its own group: two answer sets that agree on the names of
    the questions [GroupQuestions] renders for the group give the same
    class and the same notes. *)
Theorem result_depends_only_on_group_questions (d : Draft) (g : Group) (a a' : Answers) :
  (forall k, k ∈ Forms.names d g -> a !! k = a' !! k) ->
  computed_of d (mkApp (Some g) a) = computed_of d (mkApp (Some g) a').
Proof.
  intros H. rewrite !read_correct. apply read_agree. intros k Hk. apply H.
  pose proof (keys_read_are_questions d g) as Hq.
  rewrite forallb_forall in Hq. apply list_elem_of_In, Hq in Hk.
  apply bool_decide_eq_true in Hk. exact Hk.
Qed.

Lemma result_depends_only_on_group_questions_witness :
  let a : Answers := <["MS" := "severe"]> ∅ in
  let a' : Answers := <["SCAD" := "yes"]> (<["Fontan" := "complicated"]> (<["MS" := "severe"]> ∅)) in
  (forall k, k ∈ Forms.names Third Valvular -> a !! k = a' !! k) /\
  computed_of Third (mkApp (Some Valvular) a) = computed_of Third (mkApp (Some Valvular) a').
Proof.
  cbn zeta.
  assert (forall k, k ∈ Forms.names Third Valvular ->
            (<["MS" := "severe"]> ∅ : Answers) !! k
            = (<["SCAD" := "yes"]> (<["Fontan" := "complicated"]> (<["MS" := "severe"]> ∅)) : Answers) !! k)
    as H.
  { intros k Hk. cbn in Hk.
    repeat (apply elem_of_cons in Hk as [-> | Hk]; [reflexivity|]). inversion Hk. }
  split; [exact H|].
  apply (result_depends_only_on_group_questions Third Valvular _ _ H).
Defined.

(** No question name is used by two groups of a draft, and the keys a rule
    function reads belong to its own group. *)
Lemma other_groups_keys_not_read (d : Draft) (g g' : Group) :
  g <> g' ->
  forallb (fun k => negb (bool_decide (k ∈ Rules.keys_read d g'))) (Forms.names d g) = true.
Proof. intros Hne. destruct d, g, g'; first [contradiction Hne; reflexivity | vm_compute; reflexivity]. Qed.

Lemma offers_name (d : Draft) (g : Group) (k v : string) :
  Forms.offers d g k v = true -> k ∈ Forms.names d g.
Proof.
  unfold Forms.offers, Forms.names. rewrite existsb_exists.
  intros (q & Hin & Hq). apply andb_true_iff in Hq as [Hk _].
  apply bool_decide_eq_true in Hk. subst k.
  apply list_elem_of_fmap. exists q. split; [reflexivity | apply list_elem_of_In, Hin].
Qed.

(** X11: picking an option in the form of one group never changes the
    result of another group: the rule function of [g'] returns the same on
    the answers with and without an answer to a question of [g]. *)
Theorem answers_of_other_groups_ignored (d : Draft) (g g' : Group) (k v : string) (a : Answers) :
  g <> g' ->
  Forms.offers d g k v = true ->
  computed_of d (mkApp (Some g') (<[k := v]> a)) = computed_of d (mkApp (Some g') a).
Proof.
  intros Hne Hoff. rewrite !read_correct. apply read_agree. intros k' Hk'.
  apply lookup_insert_ne. intros <-.
  pose proof (other_groups_keys_not_read d g g' Hne) as H.
  rewrite forallb_forall in H.
  specialize (H k (proj1 (list_elem_of_In _ _) (offers_name d g k v Hoff))).
  apply negb_true_iff, bool_decide_eq_false in H. contradiction.
Qed.

Lemma answers_of_other_groups_ignored_witness :
  Congenital <> Valvular /\
  Forms.offers Second Congenital "Fontan" "complicated" = true /\
  computed_of Second (mkApp (Some Valvular) (<["Fontan" := "complicated"]> (<["MS" := "moderate"]> ∅)))
  = computed_of Second (mkApp (Some Valvular) (<["MS" := "moderate"]> ∅)).
Proof.
  split; [discriminate|]. split; [reflexivity|].
  apply (answers_of_other_groups_ignored Second Congenital Valvular); [discriminate | reflexivity].
Defined.

(** X12: every value a rule function tests with [===] is an option of the
    question of that name in the form of its group, in each draft: no test
    is on a value the form cannot produce. *)
Theorem tested_values_are_offered (d : Draft) (g : Group) (k v : string) :
  (k, v) ∈ Rules.tests_made d g -> Forms.offers d g k v = true.
Proof.
  intros Hin.
  assert (forallb (fun t : string * string => Forms.offers d g (fst t) (snd t))
            (Rules.tests_made d g) = true) as H
    by (destruct d, g; vm_compute; reflexivity).
  rewrite forallb_forall in H. apply (H (k, v)), list_elem_of_In, Hin.
Qed.

Lemma tested_values_are_offered_witness :
  ("MR_sev", "unknown") ∈ Rules.tests_made Second Valvular /\
  Forms.offers Second Valvular "MR_sev" "unknown" = true.
Proof.
  assert (("MR_sev", "unknown") ∈ Rules.tests_made Second Valvular) as H
    by (apply list_elem_of_In; vm_compute; tauto).
  split; [exact H|].
  apply (tested_values_are_offered Second Valvular "MR_sev" "unknown" H).
Defined.

(** X13: no statement of a flat rule function is dead: for each of them
    there are answers, all of them options of the group's form, on which
    its condition holds and the function returns exactly its class. *)
Theorem every_statement_can_decide (d : Draft) (g : Group) (c : Rules.Cond) (cls : MWHO) :
  (c, cls) ∈ Rules.class_rules d g ->
  Forms.filled_from d g (answers_for c) /\
  Rules.holds c (answers_for c) = true /\
  mwho (computed_of d (mkApp (Some g) (answers_for c))) = Some cls.
Proof.
  intros Hin.
  assert (forallb (fun r : Rules.Cond * MWHO =>
            bool_decide (Forms.filled_from d g (answers_for (fst r)))
            && Rules.holds (fst r) (answers_for (fst r))
            && bool_decide (mwho (computed_of d (mkApp (Some g) (answers_for (fst r))))
                            = Some (snd r)))
            (Rules.class_rules d g) = true) as H
    by (destruct d, g; vm_compute; reflexivity).
  rewrite forallb_forall in H. specialize (H (c, cls) (proj1 (list_elem_of_In _ _) Hin)).
  cbn [fst snd] in H. apply andb_true_iff in H as [H H3]. apply andb_true_iff in H as [H1 H2].
  apply bool_decide_eq_true in H1, H3. repeat split; assumption.
Qed.

Lemma every_statement_can_decide_witness :
  let c := Rules.And (Rules.Is "MVP_present" "yes")
             (Rules.Or (Rules.Is "MR_sev" "none/trace") (Rules.Is "MR_sev" "mild")) in
  (c, I) ∈ Rules.class_rules First Valvular /\
  Forms.filled_from First Valvular (answers_for c) /\
  Rules.holds c (answers_for c) = true /\
  mwho (computed_of First (mkApp (Some Valvular) (answers_for c))) = Some I.
Proof.
  cbn zeta.
  assert ((Rules.And (Rules.Is "MVP_present" "yes")
             (Rules.Or (Rules.Is "MR_sev" "none/trace") (Rules.Is "MR_sev" "mild")), I)
          ∈ Rules.class_rules First Valvular) as H
    by (cbn [Rules.class_rules]; do 8 right; left).
  split; [exact H|].
  apply (every_statement_can_decide First Valvular _ I H).
Defined.

(** ** Sessions *)

Lemma step_answers (d : Draft) (s : AppState) (e : Event) :
  answers (step_of d s e)
  = match e with
    | ClickGroup _ => match d with First => ∅ | _ => answers s end
    | PickOption k v => <[k := v]> (answers s)
    | ClickReset => ∅
    end.
Proof. destruct d, e; reflexivity. Qed.

Lemma step_group (d : Draft) (s : AppState) (e : Event) :
  group (step_of d s e)
  = match e with
    | ClickGroup g => Some g
    | PickOption _ _ => group s
    | ClickReset => None
    end.
Proof. destruct d, e; reflexivity. Qed.

(** X14: what a session can hold.  In every state a session reaches,
    the answer set is empty while no group is selected, and every stored
    answer is an option of a question of some group's form; in the first
    draft every stored answer is an option of a question of the selected
    group. *)
Theorem reachable_answers_come_from_forms (d : Draft) (s : AppState) :
  reachable d s ->
  (group s = None -> answers s = ∅) /\
  (forall k v, answers s !! k = Some v -> exists g, Forms.offers d g k v = true) /\
  (d = First -> forall g, group s = Some g -> Forms.filled_from First g (answers s)).
Proof.
  induction 1 as [|s e Hs (IH1 & IH2 & IH3) He].
  - repeat split; [intros k v | intros _ g]; cbn; [rewrite lookup_empty|]; discriminate.
  - rewrite step_answers, step_group. destruct e as [g0 | k0 v0 |]; cbn [enabled] in He.
    + repeat split; [discriminate | |].
      * destruct d; [intros k v; rewrite lookup_empty; discriminate | exact IH2 | exact IH2].
      * intros -> g _. apply map_Forall_empty.
    + destruct (group s) as [g0|] eqn:Hg; [|discriminate He].
      repeat split; [discriminate | |].
      * intros k v. rewrite lookup_insert. case_decide.
        -- intros [= <-]. subst k. exists g0. exact He.
        -- apply IH2.
      * intros -> g [= <-]. apply map_Forall_insert_2; [exact He|].
        apply IH3; reflexivity.
    + repeat split; [intros k v; rewrite lookup_empty; discriminate|].
      intros _ g [=].
Qed.

Lemma reachable_answers_come_from_forms_witness :
  reachable Second (mkApp (Some Congenital) (<["MS" := "severe"]> ∅)) /\
  (forall k v, (<["MS" := "severe"]> ∅ : Answers) !! k = Some v ->
               exists g, Forms.offers Second g k v = true).
Proof.
  assert (reachable Second (mkApp (Some Congenital) (<["MS" := "severe"]> ∅))) as H.
  { exact (reachable_step Second _ (ClickGroup Congenital)
             (reachable_step Second _ (PickOption "MS" "severe")
                (reachable_step Second _ (ClickGroup Valvular)
                   (reachable_initial Second) eq_refl)
                eq_refl)
             eq_refl). }
  split; [exact H|].
  apply (proj1 (proj2 (reachable_answers_come_from_forms Second _ H))).
Defined.

(** X15: picking an option stores it under the name of its question and
    touches nothing else: the question then reads as that option and as no
    other one, the other questions and the group are as before, a second
    pick on the same question replaces the first, and picks on different
    questions can be made in either order. *)
Theorem picking_an_option (k v : string) (s : AppState) :
  answers (set k v s) !! k = Some v /\
  (forall v', v' <> v -> answer_is (answers (set k v s)) k v' = false) /\
  (forall k', k' <> k -> answers (set k v s) !! k' = answers s !! k') /\
  group (set k v s) = group s /\
  (forall v', set k v (set k v' s) = set k v s) /\
  (forall k' v', k <> k' -> set k v (set k' v' s) = set k' v' (set k v s)).
Proof.
  unfold set, setAnswers. cbn [next_state answers group].
  split; [apply lookup_insert_eq|]. split.
  { intros v' Hv. unfold answer_is. apply bool_decide_eq_false.
    rewrite lookup_insert_eq. congruence. }
  split; [intros k' Hk; apply lookup_insert_ne; congruence|].
  split; [reflexivity|]. split.
  - intros v'. f_equal. apply insert_insert_eq.
  - intros k' v' Hk. f_equal. apply insert_insert_ne. exact Hk.
Qed.

(** X16: selecting a group none of whose questions has a stored answer
    shows no class and no note, in each draft, whatever answers to the
    questions of other groups the session still holds. *)
Theorem untouched_group_shows_nothing (d : Draft) (s : AppState) (g : Group) :
  (forall k, k ∈ Forms.names d g -> answers s !! k = None) ->
  computed_of d (step_of d s (ClickGroup g)) = mkResult None [].
Proof.
  intros H.
  assert (computed_of d (mkApp (Some g) ∅) = mkResult None []) as Hempty
    by (destruct d, g; reflexivity).
  rewrite <- Hempty.
  assert (step_of d s (ClickGroup g)
          = mkApp (Some g) (answers (step_of d s (ClickGroup g)))) as ->
    by (destruct d; reflexivity).
  rewrite !read_correct. apply read_agree. intros k Hk.
  rewrite lookup_empty, step_answers.
  pose proof (keys_read_are_questions d g) as Hq.
  rewrite forallb_forall in Hq. apply list_elem_of_In, Hq in Hk.
  apply bool_decide_eq_true in Hk.
  destruct d; [apply lookup_empty | |]; apply H, Hk.
Qed.

Lemma untouched_group_shows_nothing_witness :
  (forall k, k ∈ Forms.names Third Congenital -> answers state_valvular_answered !! k = None) /\
  computed_of Third (step_of Third state_valvular_answered (ClickGroup Congenital))
  = mkResult None [].
Proof.
  assert (forall k, k ∈ Forms.names Third Congenital ->
                    answers state_valvular_answered !! k = None) as H.
  { intros k Hk. cbn in Hk.
    repeat (apply elem_of_cons in Hk as [-> | Hk]; [reflexivity|]). inversion Hk. }
  split; [exact H|].
  apply (untouched_group_shows_nothing Third state_valvular_answered Congenital H).
Defined.

(** ** Notes *)

(** X17: the second draft's [computeValvular] returns the note "MVP
    present but MR severity unknown — cannot assume class I" exactly when
    MVP_present is "yes" and MR_sev is unanswered, empty or "unknown"; the
    first and the third draft never return it. *)
Theorem MVP_note_iff (a : Answers) :
  let note := "MVP present but MR severity unknown — cannot assume class I" in
  (note ∈ notes (Draft2.computeValvular a) <->
   a !! "MVP_present" = Some "yes" /\
   (a !! "MR_sev" = None \/ a !! "MR_sev" = Some "" \/ a !! "MR_sev" = Some "unknown")) /\
  (note ∉ notes (Draft1.computeValvular a)) /\
  (note ∉ notes (Draft3.computeValvular a)).
Proof.
  cbn zeta.
  change (Draft2.computeValvular a) with (computed_of Second (mkApp (Some Valvular) a)).
  change (Draft1.computeValvular a) with (computed_of First (mkApp (Some Valvular) a)).
  change (Draft3.computeValvular a) with (computed_of Third (mkApp (Some Valvular) a)).
  rewrite !flat_notes by discriminate. rewrite !holding_rule_kept.
  cbn [Rules.note_rules]. split; [split|split].
  - intros (c & Hin & Hc).
    repeat (apply elem_of_cons in Hin as [Hin | Hin]); [simplify_eq .. | inversion Hin].
    cbn [Rules.holds] in Hc. unfold answer_is, falsy in Hc.
    repeat case_bool_decide; cbn [andb orb negb] in Hc; try discriminate Hc; tauto.
  - intros [H1 H2]. eexists. split; [right; left|].
    cbn [Rules.holds]. unfold answer_is, falsy.
    repeat case_bool_decide; cbn [andb orb negb]; try reflexivity;
      exfalso; intuition congruence.
  - intros (c & Hin & _).
    repeat (apply elem_of_cons in Hin as [Hin | Hin]); [simplify_eq .. | inversion Hin].
  - intros (c & Hin & _).
    repeat (apply elem_of_cons in Hin as [Hin | Hin]); [simplify_eq .. | inversion Hin].
Qed.

(** In every table but the Valvular one of the second draft, the
    conditions that push a note are made of [===] tests only. *)
Lemma note_rules_positive (d : Draft) (g : Group) :
  (d, g) <> (Second, Valvular) ->
  forallb (fun r : Rules.Cond * string => Rules.positive (fst r)) (Rules.note_rules d g) = true.
Proof. intros H. destruct d, g; first [reflexivity | contradiction H; reflexivity]. Qed.

(** X18: answering more questions never removes a note of a flat rule
    function, except in the second draft's [computeValvular]: if every
    answer of [a] is also in [a'], the notes on [a] are notes on [a'], in
    the same order. *)
Theorem flat_notes_grow (d : Draft) (g : Group) (a a' : Answers) :
  flat g -> (d, g) <> (Second, Valvular) -> a ⊆ a' ->
  notes (computed_of d (mkApp (Some g) a))
    `sublist_of` notes (computed_of d (mkApp (Some g) a')).
Proof.
  intros Hflat Hd Hsub. rewrite !flat_notes by exact Hflat.
  apply kept_sublist, fired_mono; [apply note_rules_positive, Hd | exact Hsub].
Qed.

Lemma flat_notes_grow_witness :
  flat Aortopathy /\ (First, Aortopathy) <> (Second, Valvular) /\
  (<["BAVGt50" := "yes"]> ∅ : Answers) ⊆ <["MarfanGt45" := "yes"]> (<["BAVGt50" := "yes"]> ∅) /\
  notes (computed_of First (mkApp (Some Aortopathy) (<["BAVGt50" := "yes"]> ∅)))
    `sublist_of`
  notes (computed_of First (mkApp (Some Aortopathy)
           (<["MarfanGt45" := "yes"]> (<["BAVGt50" := "yes"]> ∅)))).
Proof.
  assert ((<["BAVGt50" := "yes"]> ∅ : Answers)
          ⊆ <["MarfanGt45" := "yes"]> (<["BAVGt50" := "yes"]> ∅)) as Hsub
    by (apply insert_subseteq; reflexivity).
  split; [discriminate|]. split; [discriminate|]. split; [exact Hsub|].
  apply (flat_notes_grow First Aortopathy _ _); [discriminate | discriminate | exact Hsub].
Defined.

(** The exception: in the second draft, answering MR_sev removes the note
    on an unknown MR severity. *)
Lemma valvular_note_can_disappear :
  (<["MVP_present" := "yes"]> ∅ : Answers)
    ⊆ <["MR_sev" := "mild"]> (<["MVP_present" := "yes"]> ∅) /\
  notes (Draft2.computeValvular (<["MVP_present" := "yes"]> ∅))
    = ["MVP present but MR severity unknown — cannot assume class I"] /\
  notes (Draft2.computeValvular (<["MR_sev" := "mild"]> (<["MVP_present" := "yes"]> ∅))) = [].
Proof.
  split; [apply insert_subseteq; reflexivity|]. split; reflexivity.
Qed.

(** * The summary text *)

(** ** Bytes of strings *)

Lemma bytes_app (s1 s2 : string) :
  String.list_ascii_of_string (s1 +:+ s2)
  = (String.list_ascii_of_string s1 ++ String.list_ascii_of_string s2)%list.
Proof. induction s1 as [|c s1 IH]; simpl; [reflexivity | f_equal; exact IH]. Qed.

Lemma append_cancel (p x y : string) : p +:+ x = p +:+ y -> x = y.
Proof. induction p as [|c p IH]; cbn; [tauto | intros [= H]; exact (IH H)]. Qed.

(** A text is cut at its first line feed in one way only. *)
Lemma first_line_unique (a b x y : string) :
  Text.one_line a = true -> Text.one_line b = true ->
  a +:+ Text.nl +:+ x = b +:+ Text.nl +:+ y -> a = b /\ x = y.
Proof.
  revert b. induction a as [|c a IH]; intros [|c' b]; simpl; intros Ha Hb H.
  - injection H as H. split; [reflexivity | exact H].
  - injection H as Hc _. rewrite <- Hc in Hb. discriminate Hb.
  - injection H as Hc _. rewrite Hc in Ha. discriminate Ha.
  - injection H as Hc H. apply andb_prop in Ha as [_ Ha], Hb as [_ Hb].
    destruct (IH b Ha Hb H) as [Hab Hxy]. split; [congruence | exact Hxy].
Qed.

(** ** What [trim] leaves alone *)

Lemma plain_is_not_white (c : Ascii.ascii) :
  Text.plain c = true ->
  Text.white1 c = false /\
  forall x y, Text.white2 c x = false /\ Text.white2 x c = false /\
              Text.white3 c x y = false /\ Text.white3 x y c = false.
Proof.
  unfold Text.plain. intros [Hlt Hw]%andb_prop.
  apply N.ltb_lt in Hlt. apply negb_true_iff in Hw. split; [exact Hw|].
  assert (forall k, (128 <= k)%N -> (Ascii.N_of_ascii c =? k)%N = false) as Hne
      by (intros k Hk; apply N.eqb_neq; lia).
  assert ((128 <=? Ascii.N_of_ascii c)%N = false) as Hle by (apply N.leb_gt; lia).
  intros x y. unfold Text.white2, Text.white3. cbv zeta.
  rewrite !Hne by lia. rewrite Hle.
  repeat (rewrite ?andb_false_r, ?orb_false_r; cbn [andb orb]).
  repeat split; reflexivity.
Qed.

Lemma drop_white_plain (c : Ascii.ascii) (l : list Ascii.ascii) :
  Text.plain c = true -> Text.drop_white (c :: l) = c :: l.
Proof.
  intros [H1 H]%plain_is_not_white. cbn [Text.drop_white]. rewrite H1.
  destruct l as [|c2 [|c3 l]]; [reflexivity | |].
  - destruct (H c2 c2) as (-> & _). reflexivity.
  - destruct (H c2 c3) as (-> & _ & -> & _). reflexivity.
Qed.

Lemma drop_white_rev_plain (c : Ascii.ascii) (l : list Ascii.ascii) :
  Text.plain c = true -> Text.drop_white_rev (c :: l) = c :: l.
Proof.
  intros [H1 H]%plain_is_not_white. cbn [Text.drop_white_rev]. rewrite H1.
  destruct l as [|c2 [|c3 l]]; [reflexivity | |].
  - destruct (H c2 c2) as (_ & -> & _). reflexivity.
  - destruct (H c3 c2) as (_ & _ & _ & ->). destruct (H c2 c2) as (_ & -> & _).
    reflexivity.
Qed.

Lemma trim_plain_ends (s : string) :
  Text.starts_plain s = true -> Text.ends_plain s = true -> Text.trim s = s.
Proof.
  unfold Text.starts_plain, Text.ends_plain, Text.trim. intros Hs He.
  destruct (String.list_ascii_of_string s) as [|c l] eqn:Hl; [discriminate Hs|].
  rewrite (drop_white_plain c l Hs).
  destruct (rev (c :: l)) as [|c' l'] eqn:Hr; [discriminate He|].
  rewrite (drop_white_rev_plain c' l' He), <- Hr, rev_involutive, <- Hl.
  apply String.string_of_list_ascii_of_string.
Qed.

Lemma ends_plain_app (s1 s2 : string) :
  Text.ends_plain s2 = true -> Text.ends_plain (s1 +:+ s2) = true.
Proof.
  unfold Text.ends_plain. rewrite bytes_app, rev_app_distr.
  destruct (rev (String.list_ascii_of_string s2)) as [|c l]; [discriminate|].
  intros H. exact H.
Qed.

Lemma ends_plain_join (sep : string) (l : list string) :
  l <> [] -> Forall (fun n => Text.ends_plain n = true) l ->
  Text.ends_plain (Text.join sep l) = true.
Proof.
  intros Hne Hall. induction Hall as [|x l Hx Hall IH]; [contradiction Hne; reflexivity|].
  destruct l as [|y l]; [exact Hx|].
  change (Text.join sep (x :: y :: l)) with (x +:+ sep +:+ Text.join sep (y :: l)).
  do 2 apply ends_plain_app. apply IH. discriminate.
Qed.

(** ** The notes the rule functions can return *)

Lemma tree_notes_cover (t : Rules.Tree) (a : Answers) (n : string) :
  n ∈ notes (Rules.run_tree t a) -> n ∈ tree_notes t.
Proof.
  induction t as [r | c yes IHy no IHn]; cbn [Rules.run_tree tree_notes]; [tauto|].
  rewrite elem_of_app. destruct (Rules.holds c a); [left | right]; auto.
Qed.

Lemma notes_are_possible (d : Draft) (g : Group) (a : Answers) (n : string) :
  n ∈ notes (computed_of d (mkApp (Some g) a)) -> n ∈ possible_notes d g.
Proof.
  destruct (decide (g = VentricularPH)) as [-> | Hflat].
  - rewrite read_correct. apply tree_notes_cover.
  - rewrite (flat_notes d g a Hflat), elem_of_kept, elem_of_fired.
    intros (c & Hin & _).
    assert (possible_notes d g = map snd (Rules.note_rules d g)) as ->
        by (destruct g; [contradiction Hflat | ..]; reflexivity).
    apply list_elem_of_fmap. exists (c, n). split; [reflexivity | exact Hin].
Qed.

Lemma notes_end_plain (d : Draft) (s : AppState) :
  Forall (fun n => Text.ends_plain n = true) (notes (computed_of d s)).
Proof.
  destruct s as [[g|] a]; [|destruct d; constructor].
  apply Forall_forall. intros n Hn%notes_are_possible.
  assert (forallb Text.ends_plain (possible_notes d g) = true) as Hall
      by (destruct d, g; vm_compute; reflexivity).
  rewrite forallb_forall in Hall. apply Hall, list_elem_of_In, Hn.
Qed.

(** ** The text *)

Ltac summary_cases template meaning :=
  lazymatch goal with
  | |- context [mkResult ?m ?ns] =>
      destruct m as [c|], ns as [|n ns];
      cbn [mwho notes];
      [ destruct c; vm_compute; reflexivity
      | apply trim_plain_ends;
        [ reflexivity
        | cbv beta delta [template]; cbn [mwho notes length Nat.eqb negb];
          repeat apply ends_plain_app; apply ends_plain_join; [discriminate | assumption] ]
      | vm_compute; reflexivity
      | apply trim_plain_ends;
        [ reflexivity
        | cbv beta delta [template]; cbn [mwho notes length Nat.eqb negb];
          repeat apply ends_plain_app; apply ends_plain_join; [discriminate | assumption] ] ]
  end.

Lemma summary1_form (g : option Group) (r : Result) :
  Forall (fun n => Text.ends_plain n = true) (notes r) ->
  Summary1.summary g r
  = match mwho r, notes r with
    | None, [] => blank_summary g
    | _, _ => Summary1.template g r
    end.
Proof.
  destruct r as [m ns]. cbn [notes]. intros Hall. unfold Summary1.summary.
  destruct g as [[]|]; summary_cases Summary1.template Summary1.meaningByMWHO.
Qed.

Lemma summary2_form (g : option Group) (r : Result) :
  Forall (fun n => Text.ends_plain n = true) (notes r) ->
  Summary2.summary g r
  = match mwho r, notes r with
    | None, [] => blank_summary g
    | _, _ => Summary2.template g r
    end.
Proof.
  destruct r as [m ns]. cbn [notes]. intros Hall. unfold Summary2.summary.
  destruct g as [[]|]; summary_cases Summary2.template Summary2.meaningByMWHO.
Qed.

(** X19: [trim()] changes the summary in one case only.  When the rule
    function returned no class and no note, the text ends with
    "Delivery guidance: " and [trim()] removes that last space; in every
    other case the summary is the template literal as it stands, since it
    starts with "Group" and ends with the last character of a guidance
    text or of a note, none of which is white space.  In particular the
    spaces that end the four guidance lines of a result without class stay
    when a "Flags" line follows. *)
Theorem summary_trimmed_only_when_blank (s : AppState) :
  summary1 s
  = match mwho (Draft1.computed s), notes (Draft1.computed s) with
    | None, [] => blank_summary (group s)
    | _, _ => Summary1.template (group s) (Draft1.computed s)
    end /\
  summary2 s
  = match mwho (Draft2.computed s), notes (Draft2.computed s) with
    | None, [] => blank_summary (group s)
    | _, _ => Summary2.template (group s) (Draft2.computed s)
    end.
Proof.
  split.
  - unfold summary1. rewrite summary1_form by apply (notes_end_plain First). reflexivity.
  - unfold summary2. rewrite summary2_form by apply (notes_end_plain Second). reflexivity.
Qed.

Lemma first_lines_inj (g g' : option Group) (m m' : MWHO_or_null) (r r' : string) :
  first_lines g m r = first_lines g' m' r' -> g = g' /\ m = m'.
Proof.
  unfold first_lines. intros H.
  apply append_cancel, first_line_unique in H as [Hg H];
    [| destruct g as [[]|]; reflexivity | destruct g' as [[]|]; reflexivity].
  apply append_cancel, first_line_unique in H as [Hm _];
    [| destruct m as [[]|]; reflexivity | destruct m' as [[]|]; reflexivity].
  split.
  - destruct g as [[]|], g' as [[]|]; try reflexivity; discriminate Hg.
  - destruct m as [[]|], m' as [[]|]; try reflexivity; discriminate Hm.
Qed.

Lemma summary1_first_lines (s : AppState) :
  exists rest, summary1 s = first_lines (group s) (mwho (Draft1.computed s)) rest.
Proof.
  unfold summary1. rewrite summary1_form by apply (notes_end_plain First).
  destruct (Draft1.computed s) as [[c|] [|n ns]]; cbn [mwho notes];
    eexists; unfold Summary1.template, blank_summary, first_lines; cbn [mwho];
    reflexivity.
Qed.

Lemma summary2_first_lines (s : AppState) :
  exists rest, summary2 s = first_lines (group s) (mwho (Draft2.computed s)) rest.
Proof.
  unfold summary2. rewrite summary2_form by apply (notes_end_plain Second).
  destruct (Draft2.computed s) as [[c|] [|n ns]]; cbn [mwho notes];
    eexists; unfold Summary2.template, blank_summary, first_lines; cbn [mwho];
    reflexivity.
Qed.

(** X20: the summary tells the group and the class: two states of a
    session with the same summary have the same selected group and their
    rule functions returned the same class.  (The text starts with the
    lines "Group: ..." and "Result: ...", no group name and no class
    contains a line feed, and the names are pairwise different.) *)
Theorem summary_identifies_group_and_class (s s' : AppState) :
  (summary1 s = summary1 s' ->
   group s = group s' /\ mwho (Draft1.computed s) = mwho (Draft1.computed s')) /\
  (summary2 s = summary2 s' ->
   group s = group s' /\ mwho (Draft2.computed s) = mwho (Draft2.computed s')).
Proof.
  split; intros H.
  - destruct (summary1_first_lines s) as [r Hr], (summary1_first_lines s') as [r' Hr'].
    rewrite Hr, Hr' in H. exact (first_lines_inj _ _ _ _ _ _ H).
  - destruct (summary2_first_lines s) as [r Hr], (summary2_first_lines s') as [r' Hr'].
    rewrite Hr, Hr' in H. exact (first_lines_inj _ _ _ _ _ _ H).
Qed.

(** ** Notes and classes *)

Lemma note_rule_has_class (d : Draft) (g : Group) (c : Rules.Cond) (n : string) :
  (c, n) ∈ Rules.note_rules d g ->
  (exists cls, (c, cls) ∈ Rules.class_rules d g) \/
  (d = Second /\ g = Valvular /\
   n = "MVP present but MR severity unknown — cannot assume class I").
Proof.
  destruct d, g; cbn [Rules.note_rules]; intros H;
    repeat (apply elem_of_cons in H as [H | H]); try (inversion H; fail);
    injection H as -> ->;
    first [ right; repeat split; reflexivity
          | left; eexists;
            solve [repeat first [apply list_elem_of_here | apply list_elem_of_further]] ].
Qed.

(** X21: a note never comes without a class, except one.  If a rule
    function returns a note and no class, it is the second draft's
    [computeValvular] and the note is "MVP present but MR severity unknown
    — cannot assume class I", the only [notes.push] of the file that is
    not next to an assignment of the class. *)
Theorem note_without_class_is_MVP_note (d : Draft) (s : AppState) (n : string) :
  n ∈ notes (computed_of d s) ->
  mwho (computed_of d s) = None ->
  d = Second /\ group s = Some Valvular /\
  n = "MVP present but MR severity unknown — cannot assume class I".
Proof.
  destruct s as [[g|] a]; [|destruct d; intros H; inversion H].
  destruct (decide (g = VentricularPH)) as [-> | Hflat].
  - rewrite read_correct. cbn [Rules.read Rules.ventricular Rules.run_tree].
    repeat lazymatch goal with
           | |- context [if ?b then _ else _] => destruct b
           end;
      cbn [notes mwho]; intros Hn Hm; try discriminate Hm; inversion Hn.
  - intros Hn Hm.
    rewrite (flat_notes d g a Hflat), elem_of_kept, elem_of_fired in Hn.
    destruct Hn as (c & Hin & Hc).
    destruct (note_rule_has_class d g c n Hin) as [[cls Hcls] | (-> & -> & ->)].
    + pose proof (flat_upper_bound d g a c cls Hflat Hcls Hc) as Hle.
      rewrite Hm in Hle. destruct cls; vm_compute in Hle; contradiction Hle; reflexivity.
    + repeat split; reflexivity.
Qed.

Lemma note_without_class_is_MVP_note_witness :
  let s := mkApp (Some Valvular) (<["MVP_present" := "yes"]> ∅) in
  let n := "MVP present but MR severity unknown — cannot assume class I" in
  n ∈ notes (computed_of Second s) /\
  mwho (computed_of Second s) = None /\
  (Second = Second /\ group s = Some Valvular /\ n = n).
Proof.
  cbv zeta.
  assert ("MVP present but MR severity unknown — cannot assume class I"
          ∈ notes (computed_of Second (mkApp (Some Valvular) (<["MVP_present" := "yes"]> ∅))))
    as Hn by (vm_compute; apply list_elem_of_here).
  split; [exact Hn|]. split; [reflexivity|].
  apply (note_without_class_is_MVP_note Second _ _ Hn). reflexivity.
Defined.
